(** * PDFId service: triage, carving disposition and object-stream driver

    A shallow embedding of the parts of [pdf_id/pdf_id.py] that decide
    which objects are extracted, which text is carved, how carved text is
    reported, and how compressed-object containers are reconstructed and
    fed back to the analysis.

    Python values are modelled as follows:
    - [str] is a list of Unicode code points ([N]); [bytes] is a list of
      [byte];
    - [set] is a [gset], the dictionary [carved_content] is a [gmap];
    - an uncaught exception is the [Raise] outcome of the [res] type;
    - the structural parser ([pdf_parser.PDFParserMain]), [hashlib.sha256]
      and the indicator matcher ([PatternMatch.ioc_match]) are code outside
      this repository's service module: they are fields of [Externals]. *)

From Stdlib Require Import NArith ZArith Ascii String List Lia Bool.
From Stdlib.Strings Require Import Byte.
From stdpp Require Import base option list gmap sets sorting pretty.

Local Open Scope N_scope.
Local Open Scope list_scope.

(** ** Python strings *)

Module Py.

Abbreviation str := (list N) (only parsing).
Abbreviation bytes := (list Init.Byte.byte) (only parsing).

(** A string literal of the source, as a list of code points. *)
Definition py (s : string) : str := map N_of_ascii (list_ascii_of_string s).
#[global] Arguments py : simpl never.

Fixpoint eqb (s t : str) : bool :=
  match s, t with
  | [], [] => true
  | a :: s', b :: t' => (a =? b) && eqb s' t'
  | _, _ => false
  end.

(** [s.startswith(t)] *)
Fixpoint startswith (s t : str) {struct t} : bool :=
  match t, s with
  | [], _ => true
  | b :: t', a :: s' => (a =? b) && startswith s' t'
  | _ :: _, [] => false
  end.

(** [t in s] for strings *)
Fixpoint isin (t s : str) : bool :=
  startswith s t ||
  match s with
  | [] => false
  | _ :: s' => isin t s'
  end.

(** [x in l] for a list of strings *)
Definition inlist (x : str) (l : list str) : bool := existsb (eqb x) l.

(** [s[0:n]] *)
Definition slice0 (n : nat) (s : str) : str := take n s.

(** [s[n:]] *)
Definition slice_from (n : nat) (s : str) : str := drop n s.

(** [l[i]]: [None] stands for [IndexError]. *)
Definition index {A} (l : list A) (i : nat) : option A := nth_error l i.

Definition budget_left (b : option nat) : bool :=
  match b with
  | Some O => false
  | _ => true
  end.

Definition budget_pred (b : option nat) : option nat :=
  match b with
  | Some n => Some (Nat.pred n)
  | None => None
  end.

(** The scan behind [s.split(sep, maxsplit)] for a non-empty [sep]:
    [cur] is the current field (reversed), [skip] the number of
    characters of a separator still to be passed over. *)
Fixpoint split_from (sep : str) (b : option nat) (cur : str) (skip : nat)
    (s : str) : list str :=
  match s with
  | [] => [rev cur]
  | c :: s' =>
      match skip with
      | S k => split_from sep b cur k s'
      | O =>
          if budget_left b && startswith s sep
          then rev cur :: split_from sep (budget_pred b) [] (Nat.pred (length sep)) s'
          else split_from sep b (c :: cur) O s'
      end
  end.

(** [s.split(sep, maxsplit)]; [maxsplit = None] is the unbounded form
    [s.split(sep)].  An empty separator is [ValueError] ([None]). *)
Definition split (s sep : str) (maxsplit : option nat) : option (list str) :=
  match sep with
  | [] => None
  | _ :: _ => Some (split_from sep maxsplit [] O s)
  end.

Fixpoint replace_from (old new : str) (skip : nat) (s : str) : str :=
  match s with
  | [] => []
  | c :: s' =>
      match skip with
      | S k => replace_from old new k s'
      | O =>
          if startswith s old
          then new ++ replace_from old new (Nat.pred (length old)) s'
          else c :: replace_from old new O s'
      end
  end.

(** [s.replace(old, new)] *)
Definition replace (s old new : str) : str :=
  match old with
  | [] => new ++ flat_map (fun c => c :: new) s
  | _ :: _ => replace_from old new O s
  end.

(** [str.isspace] on one character. *)
Definition isspace (c : N) : bool :=
  ((9 <=? c) && (c <=? 13)) || ((28 <=? c) && (c <=? 32)) ||
  (c =? 133) || (c =? 160) || (c =? 5760) ||
  ((8192 <=? c) && (c <=? 8202)) || (c =? 8232) || (c =? 8233) ||
  (c =? 8239) || (c =? 8287) || (c =? 12288).

Fixpoint lstrip (s : str) : str :=
  match s with
  | c :: s' => if isspace c then lstrip s' else s
  | [] => []
  end.

(** [s.strip()] *)
Definition strip (s : str) : str := rev (lstrip (rev (lstrip s))).

Definition byte_of (n : N) : Init.Byte.byte :=
  match Byte.of_N n with
  | Some b => b
  | None => Init.Byte.x00
  end.

(** UTF-8 encoding of one code point; a surrogate cannot be encoded
    ([UnicodeEncodeError], here [None]). *)
Definition utf8_char (c : N) : option bytes :=
  if c <? 128 then Some [byte_of c]
  else if c <? 2048 then
    Some [byte_of (192 + c / 64); byte_of (128 + c mod 64)]
  else if (55296 <=? c) && (c <=? 57343) then None
  else if c <? 65536 then
    Some [byte_of (224 + c / 4096); byte_of (128 + (c / 64) mod 64);
          byte_of (128 + c mod 64)]
  else if c <? 1114112 then
    Some [byte_of (240 + c / 262144); byte_of (128 + (c / 4096) mod 64);
          byte_of (128 + (c / 64) mod 64); byte_of (128 + c mod 64)]
  else None.

(** [s.encode()] (UTF-8, strict). *)
Fixpoint encode (s : str) : option bytes :=
  match s with
  | [] => Some []
  | c :: s' =>
      match utf8_char c, encode s' with
      | Some b, Some bs => Some (b ++ bs)
      | _, _ => None
      end
  end.

(** Lexicographic order on code points: the order [sorted] uses on
    strings. *)
Fixpoint leb (s t : str) : bool :=
  match s, t with
  | [], _ => true
  | _ :: _, [] => false
  | a :: s', b :: t' => (a <? b) || ((a =? b) && leb s' t')
  end.

(** [os.path.basename(p)]: what follows the last slash. *)
Definition basename (p : str) : str :=
  default [] (last (split_from [47] None [] O p)).

(** [os.path.join(d, name)] on POSIX paths. *)
Definition path_join (d name : str) : str :=
  if startswith name (py "/") then name
  else match d with
       | [] => name
       | _ => if startswith (rev d) (py "/") then d ++ name
              else d ++ py "/" ++ name
       end.

End Py.

Import Py.

#[global] Instance byte_eq_decision : EqDecision Init.Byte.byte := Strings.Byte.byte_eq_dec.

(** ** Outcomes of code that may raise *)

Inductive exn := IndexError | KeyError | ValueError | UnicodeEncodeError | FileNotFoundError.

Inductive res (A : Type) :=
| Ok (a : A)
| Raise (e : exn).
Arguments Ok {A} a.
Arguments Raise {A} e.

#[global] Instance res_ret : MRet res := fun _ a => Ok a.

#[global] Instance res_bind : MBind res := fun _ _ f r =>
  match r with
  | Ok a => f a
  | Raise e => Raise e
  end.

Definition of_option {A} (e : exn) (o : option A) : res A :=
  match o with
  | Some a => Ok a
  | None => Raise e
  end.

(** ** The regular expressions of the source

    A backtracking matcher with greedy repetition, as Python's [re]
    module behaves on the patterns used in [analyze_pdf].  A repetition
    never iterates on an empty match. *)

Module Re.

Inductive re :=
| Eps
| Cls (neg : bool) (ranges : list (N * N))
| Seq (r1 r2 : re)
| Rep (lo : nat) (hi : option nat) (r : re)
| Grp (r : re).

Definition in_ranges (c : N) (ranges : list (N * N)) : bool :=
  existsb (fun '(a, b) => (a <=? c) && (c <=? b)) ranges.

Definition below (n : nat) (hi : option nat) : bool :=
  match hi with
  | Some h => Nat.ltb n h
  | None => true
  end.

Section Matcher.
Context {A : Type}.

(** [go r s g k]: match [r] at the front of [s]; [g] is the text of
    group 1 so far; [k] continues with the rest of the string. *)
Fixpoint go (r : re) (s : str) (g : option str)
    (k : str -> option str -> option A) : option A :=
  match r with
  | Eps => k s g
  | Cls neg ranges =>
      match s with
      | c :: s' => if xorb neg (in_ranges c ranges) then k s' g else None
      | [] => None
      end
  | Seq r1 r2 => go r1 s g (fun s' g' => go r2 s' g' k)
  | Rep lo hi r1 =>
      (fix loop (fuel n : nat) (s : str) (g : option str) : option A :=
         let more :=
           match fuel with
           | O => None
           | S f =>
               if below n hi
               then go r1 s g (fun s' g' =>
                      if Nat.ltb (length s') (length s)
                      then loop f (S n) s' g' else None)
               else None
           end in
         match more with
         | Some x => Some x
         | None => if Nat.leb lo n then k s g else None
         end) (S (length s)) O s g
  | Grp r1 =>
      go r1 s g (fun s' g' => k s' (Some (take (length s - length s') s)))
  end.
End Matcher.

(** [re.match(r, s)]: the matched text [group(0)] and [group(1)]. *)
Definition rmatch (r : re) (s : str) : option (str * option str) :=
  go r s None (fun s' g => Some (take (length s - length s') s, g)).

(** [re.findall(r, s)] for a pattern without groups: the successive
    non-overlapping matches, scanning from the left. *)
Fixpoint findall_from (r : re) (skip : nat) (s : str) : list str :=
  match s with
  | [] =>
      match skip, rmatch r [] with
      | O, Some (m, _) => [m]
      | _, _ => []
      end
  | _ :: s' =>
      match skip with
      | S k => findall_from r k s'
      | O =>
          match rmatch r s with
          | Some (m, _) => m :: findall_from r (Nat.pred (length m)) s'
          | None => findall_from r O s'
          end
      end
  end.

Definition findall (r : re) (s : str) : list str := findall_from r O s.

(** [re.sub(r, "", s, count)]: delete the leftmost [count] matches
    ([None]: all of them). *)
Fixpoint sub_from (r : re) (count : option nat) (skip : nat) (s : str) : str :=
  match s with
  | [] => []
  | c :: s' =>
      match skip with
      | S k => sub_from r count k s'
      | O =>
          if budget_left count then
            match rmatch r s with
            | Some (_ :: m, _) => sub_from r (budget_pred count) (length m) s'
            | Some ([], _) => c :: sub_from r (budget_pred count) O s'
            | None => c :: sub_from r count O s'
            end
          else s
      end
  end.

Definition sub_empty (r : re) (count : option nat) (s : str) : str :=
  sub_from r count O s.

(** Pattern building blocks. *)
Definition chr (c : string) : re :=
  match py c with
  | [x] => Cls false [(x, x)]
  | _ => Eps
  end.

Fixpoint lit (s : str) : re :=
  match s with
  | [] => Eps
  | c :: s' => Seq (Cls false [(c, c)]) (lit s')
  end.

Definition star (r : re) : re := Rep 0 None r.
Definition opt (r : re) : re := Rep 0 (Some 1%nat) r.
Definition digit : re := Cls false [(48, 57)].
Definition space : re := Cls false [(32, 32)].

Fixpoint seq (l : list re) : re :=
  match l with
  | [] => Eps
  | [r] => r
  | r :: l' => Seq r (seq l')
  end.

(** ["[0-9]* [0-9]* R"] *)
Definition ref_pat : re :=
  seq [star digit; space; star digit; space; chr "R"].

(** Class [[ \\rn]]: space, backslash, [r], [n]. *)
Definition ws_rn : re := Cls false [(32, 32); (92, 92); (114, 114); (110, 110)].

(** [r"[s]?[ ]?\[([0-9]* [0-9]* R[ \\rn]{0,8})*\]"] *)
Definition islist_pat : re :=
  seq [opt (chr "s"); opt space; chr "[";
       star (Grp (Seq ref_pat (Rep 0 (Some 8%nat) ws_rn)));
       chr "]"].

(** [r"[s]?[ \\']{0,3}\[[ ]?([0-9]* [0-9]* R)[ \\rn]{1,8}[/a-zA-Z0-9 ]*[ ]?\]"] *)
Definition withinst_pat : re :=
  seq [opt (chr "s");
       Rep 0 (Some 3%nat) (Cls false [(32, 32); (92, 92); (39, 39)]);
       chr "["; opt space; Grp ref_pat;
       Rep 1 (Some 8%nat) ws_rn;
       star (Cls false [(47, 47); (97, 122); (65, 90); (48, 57); (32, 32)]);
       opt space; chr "]"].

(** [r"[\[\]]"] *)
Definition bracket_pat : re := Cls false [(91, 91); (93, 93)].

(** The characters with a special meaning in a pattern. *)
Definition metachar (c : N) : bool :=
  inlist [c] (map (fun a => [a]) (py ".^$*+?{}[]\|()")).

(** ["/{}[ ]*".format(keyword)] when the keyword is free of special
    characters. *)
Definition keyword_pat (keyword : str) : option re :=
  if existsb metachar keyword then None
  else Some (seq [chr "/"; lit keyword; star space]).

End Re.

Import Re.

(** ** Report lines of the structural parser *)

Module Report.

Definition nl : str := [10].

(** [s.split(sep, maxsplit)] for a separator that is a non-empty
    literal of the source (no [ValueError] possible). *)
Definition fields (s : str) (sep : string) (maxsplit : option nat) : list str :=
  split_from (py sep) maxsplit [] O s.

Definition lines (s : str) (maxsplit : nat) : list str :=
  split_from nl (Some maxsplit) [] O s.

(** The text whose lines are [ls], joined by line feeds. *)
Fixpoint text (ls : list string) : str :=
  match ls with
  | [] => []
  | [l] => py l
  | l :: ls' => py l ++ nl ++ text ls'
  end.

(** [p.split("\n", 1)[0].split(" ")[1]]; [None] is [IndexError]. *)
Definition objnum_of (p : str) : option str :=
  first ← index (lines p 1) 0;
  index (fields first " " None) 1.

(** [p.split("\n", 4)[3] == "Contains stream"]; [None] is [IndexError]. *)
Definition line3_is_stream (p : str) : option bool :=
  l ← index (lines p 4) 3;
  Some (eqb l (py "Contains stream")).

(** [x.replace('Referencing:', '').strip().split(", ")] *)
Definition referencing (x : str) : list str :=
  fields (strip (replace x (py "Referencing:") [])) ", " None.

(** [x.replace('Type:', '').strip().replace("/", "")] *)
Definition type_name (x : str) : str :=
  replace (strip (replace x (py "Type:") [])) (py "/") [].

End Report.

Import Report.

(** ** The structural parser and the other collaborators *)

(** The option dictionaries passed to [get_pdf_parser]. *)
Inductive query :=
| QSearch (keyword : str)
    (* {"search": keyword} *)
| QObjectDetail (ref_obj : str)
    (* {"object": ref_obj, "get_object_detail": True} *)
| QElements (deep_scan embed_present : bool)
    (* the "verbose" queries of the ELEMENTS step *)
| QExtract (objs : gset str)
    (* {"filter": True, "object": objs, "dump": "extracted_obj_"} *)
| QExtractJbig (objs : gset str)
    (* {"object": objs, "dump": "extracted_jb_obj_"} *)
| QObjStmList (max_objstm : nat)
    (* {"elements": "i", "type": "/ObjStm", "max_objstm": max_objstm} *)
| QObjStmDump (objstm dump : str).
    (* {"object": objstm, "dump": dump, "filter": True, "raw": True} *)

(** The result dictionary of the parser, with the keys the service
    reads; [other_keys] tells whether it holds any other key. *)
Record presult := {
  parts : option (list str);
  obj_details : option str;
  files : option (list (str * list str));
  other_keys : bool
}.

(** Truth value of the dictionary: it is non-empty. *)
Definition truthy (r : presult) : bool :=
  bool_decide (is_Some (parts r)) || bool_decide (is_Some (obj_details r)) ||
  bool_decide (is_Some (files r)) || other_keys r.

(** A value of the indicator matcher: the empty string or a list of
    matched values. *)
Inductive ioc_value :=
| IocEmpty
| IocValues (vs : list bytes).

Class Externals := {
  (** [pdf_parser.PDFParserMain(path, working_dir, **options)]: it may
      raise, or return a dictionary or [None]. *)
  PDFParserMain : str -> query -> res (option presult);
  (** [hashlib.sha256(b).hexdigest()] *)
  sha256_hexdigest : bytes -> str;
  (** [PatternMatch().ioc_match(b, bogon_ip=True)] *)
  ioc_match : bytes -> list (str * ioc_value);
  (** [re.sub("/{}[ ]*".format(keyword), "", content, 1)] under its
      [try ... except: pass], for a keyword that holds characters with a
      special meaning in a pattern. *)
  sub_keyword_special : str -> str -> str;
  (** The files of the working directory once that call of the parser
      is over, from the files before it: the parser writes the dumps it
      is asked for. *)
  PDFParserWrites : str -> query -> gmap (list N) bytes -> gmap (list N) bytes
}.

(** [get_pdf_parser]: an exception of the parser is logged and turned
    into [None]. *)
Definition get_pdf_parser `{Externals} (path : str) (q : query) : option presult :=
  match PDFParserMain path q with
  | Ok r => r
  | Raise _ => None
  end.

(** [for x in l: st = f x st], stopping at the first exception. *)
Fixpoint for_each {A S} (f : A -> S -> res S) (l : list A) (st : S) : res S :=
  match l with
  | [] => Ok st
  | x :: l' =>
      match f x st with
      | Ok st' => for_each f l' st'
      | Raise e => Raise e
      end
  end.

(** ** The triage loop of [analyze_pdf] *)

Module Triage.

(** The three accumulators of the loop. *)
Record state := {
  carved_content : gmap (list N) (list (str * str));
  obj_extract_triage : gset (list N);
  jbig_objs : gset (list N)
}.

Definition init : state :=
  {| carved_content := ∅; obj_extract_triage := ∅; jbig_objs := ∅ |}.

(** [obj_extract_triage.add(objnum)] *)
Definition extract (objnum : str) (st : state) : state :=
  {| carved_content := carved_content st;
     obj_extract_triage := {[objnum]} ∪ obj_extract_triage st;
     jbig_objs := jbig_objs st |}.

(** [if objnum in carved_content: carved_content[objnum].append({keyword: c})
     else: carved_content[objnum] = [{keyword: c}]] *)
Definition carve (objnum keyword c : str) (st : state) : state :=
  {| carved_content :=
       match carved_content st !! objnum with
       | Some l => <[objnum := l ++ [(keyword, c)]]> (carved_content st)
       | None => <[objnum := [(keyword, c)]]> (carved_content st)
       end;
     obj_extract_triage := obj_extract_triage st;
     jbig_objs := jbig_objs st |}.

(** Lines 326-328: a JBIG2Decode stream object. *)
Definition jbig_hit (deep_scan : bool) (objnum : str) (st : state) : state :=
  let st1 := if deep_scan then extract objnum st else st in
  {| carved_content := carved_content st1;
     obj_extract_triage := obj_extract_triage st1;
     jbig_objs := {[objnum]} ∪ jbig_objs st1 |}.

(** Lines 287-295: the trailer.  [None] is the [continue] of the
    exception handler. *)
Definition trailer_content (keyword p : str) : option (str * list str) :=
  if isin (py "/" ++ keyword) p then
    l ← split p keyword (Some 1%nat);
    x ← index l 1;
    y ← index (fields (replace x (py ">>++>>") []) "/" (Some 1%nat)) 0;
    let content := strip y in
    Some (content, findall ref_pat content)
  else Some ([], []).

(** [try: content = p.split("\n", 3)[3] except Exception: content = p] *)
Definition after_header (p : str) : str :=
  match index (lines p 3) 3 with
  | Some x => x
  | None => p
  end.

(** Lines 313-317. *)
Definition strip_keyword `{Externals} (keyword content : str) : str :=
  if startswith content (py "/" ++ keyword) then
    match keyword_pat keyword with
    | Some r => sub_empty r (Some 1%nat) content
    | None => sub_keyword_special keyword content
    end
  else content.

(** Lines 299-317. *)
Definition object_content `{Externals} (keyword p : str) : str :=
  let content :=
    if isin (py ">>++>>") p then
      match (l ← split p keyword (Some 1%nat);
             x ← index l 1;
             Some (strip (replace x (py ">>++>>") []))) with
      | Some c => c
      | None => after_header p
      end
    else after_header p in
  strip_keyword keyword content.

(** Lines 318-321. *)
Definition object_references (p : str) : list str :=
  match index (lines p 3) 2 with
  | Some x => referencing x
  | None => []
  end.

(** Lines 284-321: [content] and [references] of one part. *)
Definition part_content `{Externals} (keyword p : str) : option (str * list str) :=
  if startswith p (py "trailer:") then trailer_content keyword p
  else if isin (py "Referencing:") p
       then Some (object_content keyword p, object_references p)
       else Some ([], []).

(** Lines 334-355: the list the loop at line 356 runs over; [None] is
    the [continue] at line 339. *)
Definition tokens (content : str) (references : list str) : option (list str) :=
  if eqb content [] then
    match references with
    | [] => None
    | _ :: _ => Some references
    end
  else
    match rmatch islist_pat content with
    | Some (g0, _) =>
        Some (fields (sub_empty bracket_pat None
                        (replace (replace g0 (py "s ") []) (py "R ") (py "R,")))
                     "," None)
    | None =>
        match rmatch withinst_pat content with
        | Some (_, g1) => Some [default [] g1]
        | None => Some [content]
        end
    end.

(** Lines 371-401, one report [sub_p] of the referenced object.  The
    boolean tells whether an exception left the body of the loop. *)
Definition classify_sub (keyword : str) (r : presult) (sub_p : str)
    (st : state) : state * bool :=
  match index (lines sub_p 3) 2, index (lines sub_p 2) 1 with
  | Some l2, Some l1 =>
      let sub_references := referencing l2 in
      let ptyp := type_name l1 in
      if isin (py "Contains stream") sub_p then
        match objnum_of sub_p with
        | Some objnum => (extract objnum st, false)
        | None => (st, false)
        end
      else
        match index sub_references 0 with
        | None => (st, true)
        | Some sr0 =>
            if negb (eqb sr0 []) && Nat.leb 1 (length sub_references)
               && eqb ptyp keyword
            then
              (foldl (fun acc sr =>
                        match index (fields sr " " (Some 1%nat)) 0 with
                        | Some objnum => extract objnum acc
                        | None => acc
                        end) st sub_references, false)
            else
              match obj_details r with
              | None => (st, true)
              | Some d =>
                  if negb (eqb d []) then
                    match objnum_of sub_p with
                    | Some objnum => (carve objnum keyword d st, false)
                    | None => (st, false)
                    end
                  else (st, false)
              end
        end
  | _, _ => (st, true)
  end.

(** The loop at line 370. *)
Fixpoint classify_subs (keyword : str) (r : presult) (l : list str)
    (st : state) : state * bool :=
  match l with
  | [] => (st, false)
  | sub_p :: l' =>
      match classify_sub keyword r sub_p st with
      | (st', true) => (st', true)
      | (st', false) => classify_subs keyword r l' st'
      end
  end.

(** Lines 361-404: the body of the [try].  Lines 403-404 add the
    warnings of the sub-query to those of the search; the warnings are
    sets and are not part of the state modelled here. *)
Definition resolve_try `{Externals} (path keyword c : str) (st : state) : state * bool :=
  match index (fields c " " (Some 1%nat)) 0 with
  | None => (st, true)
  | Some ref_obj =>
      match get_pdf_parser path (QObjectDetail ref_obj) with
      | Some r =>
          if truthy r then
            match parts r with
            | Some ps => classify_subs keyword r ps st
            | None => (st, true)
            end
          else (st, false)
      | None => (st, false)
      end
  end.

(** Lines 361-411: a token that looks like a reference. *)
Definition resolve `{Externals} (path keyword p c : str) (st : state) : state :=
  match resolve_try path keyword c st with
  | (st', false) => st'
  | (st', true) =>
      match objnum_of p with
      | Some objnum => extract objnum st'
      | None => st'
      end
  end.

(** Lines 413-425: a token that does not look like a reference. *)
Definition literal (keyword p c : str) (st : state) : res state :=
  if startswith p (py "trailer:") then Ok st
  else
    objnum ← of_option IndexError (objnum_of p);
    stream ← of_option IndexError (line3_is_stream p);
    if (stream : bool) then Ok (extract objnum st)
    else Ok (carve objnum keyword c st).

(** [if c in references or re.match("[0-9]* [0-9]* R", c)] *)
Definition looks_like_reference (references : list str) (c : str) : bool :=
  inlist c references || bool_decide (is_Some (rmatch ref_pat c)).

(** Line 358. *)
Definition javascript_dup (triage_keywords : list str) (keyword c : str) : bool :=
  inlist (py "JS") triage_keywords && eqb keyword (py "JavaScript")
  && isin (py "/JS") (slice0 5 c).

(** Lines 356-425: the body of [for c in content]. *)
Definition process_token `{Externals} (path : str) (triage_keywords : list str)
    (keyword p : str) (references : list str) (c : str) (st : state) : res state :=
  if javascript_dup triage_keywords keyword c then Ok st
  else if looks_like_reference references c
       then Ok (resolve path keyword p c st)
       else literal keyword p c st.

(** Line 323. *)
Definition jbig_stream (keyword p : str) : bool :=
  eqb keyword (py "JBIG2Decode") && isin (py "/Filter") p
  && isin (py "Contains stream") p.

(** Lines 283-425: the body of [for p in pdf_parser_result['parts']]. *)
Definition process_part `{Externals} (deep_scan : bool) (path : str)
    (triage_keywords : list str) (keyword p : str) (st : state) : res state :=
  match part_content keyword p with
  | None => Ok st
  | Some (content, references) =>
      if jbig_stream keyword p then
        match objnum_of p with
        | Some objnum => Ok (jbig_hit deep_scan objnum st)
        | None => Ok st
        end
      else
        match tokens content references with
        | None => Ok st
        | Some cs =>
            for_each (process_token path triage_keywords keyword p references) cs st
        end
  end.

(** Lines 272-428: the body of [for keyword in triage_keywords]. *)
Definition process_keyword `{Externals} (deep_scan : bool) (path : str)
    (triage_keywords : list str) (keyword : str) (st : state) : res state :=
  if eqb keyword (py "ObjStm") then Ok st
  else
    match get_pdf_parser path (QSearch keyword) with
    | Some r =>
        if truthy r then
          ps ← of_option KeyError (parts r);
          for_each (process_part deep_scan path triage_keywords keyword) ps st
        else Ok st
    | None => Ok st
    end.

(** Lines 267-428.  [triage_keywords] is the set of keywords in the
    order the loop visits it. *)
Definition triage `{Externals} (deep_scan : bool) (path : str)
    (triage_keywords : list str) : res state :=
  for_each (process_keyword deep_scan path triage_keywords) triage_keywords init.

(** Line 539. *)
Definition obj_to_extract (embed_extracted : gset (list N)) (st : state) : gset (list N) :=
  obj_extract_triage st ∖ embed_extracted ∖ jbig_objs st.

End Triage.

(** ** Reporting the carved content (lines 430-487) *)

Module Carve.

(** A [ResultSection] as far as this step fills it. *)
Record section := {
  title : str;
  heuristic : option nat;
  body : list str;
  tags : list (str * bytes)
}.

(** A file written to the working directory and handed to
    [request.add_extracted]. *)
Record artifact := {
  a_path : str;
  a_name : str;
  a_data : bytes;
  a_description : str
}.

Record state := {
  carved_extracted_shas : gset (list N);
  subsections : list section;
  show_content_of_interest : bool;
  artifacts : list artifact
}.

Definition init : state :=
  {| carved_extracted_shas := ∅; subsections := [];
     show_content_of_interest := false; artifacts := [] |}.

(** Lines 462-469: the tags of one indicator type. *)
Definition tags_of (ty : str) (val : ioc_value) : list (str * bytes) :=
  match val with
  | IocEmpty => [(ty, [])]
  | IocValues vs => map (fun v => (ty, v)) (remove_dups vs)
  end.

Definition hits_title (k keyw : str) : str :=
  py "Object " ++ k ++ py ": Hits for Keyword '" ++ keyw ++ py "':".

(** Lines 453-469: content shown in the report. *)
Definition inline `{Externals} (k keyw con : str) (con_bytes : bytes)
    (st : state) : state :=
  match ioc_match con_bytes with
  | [] => st
  | st_value =>
      {| carved_extracted_shas := carved_extracted_shas st;
         subsections :=
           subsections st ++
           [{| title := hits_title k keyw; heuristic := Some 8%nat;
               body := [con];
               tags := flat_map (fun '(ty, val) => tags_of ty val) st_value |}];
         show_content_of_interest := true;
         artifacts := artifacts st |}
  end.

Definition carved_name (k crv_sha : str) : str :=
  py "carved_content_obj_" ++ k ++ py "_" ++ slice0 7 crv_sha.

(** Lines 471-484: content written to a file, once per digest. *)
Definition persist `{Externals} (working_directory k keyw : str)
    (con_bytes : bytes) (st : state) : state :=
  let crv_sha := sha256_hexdigest con_bytes in
  if decide (crv_sha ∈ carved_extracted_shas st) then st
  else
    let f_name := carved_name k crv_sha in
    {| carved_extracted_shas := {[crv_sha]} ∪ carved_extracted_shas st;
       subsections :=
         subsections st ++
         [{| title := hits_title k keyw; heuristic := Some 8%nat;
             body := [py "Content over 500 bytes it will be extracted for analysis";
                      py "Name: " ++ f_name ++ py " - SHA256: " ++ crv_sha];
             tags := [] |}];
       show_content_of_interest := true;
       artifacts :=
         artifacts st ++
         [{| a_path := path_join working_directory f_name;
             a_name := f_name;
             a_data := con_bytes;
             a_description := py "Extracted content from object " ++ k |}] |}.

(** Lines 447-484: one carved value [con] of object [k]. *)
Definition report_entry `{Externals} (working_directory k : str)
    (d : str * str) (st : state) : res state :=
  let '(keyw, con) := d in
  con_bytes ← of_option UnicodeEncodeError (encode con);
  if Nat.ltb (length con) 500
  then Ok (inline k keyw con con_bytes st)
  else Ok (persist working_directory k keyw con_bytes st).

(** [sorted(carved_content.items())]: the keys are distinct, so the
    order is the order of the object numbers as strings. *)
Definition key_le (a b : list N * list (str * str)) : Prop := Is_true (leb a.1 b.1).

#[global] Instance key_le_dec a b : Decision (key_le a b).
Proof. unfold key_le. apply _. Defined.

Definition sorted_items (carved_content : gmap (list N) (list (str * str)))
    : list (str * list (str * str)) :=
  merge_sort key_le (map_to_list carved_content).

(** The carved values in the order the loops at lines 444-446 visit
    them. *)
Definition entries (items : list (str * list (str * str))) : list (str * (str * str)) :=
  flat_map (fun '(k, l) => map (fun d => (k, d)) l) items.

(** Lines 443-484. *)
Definition report_entries `{Externals} (working_directory : str)
    (es : list (str * (str * str))) (st : state) : res state :=
  for_each (fun '(k, d) => report_entry working_directory k d) es st.

(** Lines 437-441: the section naming the JBIG2Decode objects. *)
Definition jbig_section (jbig_objs : gset (list N)) : option section :=
  match elements jbig_objs with
  | [] => None
  | o :: os =>
      Some {| title := py "The following Object IDs are JBIG2DECODE streams:";
              heuristic := None;
              body := [foldl (fun acc x => acc ++ py ", " ++ x) o os];
              tags := [] |}
  end.

(** Lines 430-487, for the accumulators left by the triage loop. *)
Definition content_of_interest `{Externals} (working_directory : str)
    (t : Triage.state) : res state :=
  let st0 :=
    match jbig_section (Triage.jbig_objs t) with
    | Some s =>
        {| carved_extracted_shas := ∅; subsections := [s];
           show_content_of_interest := true; artifacts := [] |}
    | None => init
    end in
  report_entries working_directory
    (entries (sorted_items (Triage.carved_content t))) st0.

End Carve.

(** ** Extraction of the collected objects (lines 529-577) *)

Module Extraction.

(** Lines 532-536: objects of type /EmbeddedFile are noted so that
    they are not extracted again. *)
Definition embedded_step (p : str) (acc : gset (list N)) : res (gset (list N)) :=
  if isin (py "Type: /EmbeddedFile") p then
    getobj ← of_option IndexError (objnum_of p);
    Ok ({[getobj]} ∪ acc)
  else Ok acc.

Definition embed_extracted (ps : option (list str)) : res (gset (list N)) :=
  match ps with
  | Some l => for_each embedded_step (merge_sort (fun a b => Is_true (leb a b)) l) ∅
  | None => Ok ∅
  end.

(** Lines 538-577: the dump queries issued for a top-level document. *)
Definition dump_queries (deep_scan : bool) (embed : gset (list N))
    (t : Triage.state) : list query :=
  (if decide (Triage.obj_to_extract embed t = ∅) then []
   else [QExtract (Triage.obj_to_extract embed t)]) ++
  (if deep_scan && negb (bool_decide (Triage.jbig_objs t = ∅))
   then [QExtractJbig (Triage.jbig_objs t)] else []).

(** Lines 489-577: the ELEMENTS query, then the dump queries. *)
Definition extraction_pass `{Externals} (deep_scan embed_present : bool) (path : str)
    (t : Triage.state) : res (list query) :=
  embed ← match get_pdf_parser path (QElements deep_scan embed_present) with
          | Some r => if truthy r then embed_extracted (parts r) else Ok ∅
          | None => Ok ∅
          end;
  Ok (dump_queries deep_scan embed t).

(** Lines 240-606 of [analyze_pdf], once the triage keywords are known
    and the parser is to be run: the triage loop, the report of the
    carved content and, for a top-level document ([get_malform]), the
    extraction. *)
Definition parser_pass `{Externals} (deep_scan embed_present get_malform : bool)
    (path working_directory : str) (triage_keywords : list str)
    : res (Triage.state * Carve.state * list query) :=
  t ← Triage.triage deep_scan path triage_keywords;
  c ← Carve.content_of_interest working_directory t;
  qs ← (if get_malform then extraction_pass deep_scan embed_present path t else Ok []);
  Ok (t, c, qs).

End Extraction.

(** ** Compressed-object containers (lines 608-720) *)

Module ObjStm.

Definition header : bytes :=
  map (fun a => byte_of (N_of_ascii a))
    (list_ascii_of_string "%PDF-1.6") ++ [Init.Byte.x0a] ++
  map (fun a => byte_of (N_of_ascii a))
    (list_ascii_of_string "%Fake header created by AL PDFID service.") ++ [Init.Byte.x0a].

Definition trailer : bytes :=
  map (fun a => byte_of (N_of_ascii a)) (list_ascii_of_string "%%EOF") ++ [Init.Byte.x0a].

(** The files of the working directory. *)
Abbreviation filesystem := (gmap (list N) (list Init.Byte.byte)) (only parsing).

(** [f.seek(0, 0); f.write(data)] on a file opened with ['rb+']. *)
Definition overwrite (data old : bytes) : bytes := data ++ drop (length data) old.

Section WithRewriting.
Context `{Externals}.

(** Lines 646-668: the rewriting of the decompressed stream into
    numbered objects, by substitutions on the whole buffer.  It is a
    function of the bytes read, left abstract here. *)
Variable rewrite_stream : bytes -> bytes.

(** Lines 635-637. *)
Definition stream_present (ps : list str) : res bool :=
  for_each (fun sub_p acc =>
              b ← of_option IndexError (line3_is_stream sub_p);
              Ok (if (b : bool) then true else acc)) ps false.

(** Lines 642-670: one item of [files]. *)
Definition take_embedded (item : str * list str)
    (acc : filesystem * option str) : res (filesystem * option str) :=
  let '(fi, l) := item in
  let '(fs, objstm_file) := acc in
  if eqb fi (py "embedded") then
    match l with
    | [] => Ok acc
    | f :: _ =>
        stream ← of_option FileNotFoundError (fs !! f);
        Ok (<[f := overwrite (header ++ rewrite_stream stream ++ trailer) stream]> fs,
            Some f)
    end
  else Ok acc.

(** [write_objstm]: the file path of the mock document, or [None].
    The parser is called first, and writes its dump; the files the
    function opens are those of the directory after that call. *)
Definition write_objstm (path objstm objstm_path : str) (fs : filesystem)
    : res (filesystem * option str) :=
  let fs := PDFParserWrites path (QObjStmDump objstm objstm_path) fs in
  match get_pdf_parser path (QObjStmDump objstm objstm_path) with
  | Some r =>
      if truthy r then
        ps ← of_option KeyError (parts r);
        present ← stream_present ps;
        if (present : bool) then
          match files r with
          | Some (item :: items) =>
              for_each take_embedded (item :: items) (fs, None)
          | _ => Ok (fs, None)
          end
        else Ok (fs, None)
      else Ok (fs, None)
  | None => Ok (fs, None)
  end.

(** The state of the loop of [analyze_objstm].  [reconstructed] lists
    the calls of [write_objstm] that returned a file, with the
    container they were made for. *)
Record state := {
  idx : nat;
  objstm_extracted : gset (list N);
  obj_files : gset (list N);
  fs_now : filesystem;
  reconstructed : list (str * str)
}.

Definition max_obst (deep_scan : bool) : nat :=
  if deep_scan then 100 else 1.

Definition dump_name (getobj : str) (i : nat) : str :=
  py "objstm_" ++ getobj ++ py "_" ++ py (pretty.pretty i).

(** Lines 709-718: the body of the loop. *)
Definition step (path working_directory p : str) (st : state) : res state :=
  if isin (py "Type: /ObjStm") p then
    getobj ← of_option IndexError (objnum_of p);
    if decide (getobj ∈ objstm_extracted st) then Ok st
    else
      let dump_file := path_join working_directory (dump_name getobj (idx st)) in
      '(fs', obj_file) ← write_objstm path getobj dump_file (fs_now st);
      match obj_file with
      | Some (c :: f) =>
          Ok {| idx := S (idx st);
                objstm_extracted := {[getobj]} ∪ objstm_extracted st;
                obj_files := {[c :: f]} ∪ obj_files st;
                fs_now := fs';
                reconstructed := reconstructed st ++ [(getobj, c :: f)] |}
      | _ =>
          Ok {| idx := S (idx st);
                objstm_extracted := objstm_extracted st;
                obj_files := obj_files st;
                fs_now := fs';
                reconstructed := reconstructed st |}
      end
  else Ok st.

Definition start (fs : filesystem) : state :=
  {| idx := 0; objstm_extracted := ∅; obj_files := ∅; fs_now := fs;
     reconstructed := [] |}.

(** The parts the loop runs over: [sorted(parts)], or nothing. *)
Definition listed_parts (path : str) (deep_scan : bool) : list str :=
  match get_pdf_parser path (QObjStmList (max_obst deep_scan)) with
  | Some r =>
      match parts r with
      | Some l => merge_sort (fun a b => Is_true (leb a b)) l
      | None => []
      end
  | None => []
  end.

(** [analyze_objstm], with the whole final state; the function
    returns its [obj_files]. *)
Definition analyze_objstm (path working_directory : str) (deep_scan : bool)
    (fs : filesystem) : res state :=
  for_each (step path working_directory) (listed_parts path deep_scan)
    (start (PDFParserWrites path (QObjStmList (max_obst deep_scan)) fs)).

End WithRewriting.

End ObjStm.

(** ** The entry point (lines 722-769) *)

Module Execute.

(** The sections [execute] adds to the result. *)
Inductive top_section (S : Type) :=
| Analysis (s : S)
| ErrorLines (lines : list str)
| SkippedTooBig (text : str) (heuristic : nat).
Arguments Analysis {S} s.
Arguments ErrorLines {S} lines.
Arguments SkippedTooBig {S} text heuristic.

Section WithAnalysis.
Context `{Externals}.
Variable rewrite_stream : bytes -> bytes.

(** The sections built by [analyze_pdf]. *)
Variable S : Type.

(** [analyze_pdf(request, res_txt, path, working_dir, heur,
    additional_keywords, get_malform)] as [execute] sees it: the
    section, the flag telling that /ObjStm was counted, the errors. *)
Variable analyze_pdf :
  forall (res_txt path : str) (heur : list str) (get_malform : bool),
    res (S * bool * list str).

(** Lines 751-752. *)
Definition nested_heur (heur : list str) : list str :=
  filter (fun x => Is_true (negb (isin (py "plugin_suspicious_properties") x)
                      && negb (isin (py "plugin_embeddedfile") x)
                      && negb (isin (py "plugin_nameobfuscation") x))) heur.

(** Lines 747-758: one reconstructed document. *)
Definition nested (osf : str) (acc : nat * list str * list (top_section S))
    : res (nat * list str * list (top_section S)) :=
  let '(obj_cnt, heur, sections) := acc in
  parent_obj ← of_option IndexError (index (fields (basename osf) "_" None) 1);
  let res_txt := py "ObjStream Object " ++ py (pretty.pretty obj_cnt)
                 ++ py " from Parent Object " ++ parent_obj in
  let heur' := nested_heur heur in
  '(r, _, _) ← analyze_pdf res_txt osf heur' false;
  Ok (Datatypes.S obj_cnt, heur', sections ++ [Analysis r]).

Definition skipped_text : str :=
  py "PDF Analysis of the file was skipped because the file is too big (limit is 3 MB).".

(** [execute]: [config_max_size] is the configured MAX_PDF_SIZE if
    any, [file_size] is [os.path.getsize(request.file_path)], [fs] holds
    the files of the working directory when [analyze_objstm] is called. *)
Definition execute (config_max_size : option Z) (file_size : Z)
    (deep_scan : bool) (path working_directory : str) (heur : list str)
    (fs : ObjStm.filesystem) : res (list (top_section S)) :=
  let max_size := default 3000000%Z config_max_size in
  if (file_size <? max_size)%Z || deep_scan then
    '(r, contains_objstms, errors) ← analyze_pdf (py "Main Document Results") path heur true;
    sections ←
      (if (contains_objstms : bool) then
         st ← ObjStm.analyze_objstm rewrite_stream path working_directory deep_scan fs;
         '(_, _, sections) ←
           for_each nested (elements (ObjStm.obj_files st)) (1%nat, heur, [Analysis r]);
         Ok sections
       else Ok [Analysis r]);
    Ok (sections ++
        match remove_dups errors with
        | [] => []
        | es => [ErrorLines es]
        end)
  else Ok [SkippedTooBig skipped_text 10].

End WithAnalysis.

End Execute.

(** ** Sample documents

    Answers of the structural parser for a few small documents, named
    by their path, used to run the definitions above. *)

Module Sample.

Definition answer (ps : list str) (details : str) : presult :=
  {| parts := Some ps; obj_details := Some details; files := None;
     other_keys := false |}.

Definition dumped (ps : list str) (file : str) : presult :=
  {| parts := Some ps; obj_details := None;
     files := Some [(py "embedded", [file])]; other_keys := false |}.

(** Object 5 holds an /OpenAction with literal text; page 8 lists the
    annotation 9, whose only reference is object 5. *)
Definition action5 : str :=
  text ["obj 5 0"; "Type: /Action"; "Referencing: ";
        "<< /OpenAction << /S /URI /URI (http://example.com) >> >>"].
Definition page8 : str :=
  text ["obj 8 0"; "Type: /Page"; "Referencing: 9 0 R";
        "<< /Type /Page /Annots [9 0 R] >>++>>"].
Definition annot9 : str :=
  text ["obj 9 0"; "Type: /Annot"; "Referencing: 5 0 R";
        "<< /Type /Annot /A 5 0 R >>"].

(** Two compressed-object containers, and one without a stream. *)
Definition objstm (n : string) : str :=
  text [("obj " ++ n ++ " 0")%string; "Type: /ObjStm"; "Referencing: ";
        "Contains stream"; "<< /Type /ObjStm /N 2 /First 10 >>"].
Definition objstm_no_stream (n : string) : str :=
  text [("obj " ++ n ++ " 0")%string; "Type: /ObjStm"; "Referencing: ";
        "<< /Type /ObjStm /N 2 /First 10 >>"].

(** A filter array that names JBIG2Decode, and a JBIG2Decode stream. *)
Definition filters7 : str :=
  text ["obj 7 0"; "Type: "; "Referencing: "; "[ /FlateDecode /JBIG2Decode ]"].
Definition image3 : str :=
  text ["obj 3 0"; "Type: /XObject"; "Referencing: "; "Contains stream";
        "<< /Type /XObject /Filter /JBIG2Decode >>"].

(** A catalog whose /OpenAction is the reference 7 0 R, and a trailer
    with the same reference. *)
Definition catalog1 : str :=
  text ["obj 1 0"; "Type: /Catalog"; "Referencing: 7 0 R";
        "<< /Type /Catalog /OpenAction 7 0 R >>++>>"].
Definition trailer_report : str :=
  text ["trailer:"; "<< /Root 1 0 R /OpenAction 7 0 R >>"].

(** An action whose text after /JavaScript begins with /JS. *)
Definition script5 : str :=
  text ["obj 5 0"; "Type: /Action"; "Referencing: ";
        "<< /S /JavaScript /JS (app.alert(1)) >>++>>"].

Definition named (path : str) (name : string) : bool := eqb path (py name).

Definition parser (path : str) (q : query) : res (option presult) :=
  if named path "annotated.pdf" then
    match q with
    | QSearch k =>
        if eqb k (py "OpenAction") then Ok (Some (answer [action5] []))
        else if eqb k (py "Annot") then Ok (Some (answer [page8] []))
        else Ok None
    | QObjectDetail o =>
        if eqb o (py "9") then Ok (Some (answer [annot9] (py "<< /Type /Annot /A 5 0 R >>")))
        else Ok None
    | _ => Ok None
    end
  else if named path "containers.pdf" then
    match q with
    | QObjStmList _ => Ok (Some (answer [objstm "5"; objstm "6"] []))
    | QObjStmDump o d =>
        if eqb o (py "5") then Ok (Some (dumped [objstm "5"] d))
        else if eqb o (py "6") then Ok (Some (dumped [objstm "6"] d))
        else Ok None
    | _ => Ok None
    end
  else if named path "empty_container.pdf" then
    match q with
    | QObjStmList _ => Ok (Some (answer [objstm_no_stream "5"] []))
    | QObjStmDump o d => Ok (Some (dumped [objstm_no_stream "5"] d))
    | _ => Ok None
    end
  else if named path "filters.pdf" then
    match q with
    | QSearch k =>
        if eqb k (py "JBIG2Decode") then Ok (Some (answer [filters7; image3] []))
        else Ok None
    | _ => Ok None
    end
  else if named path "unreadable_target.pdf" then
    match q with
    | QSearch k =>
        if eqb k (py "OpenAction") then Ok (Some (answer [catalog1; trailer_report] []))
        else Ok None
    | QObjectDetail o => Raise ValueError
    | _ => Ok None
    end
  else if named path "short_target.pdf" then
    match q with
    | QSearch k =>
        if eqb k (py "OpenAction") then Ok (Some (answer [catalog1; trailer_report] []))
        else Ok None
    | QObjectDetail o => Ok (Some (answer [py "obj 7 0"] []))
    | _ => Ok None
    end
  else if named path "script.pdf" then
    match q with
    | QSearch k =>
        if eqb k (py "JavaScript") || eqb k (py "JS")
        then Ok (Some (answer [script5] []))
        else Ok None
    | _ => Ok None
    end
  else Ok None.

(** A stand-in for the digest: the length of the data, in decimal,
    padded with zeros to 64 characters. *)
Definition length_digest (b : bytes) : str :=
  let d := py (pretty.pretty (length b)) in
  repeat 48 (64 - length d) ++ d.

(** The dump of a container: the parser writes the stream to the path
    it is given. *)
Definition writes (path : str) (q : query) (fs : gmap (list N) bytes)
    : gmap (list N) bytes :=
  match q with
  | QObjStmDump _ d =>
      <[d := [Init.Byte.x3c; Init.Byte.x3c; Init.Byte.x3e; Init.Byte.x3e]]> fs
  | _ => fs
  end.

#[global] Instance externals : Externals :=
  {| PDFParserMain := parser;
     sha256_hexdigest := length_digest;
     ioc_match := fun _ => [];
     sub_keyword_special := fun _ content => content;
     PDFParserWrites := writes |}.

(** The working directory after the parser dumped the two containers. *)
Definition dumps : gmap (list N) (list Init.Byte.byte) :=
  {[ py "/tmp/objstm_5_0" := [Init.Byte.x3c; Init.Byte.x3c; Init.Byte.x3e; Init.Byte.x3e];
     py "/tmp/objstm_6_1" := [Init.Byte.x3c; Init.Byte.x3c; Init.Byte.x3e; Init.Byte.x3e] ]}.

(** A stand-in for the rewriting of the stream. *)
Definition keep (b : bytes) : bytes := b.

(** A text of 500 characters in the ASCII range. *)
Definition long_text : list N := repeat 65 500.

(** Two objects carved with the same text of 500 characters. *)
Definition twice_carved : Triage.state :=
  Triage.carve (py "6") (py "JS") long_text
    (Triage.carve (py "5") (py "OpenAction") long_text Triage.init).

(** An analysis that always succeeds, to run [execute]. *)
Definition analysed (res_txt path : list N) (heur : list (list N)) (get_malform : bool)
    : res (list N * bool * list (list N)) :=
  Ok (res_txt, false, []).

End Sample.

(** ** More string operations *)

Module Text.

(** The scan behind [s.replace(old, new, count)] for a non-empty [old]. *)
Fixpoint replace_count_from (old new : str) (count skip : nat) (s : str) : str :=
  match s with
  | [] => []
  | c :: s' =>
      match skip with
      | S k => replace_count_from old new count k s'
      | O =>
          match count with
          | O => s
          | S n =>
              if startswith s old
              then new ++ replace_count_from old new n (Nat.pred (length old)) s'
              else c :: replace_count_from old new count O s'
          end
      end
  end.

(** With an empty [old], [new] is put before each of the first
    characters, and at the end when the count allows. *)
Fixpoint insert_count (new : str) (count : nat) (s : str) : str :=
  match count with
  | O => s
  | S n =>
      new ++ match s with
             | [] => []
             | c :: s' => c :: insert_count new n s'
             end
  end.

(** [s.replace(old, new, count)] *)
Definition replace_count (s old new : str) (count : nat) : str :=
  match old with
  | [] => insert_count new count s
  | _ :: _ => replace_count_from old new count O s
  end.

(** The characters at which [str.splitlines] ends a line. *)
Definition is_linebreak (c : N) : bool :=
  ((10 <=? c) && (c <=? 13)) || ((28 <=? c) && (c <=? 30)) ||
  (c =? 133) || (c =? 8232) || (c =? 8233).

(** [s.splitlines()]: a carriage return followed by a line feed is one
    line end; there is no empty last line. *)
Fixpoint splitlines_from (cur : str) (s : str) : list str :=
  match s with
  | [] =>
      match cur with
      | [] => []
      | _ :: _ => [rev cur]
      end
  | c :: s' =>
      if is_linebreak c then
        match s' with
        | c2 :: s'' =>
            if (c =? 13) && (c2 =? 10)
            then rev cur :: splitlines_from [] s''
            else rev cur :: splitlines_from [] s'
        | [] => [rev cur]
        end
      else splitlines_from (c :: cur) s'
  end.

Definition splitlines (s : str) : list str := splitlines_from [] s.

(** The text of a string between double quotes. *)
Definition quoted (s : string) : str := [34] ++ py s ++ [34].

End Text.

(** ** The Triage plugin of PDFiD ([pdfid/plugin_triage.py]) *)

Module PluginTriage.

(** [k in keywords and keywords[k].count > 0] *)
Definition flagged (keywords : gmap (list N) Z) (k : string) : bool :=
  match keywords !! py k with
  | Some c => (0 <? c)%Z
  | None => false
  end.

(** [keywords[k].count > 0]: [KeyError] when the key is missing. *)
Definition counted (keywords : gmap (list N) Z) (k : string) : res bool :=
  c ← of_option KeyError (keywords !! py k);
  Ok (0 <? c)%Z.

(** [if k in keywords and keywords[k].count > 0: self.hits.add(k)] *)
Definition note (keywords : gmap (list N) Z) (k : string)
    (hits : gset (list N)) : gset (list N) :=
  if flagged keywords k then {[py k]} ∪ hits else hits.

(** The same with [score += points]. *)
Definition note_scored (keywords : gmap (list N) Z) (points : Z)
    (acc : Z * gset (list N)) (k : string) : Z * gset (list N) :=
  if flagged keywords k then ((acc.1 + points)%Z, {[py k]} ∪ acc.2) else acc.

(** [a or b] on two tests that may raise. *)
Definition or_else (a b : res bool) : res bool :=
  x ← a; if (x : bool) then Ok true else b.

(** [Score]: the score and the set [self.hits], which holds [hits]
    when the method is entered. *)
Definition Score (keywords : gmap (list N) Z) (hits : gset (list N))
    : res (Z * gset (list N)) :=
  let hits := note keywords "/JS" hits in
  let hits := note keywords "/JavaScript" hits in
  js ← or_else (counted keywords "/JavaScript") (counted keywords "/JS");
  let score := if (js : bool) then 100%Z else 0%Z in
  let '(score, hits) :=
    foldl (note_scored keywords 50) (score, hits) ["/JBIG2Decode"; "/Colors > 2^24"] in
  let hits := note keywords "/AA" hits in
  let hits := note keywords "/OpenAction" hits in
  let hits := note keywords "/Launch" hits in
  auto ← or_else (counted keywords "/AA")
           (or_else (counted keywords "/OpenAction") (counted keywords "/Launch"));
  let score := if (auto : bool) then (score + 50)%Z else score in
  let acc := foldl (note_scored keywords 25) (score, hits)
               ["/AcroForm"; "/RichMedia"; "/XFA"] in
  let acc := foldl (note_scored keywords 25) acc ["/Encrypt"] in
  let acc := foldl (note_scored keywords 1) acc ["/Annot"] in
  let acc := foldl (note_scored keywords 1) acc ["/ObjStm"] in
  let acc := foldl (note_scored keywords 1) acc ["/URI"] in
  Ok acc.

(** The dictionary [instruct]: each value is the key between double
    quotes, a text, a closing double quote for some, and a line feed. *)
Definition instruct : list (string * (string * bool)) :=
  [("/JS", (": indicating javascript is present in the file.", false));
   ("/JavaScript", (": indicating javascript is present in the file.", false));
   ("/AA", (": indicating automatic action to be performed when the page/document is viewed.", false));
   ("/Annot", (": sample contains annotations. Not suspicious but should be examined if other signs of maliciousness present.", false));
   ("/OpenAction", (": indicating automatic action to be performed when the page/document is viewed.", true));
   ("/AcroForm", (": sample contains AcroForm object. These can be used to hide malicious code.", true));
   ("/JBIG2Decode", (": indicating JBIG2 compression.", true));
   ("/RichMedia", (": indicating embedded Flash. ", false));
   ("/Launch", (": counts launch actions.", false));
   ("/Encrypt", (": encrypted content in sample", false));
   ("/XFA", (": indicates XML Forms Architecture. These can be used to hide malicious code.", false));
   ("/Colors > 2^24", (": hits when the number of colors is expressed with more than 3 bytes.", false));
   ("/ObjStm", (": sample contains object stream(s). Can be used to obfuscate objects.", false));
   ("/URI", (": sample contains URLs.", false))].

Definition instruct_value (entry : string * (string * bool)) : str :=
  Text.quoted entry.1 ++ py entry.2.1 ++ (if entry.2.2 then [34] else []) ++ [10].

(** [instruct.get(h)] *)
Definition instruct_get (h : str) : option str :=
  instruct_value <$> find (fun entry => eqb (py entry.1) h) instruct.

Definition message_head : str :=
  py "The following keywords have been flagged in this sample:" ++ [10].

(** [Instructions]: [None] when the score is not positive.  A hit
    without an entry in [instruct] is written as [None]. *)
Definition Instructions (score : Z) (hits : gset (list N)) : option str :=
  let message :=
    foldl (fun m h => m ++ default (py "None") (instruct_get h))
      message_head (elements hits) in
  if (0 <? score)%Z then Some message else None.

End PluginTriage.

(** ** The PDFiD part of [analyze_pdf] (lines 77-238) *)

Module Pdfid.

(** A [ResultSection] put under the section "PDFID Results": none of
    them has subsections of its own. *)
Record rsection := RSection {
  title_of : str;
  heuristic_of : option Z;
  body_of : list str;
  tags_of : list (str * str)
}.

(** One item of [pdfid_result["Plugin"]]; [pl_heur] is the value of
    [int(pl_heur)], [None] when the conversion raises. *)
Record plugin_entry := {
  pl_name : str;
  pl_heur : option Z;
  pl_text : str
}.

(** The dictionary returned by PDFiD, with the keys [analyze_pdf]
    reads; every field of a list is the text [format] gives it. *)
Record pdfid_result := {
  r_pdfid : option (list str);
  r_properties : option (list (list str));
  r_entropy : option (list (list str));
  r_flags : option (list (list str));
  r_plugin : option (list plugin_entry);
  r_other : bool
}.

(** [len(pdfid_result) == 0] *)
Definition is_empty (r : pdfid_result) : bool :=
  negb (bool_decide (is_Some (r_pdfid r)) || bool_decide (is_Some (r_properties r))
        || bool_decide (is_Some (r_entropy r)) || bool_decide (is_Some (r_flags r))
        || bool_decide (is_Some (r_plugin r)) || r_other r).

(** Lines 109-118: the tag of a property. *)
Definition date_tags : list (string * string) :=
  [("/ModDate", "file.pdf.date.modified");
   ("/CreationDate", "file.date.creation");
   ("/LastModified", "file.date.last_modified");
   ("/SourceModified", "file.pdf.date.source_modified");
   ("/pdfx", "file.pdf.date.pdfx")].

(** Lines 107-118: one property. *)
Definition property_step (plist : list str) (acc : list str * list (str * str))
    : res (list str * list (str * str)) :=
  name ← of_option IndexError (index plist 0);
  value ← of_option IndexError (index plist 1);
  Ok (acc.1 ++ [name ++ py ": " ++ value],
      acc.2 ++ match find (fun t => eqb (py t.1) name) date_tags with
               | Some t => [(py t.2, value)]
               | None => []
               end).

(** Lines 122-123: one entropy line. *)
Definition entropy_step (enlist : list str) (acc : list str) : res (list str) :=
  a ← of_option IndexError (index enlist 0);
  b ← of_option IndexError (index enlist 1);
  c ← of_option IndexError (index enlist 2);
  Ok (acc ++ [a ++ py ": " ++ b ++ py ", (" ++ c ++ py ")"]).

(** Lines 101-123: the lines and sections made for a top-level document
    only. *)
Definition document_sections (r : pdfid_result) : res (list str * list rsection) :=
  let version_lines :=
    match r_pdfid r with
    | Some (v :: _) => [v]
    | _ => []
    end in
  pres ←
    match r_properties r with
    | Some (p :: ps) =>
        '(ls, ts) ← for_each property_step (p :: ps) ([], []);
        Ok [RSection (py "PDF Properties") None ls ts]
    | _ => Ok []
    end;
  enres ←
    match r_entropy r with
    | Some (e :: es) =>
        ls ← for_each entropy_step (e :: es) [];
        Ok [RSection (py "Entropy") None ls []]
    | _ => Ok []
    end;
  Ok (version_lines, pres ++ enres).

(** The accumulators of the loop over the flags. *)
Record flag_state := {
  f_objstms : bool;
  f_keywords : gset (list N);
  f_lines : list str;
  f_tags : list (str * str)
}.

(** Lines 128-136: one flag. *)
Definition flag_step (additional_keywords : list str) (flist : list str)
    (st : flag_state) : res flag_state :=
  name ← of_option IndexError (index flist 0);
  count ← of_option IndexError (index flist 1);
  let line :=
    match flist with
    | [_; _; hex] => name ++ py ":Count: " ++ count ++ py ", Hex-Encoded Count: " ++ hex
    | _ => name ++ py ":Count: " ++ count
    end in
  let short := Text.replace_count name (py "/") [] 1 in
  Ok {| f_objstms := eqb name (py "/ObjStm") || f_objstms st;
        f_keywords := if inlist name additional_keywords
                      then {[short]} ∪ f_keywords st else f_keywords st;
        f_lines := f_lines st ++ [line];
        f_tags := f_tags st ++ [(py "file.string.extracted", short)] |}.

(** Lines 165-216: the keywords of the Triage plugin, in the order they
    are tested, with the triage keyword and the heuristic. *)
Definition triage_rules : list (string * (string * Z)) :=
  [("/JavaScript", ("JavaScript", 19%Z)); ("/JS", ("JS", 19%Z));
   ("/JBIG2Decode", ("JBIG2Decode", 3%Z)); ("/Colors > 2^24", ("Colors > 2^24", 20%Z));
   ("/AA", ("AA", 1%Z)); ("/Launch", ("Launch", 1%Z));
   ("/OpenAction", ("OpenAction", 1%Z)); ("/GoToE", ("GoToE", 21%Z));
   ("/GoToR", ("GoToR", 22%Z)); ("/Encrypt", ("Encrypt", 11%Z));
   ("/AcroForm", ("AcroForm", 4%Z)); ("/RichMedia", ("RichMedia", 5%Z));
   ("/XFA", ("XFA", 23%Z)); ("/Annot", ("Annot", 25%Z));
   ("/ObjStm", ("ObjStm", 7%Z)); ("/URI", ("URI", 24%Z))].

(** Lines 219-230: the suspicious properties, tested after the
    keywords. *)
Definition suspicious_rules : list (string * Z) :=
  [("eof2", 2%Z); ("eof5", 17%Z); ("page", 26%Z); ("entropy", 12%Z);
   ("obj/endobj", 13%Z); ("stream/endstream", 14%Z)].

(** The accumulators of the loop over the lines of a plugin text. *)
Record line_state := {
  l_keywords : gset (list N);
  l_javascript_found : bool;
  l_subsections : list rsection
}.

Definition is_javascript (keyword : string) : bool :=
  eqb (py keyword) (py "JavaScript") || eqb (py keyword) (py "JS").

(** Lines 163-233: one line. *)
Definition line_step (st : line_state) (line : str) : line_state :=
  match find (fun rule => isin (py rule.1) line) triage_rules with
  | Some (_, (keyword, heur)) =>
      if is_javascript keyword then
        {| l_keywords := {[py keyword]} ∪ l_keywords st;
           l_javascript_found := true;
           l_subsections :=
             if l_javascript_found st then l_subsections st
             else l_subsections st ++ [RSection line (Some heur) [] []] |}
      else
        {| l_keywords := {[py keyword]} ∪ l_keywords st;
           l_javascript_found := l_javascript_found st;
           l_subsections := l_subsections st ++ [RSection line (Some heur) [] []] |}
  | None =>
      match find (fun rule => isin (py rule.1) line) suspicious_rules with
      | Some (_, heur) =>
          {| l_keywords := l_keywords st;
             l_javascript_found := l_javascript_found st;
             l_subsections := l_subsections st ++ [RSection line (Some heur) [] []] |}
      | None => st
      end
  end.

(** The accumulators of the loop over the plugins. *)
Record plugin_state := {
  p_keywords : gset (list N);
  p_embed_present : bool;
  p_subsections : list rsection
}.

(** Lines 144-233: one plugin. *)
Definition plugin_step (entry : plugin_entry) (st : plugin_state) : res plugin_state :=
  heur ← of_option ValueError (pl_heur entry);
  let text := drop 14 (pl_text entry) in
  if eqb text [] || eqb text (py "None") then Ok st
  else if inlist (pl_name entry) [py "EmbeddedFile"; py "Name Obfuscation"] then
    Ok {| p_keywords := p_keywords st;
          p_embed_present := eqb (pl_name entry) (py "EmbeddedFile") || p_embed_present st;
          p_subsections :=
            p_subsections st ++
            [RSection text (if (0 <? heur)%Z then Some heur else None) [] []] |}
  else if inlist (pl_name entry) [py "Triage"; py "Suspicious Properties"] then
    let after :=
      foldl line_step
        {| l_keywords := p_keywords st; l_javascript_found := false;
           l_subsections := p_subsections st |}
        (Text.splitlines text) in
    Ok {| p_keywords := l_keywords after;
          p_embed_present := p_embed_present st;
          p_subsections := l_subsections after |}
  else Ok st.

(** What the later steps of [analyze_pdf] use. *)
Record front := {
  triage_keywords : gset (list N);
  objstms : bool;
  embed_present : bool;
  run_pdfparse : bool;
  pdfidres_lines : list str;
  pdfidres_subsections : list rsection
}.

(** Lines 77-233, after the call of PDFiD has returned [r]. *)
Definition scan (deep_scan get_malform : bool) (additional_keywords : list str)
    (r : pdfid_result) : res front :=
  if is_empty r then
    Ok {| triage_keywords := ∅; objstms := false; embed_present := false;
          run_pdfparse := deep_scan;
          pdfidres_lines := [py "No results generated for file. Please see errors."];
          pdfidres_subsections := [] |}
  else
    '(version_lines, doc_sections) ←
      (if get_malform then document_sections r else Ok ([], []));
    fl ← match r_flags r with
         | Some (f :: fs) =>
             st ← for_each (flag_step additional_keywords) (f :: fs)
                    {| f_objstms := false; f_keywords := ∅; f_lines := []; f_tags := [] |};
             Ok (st, [RSection (py "PDF Keyword Flags") None (f_lines st) (f_tags st)])
         | _ =>
             Ok ({| f_objstms := false; f_keywords := ∅; f_lines := []; f_tags := [] |}, [])
         end;
    let plugin := default [] (r_plugin r) in
    let run :=
      deep_scan || negb (bool_decide (plugin = []))
      || negb (bool_decide (f_keywords fl.1 = ∅)) in
    pl ← for_each plugin_step plugin
           {| p_keywords := f_keywords fl.1; p_embed_present := false;
              p_subsections := doc_sections ++ fl.2 |};
    Ok {| triage_keywords := p_keywords pl;
          objstms := f_objstms fl.1;
          embed_present := p_embed_present pl;
          run_pdfparse := run;
          pdfidres_lines := version_lines;
          pdfidres_subsections := p_subsections pl |}.

End Pdfid.

(** ** More sample inputs *)

Module Cases.

(** The counts of a document with one /JavaScript and two /OpenAction. *)
Definition counts : gmap (list N) Z :=
  {[ py "/JavaScript" := 1%Z; py "/JS" := 0%Z; py "/AA" := 0%Z;
     py "/OpenAction" := 2%Z; py "/Launch" := 0%Z ]}.

(** The text of the plugin "Triage" for these counts. *)
Definition triage_entry : Pdfid.plugin_entry :=
  {| Pdfid.pl_name := py "Triage"; Pdfid.pl_heur := Some 150%Z;
     Pdfid.pl_text :=
       py "Instructions: " ++
       default [] (match PluginTriage.Score counts ∅ with
                   | Ok (s, h) => PluginTriage.Instructions s h
                   | Raise _ => None
                   end) |}.

(** A report of PDFiD with two flags, one of them /ObjStm, and the
    plugin "Triage". *)
Definition report : Pdfid.pdfid_result :=
  {| Pdfid.r_pdfid := None; Pdfid.r_properties := None; Pdfid.r_entropy := None;
     Pdfid.r_flags := Some [[py "/ObjStm"; py "2"]; [py "/Page"; py "1"]];
     Pdfid.r_plugin := Some [triage_entry]; Pdfid.r_other := false |}.

(** A report of three lines, and an attachment. *)
Definition truncated5 : str :=
  text ["obj 5 0"; "Type: /Action"; "Referencing: "].
Definition attachment4 : str :=
  text ["obj 4 0"; "Type: /EmbeddedFile"; "Referencing: "; "Contains stream";
        "<< /Type /EmbeddedFile >>"].

(** Two reports of object 9: one without a stream and of another type
    than the keyword, one with a stream. *)
Definition font9 : str :=
  text ["obj 9 0"; "Type: /Font"; "Referencing: "; "<< /Type /Font >>"].
Definition stream9 : str :=
  text ["obj 9 0"; "Type: /Font"; "Referencing: "; "Contains stream";
        "<< /Type /Font /Length 4 >>"].

Definition parser (path : str) (q : query) : res (option presult) :=
  if Sample.named path "two_reports.pdf" then
    match q with
    | QObjectDetail o =>
        if eqb o (py "9") then Ok (Some (Sample.answer [font9; stream9] (py "<< /Type /Font >>")))
        else Ok None
    | _ => Ok None
    end
  else if Sample.named path "truncated.pdf" then
    match q with
    | QSearch k =>
        if eqb k (py "OpenAction") then Ok (Some (Sample.answer [truncated5] []))
        else Ok None
    | QObjStmDump o d => Ok (Some (Sample.dumped [truncated5] d))
    | _ => Ok None
    end
  else if Sample.named path "attachment.pdf" then
    match q with
    | QElements _ _ => Ok (Some (Sample.answer [attachment4; Sample.action5] []))
    | _ => Ok None
    end
  else Sample.parser path q.

(** The collaborators of [Sample], with a parser that knows two more
    documents and an indicator matcher that reports every value. *)
Definition externals : Externals :=
  {| PDFParserMain := parser;
     sha256_hexdigest := Sample.length_digest;
     ioc_match := fun b => [(py "network.static.uri", IocValues [b])];
     sub_keyword_special := fun _ content => content;
     PDFParserWrites := Sample.writes |}.


(** Two objects carved with the same 250 characters U+00E9, which
    are 500 bytes once encoded. *)
Definition twice_accented : Triage.state :=
  Triage.carve (py "6") (py "JS") (repeat 233 250)
    (Triage.carve (py "5") (py "OpenAction") (repeat 233 250) Triage.init).

(** The accumulators after objects 4 and 5 were marked for extraction. *)
Definition marked : Triage.state :=
  Triage.extract (py "4") (Triage.extract (py "5") Triage.init).

(** An analysis that always succeeds and counts /ObjStm in the main
    document. *)
Definition analysed (res_txt path : list N) (heur : list (list N)) (get_malform : bool)
    : res (list N * bool * list (list N)) :=
  Ok (res_txt, get_malform, []).

End Cases.

(** ** Predicates used in the statements *)



(** The accumulators of the triage loop only grow. *)
Definition grows (st st' : Triage.state) : Prop :=
  Triage.obj_extract_triage st ⊆ Triage.obj_extract_triage st' ∧
  Triage.jbig_objs st ⊆ Triage.jbig_objs st' ∧
  dom (Triage.carved_content st) ⊆ dom (Triage.carved_content st').

(** A part that names a compressed-object container. *)
Definition is_container (p : list N) : Prop := isin (py "Type: /ObjStm") p = true.

#[global] Instance is_container_dec p : Decision (is_container p).
Proof. unfold is_container. apply _. Defined.

(** What the parser returned to the listing query of [analyze_objstm]. *)
Definition returned_parts `{Externals} (path : list N) (deep_scan : bool)
    : list (list N) :=
  match get_pdf_parser path (QObjStmList (if deep_scan then 100 else 1)) with
  | Some r => default [] (parts r)
  | None => []
  end.

(** The accumulators of the loop agree with the list of the calls that
    returned a file, and no container is in that list twice. *)
Definition consistent (st : ObjStm.state) : Prop :=
  NoDup (ObjStm.reconstructed st).*1 ∧
  ObjStm.objstm_extracted st = list_to_set (ObjStm.reconstructed st).*1 ∧
  ObjStm.obj_files st = list_to_set (ObjStm.reconstructed st).*2 ∧
  (length (ObjStm.reconstructed st) <= ObjStm.idx st)%nat.

(** The keywords [Score] looks at. *)
Definition scored_keywords : list string :=
  ["/JS"; "/JavaScript"; "/JBIG2Decode"; "/Colors > 2^24"; "/AA"; "/OpenAction";
   "/Launch"; "/AcroForm"; "/RichMedia"; "/XFA"; "/Encrypt"; "/Annot"; "/ObjStm";
   "/URI"].

(** The keyword [k] as a set: itself when it is counted, nothing
    otherwise. *)
Definition hit_of (keywords : gmap (list N) Z) (k : string) : gset (list N) :=
  if PluginTriage.flagged keywords k then {[py k]} else ∅.

(** The keywords of [scored_keywords] with a positive count. *)
Definition flagged_set (keywords : gmap (list N) Z) : gset (list N) :=
  ⋃ (hit_of keywords <$> scored_keywords).

(** The triage keyword [analyze_pdf] reads in a line, if any. *)
Definition line_keyword (line : list N) : option (list N) :=
  (fun rule : string * (string * Z) => py rule.2.1) <$>
    find (fun rule => isin (py rule.1) line) Pdfid.triage_rules.

(** The number of sections with the heuristic [h]. *)
Definition with_heuristic (h : Z) (l : list Pdfid.rsection) : nat :=
  length (filter (fun s => Pdfid.heuristic_of s = Some h) l).

(** [instruct.get(h)] as [Instructions] writes it. *)
Definition instruction (h : list N) : list N :=
  default (py "None") (PluginTriage.instruct_get h).

(** The first field of a flag is /ObjStm. *)
Definition names_objstm (flist : list (list N)) : bool :=
  match index flist 0 with
  | Some name => eqb name (py "/ObjStm")
  | None => false
  end.

(** The plugins whose text [analyze_pdf] reads line by line. *)
Definition read_by_line (entry : Pdfid.plugin_entry) : bool :=
  inlist (Pdfid.pl_name entry) [py "Triage"; py "Suspicious Properties"].

(** The keywords under which values were carved belong to [kws]. *)
Definition carved_under (kws : list (list N)) (st : Triage.state) : Prop :=
  ∀ k l kw c, Triage.carved_content st !! k = Some l → (kw, c) ∈ l →
              kw ∈ kws ∧ kw ≠ py "ObjStm".

(** An object of type /EmbeddedFile in the answer to the ELEMENTS
    query. *)
Definition embedded_object `{Externals} (path : list N) (deep_scan embed_present : bool)
    (o : list N) : Prop :=
  ∃ r ps p, get_pdf_parser path (QElements deep_scan embed_present) = Some r ∧
            truthy r = true ∧ parts r = Some ps ∧ p ∈ ps ∧
            isin (py "Type: /EmbeddedFile") p = true ∧ objnum_of p = Some o.

(** What [write_objstm] may do to the working directory: no file is
    created or deleted, no file gets shorter, and a file that changed
    begins with the header of the mock document. *)
Definition rewritten (fs fs' : gmap (list N) (list Init.Byte.byte)) : Prop :=
  dom fs' = dom fs ∧
  ∀ k old, fs !! k = Some old →
           ∃ new, fs' !! k = Some new ∧ (length old <= length new)%nat ∧
                  (new = old ∨ ObjStm.header `prefix_of` new).

(** The title [execute] gives to the section of a nested document. *)
Definition nested_title (obj_cnt : nat) (parent_obj : list N) : list N :=
  py "ObjStream Object " ++ py (pretty.pretty obj_cnt)
  ++ py " from Parent Object " ++ parent_obj.

(** The files of the working directory after the loop over [files]. *)
Definition embedded_written (fs : gmap (list N) (list Init.Byte.byte))
    (acc : gmap (list N) (list Init.Byte.byte) * option (list N)) : Prop :=
  rewritten fs acc.1 ∧
  match acc.2 with
  | None => acc.1 = fs
  | Some name => ∃ data, acc.1 !! name = Some data ∧ ObjStm.header `prefix_of` data
  end.

(** A plugin entry of the name EmbeddedFile whose text, after its first
    14 characters, is neither empty nor "None". *)
Definition announces_attachment (entry : Pdfid.plugin_entry) : bool :=
  eqb (Pdfid.pl_name entry) (py "EmbeddedFile")
  && negb (eqb (drop 14 (Pdfid.pl_text entry)) []
           || eqb (drop 14 (Pdfid.pl_text entry)) (py "None")).



(** * Properties *)

Local Close Scope N_scope.

(** ** Strings *)

Lemma eqb_eq (s t : list N) : eqb s t = true ↔ s = t.
Proof.
  revert t; induction s as [|a s IH]; intros [|b t]; simpl; try (split; congruence).
  rewrite andb_true_iff, N.eqb_eq, IH. split; [intros [-> ->]; done | by inversion 1].
Qed.

Lemma eqb_refl (s : list N) : eqb s s = true.
Proof. by apply eqb_eq. Qed.

Lemma startswith_app (s t : list N) : startswith (t ++ s) t = true.
Proof. induction t as [|b t IH]; simpl; [done | by rewrite N.eqb_refl, IH]. Qed.

Lemma startswith_take (n : nat) (s t : list N) :
  length t ≤ n → startswith s t = true → startswith (take n s) t = true.
Proof.
  revert n s; induction t as [|b t IH]; intros n s Hn; [done |].
  destruct s as [|a s]; simpl; [done |].
  destruct n as [|n]; simpl in *; [lia |].
  intros [-> Hs]%andb_true_iff. simpl. apply IH; [lia | done].
Qed.

Lemma startswith_isin (s t : list N) : startswith s t = true → isin t s = true.
Proof. intros Hs. destruct s; simpl in *; by rewrite Hs. Qed.

(** For text in the ASCII range, one character is one byte. *)
Lemma encode_ascii (s : list N) :
  Forall (λ c, (c < 128)%N) s → ∃ b, encode s = Some b ∧ length b = length s.
Proof.
  induction 1 as [|c s Hc _ (b & Hb & Hlen)]; [by exists [] |].
  simpl. unfold utf8_char. apply N.ltb_lt in Hc. rewrite Hc, Hb.
  eexists; split; [done |]. simpl. by rewrite Hlen.
Qed.

(** The string operations on a few inputs. *)
Example split_once : split (py "obj 5 0") (py " ") (Some 1) = Some [py "obj"; py "5 0"].
Proof. reflexivity. Qed.

Example split_empty_separator : split (py "obj 5 0") [] (Some 1) = None.
Proof. reflexivity. Qed.

Example replace_all : replace (py "1 0 R 2 0 R") (py "R ") (py "R,") = py "1 0 R,2 0 R".
Proof. reflexivity. Qed.

Example strip_both_ends : strip (py "  9 0 R ") = py "9 0 R".
Proof. reflexivity. Qed.

Example encode_two_bytes : encode [233%N] = Some [Init.Byte.xc3; Init.Byte.xa9].
Proof. reflexivity. Qed.

Example encode_surrogate : encode [55296%N] = None.
Proof. reflexivity. Qed.

Example reference_list :
  Triage.tokens (py "s [9 0 R 10 0 R]") [] = Some [py "9 0 R"; py "10 0 R"].
Proof. reflexivity. Qed.

Example reference_with_instructions :
  Triage.tokens (py "[7 0 R /FitH null]") [] = Some [py "7 0 R"].
Proof. reflexivity. Qed.

Example literal_text :
  Triage.tokens (py "(app.alert(1))") [] = Some [py "(app.alert(1))"].
Proof. reflexivity. Qed.

Example trailer_references :
  findall ref_pat (py "1 0 R >> 22 3 R") = [py "1 0 R"; py "22 3 R"].
Proof. reflexivity. Qed.

(** ** Loops *)


(** An invariant of the body of a loop holds when the loop ends. *)
Lemma for_each_invariant {A S} (f : A → S → res S) (I : S → Prop) l st st' :
  (∀ x s s', x ∈ l → I s → f x s = Ok s' → I s') →
  I st → for_each f l st = Ok st' → I st'.
Proof.
  revert st; induction l as [|x l IH]; intros st Hstep Hst; simpl.
  - by intros [= <-].
  - destruct (f x st) as [s1|] eqn:Hf; [|done].
    apply IH; [| eapply Hstep; [left | done | done]].
    intros y s s' Hy. apply Hstep. by right.
Qed.

(** A loop whose body never raises on its items runs to its end. *)
Lemma for_each_total {A S} (f : A → S → res S) l st :
  (∀ x s, x ∈ l → ∃ s', f x s = Ok s') → ∃ st', for_each f l st = Ok st'.
Proof.
  revert st; induction l as [|x l IH]; intros st Hf; simpl; [by eexists |].
  destruct (Hf x st) as [s' ->]; [left |].
  apply IH. intros y s Hy. apply Hf. by right.
Qed.

(** ** Disposition of carved content *)

Section CarveProperties.
Context `{Externals}.
Import Carve.


Lemma inline_keeps k keyw con b st :
  carved_extracted_shas (inline k keyw con b st) = carved_extracted_shas st ∧
  artifacts (inline k keyw con b st) = artifacts st.
Proof. unfold inline. by destruct (ioc_match b). Qed.





(** The branch taken depends on the number of characters. *)
Lemma report_entry_cases wd k keyw con st st' :
  report_entry wd k (keyw, con) st = Ok st' →
  ∃ b, encode con = Some b ∧
    ((length con < 500 ∧ st' = inline k keyw con b st) ∨
     (500 ≤ length con ∧ st' = persist wd k keyw b st)).
Proof.
  unfold report_entry. destruct (encode con) as [b|]; simpl; [|done].
  destruct (Nat.ltb_spec (length con) 500); intros [= <-]; eauto.
Qed.










(** Membership in the list of carved values. *)
Lemma elem_of_entries (m : gmap (list N) (list (list N * list N))) k d :
  (k, d) ∈ entries (sorted_items m) ↔ ∃ l, m !! k = Some l ∧ d ∈ l.
Proof.
  unfold entries, sorted_items. rewrite list_elem_of_In, in_flat_map. split.
  - intros ([k' l] & Hkl & Hin). apply in_map_iff in Hin as (d' & [= -> ->] & Hd).
    exists l. split; [| by apply list_elem_of_In].
    apply list_elem_of_In in Hkl. rewrite merge_sort_Permutation in Hkl.
    by apply elem_of_map_to_list in Hkl.
  - intros (l & Hl & Hd). exists (k, l). split.
    + apply list_elem_of_In. rewrite merge_sort_Permutation.
      by apply elem_of_map_to_list.
    + apply in_map. by apply list_elem_of_In.
Qed.

(** C1 (the code departs from the claim) — The claim makes the
    disposition of a carved value a function of the number of its
    encoded bytes.  [report_entry] compares the number of characters:
    a value of 499 characters U+00E9 has 998 encoded bytes and is still
    shown inline; no file is written and no digest is recorded. *)
Theorem C1_threshold_counts_characters wd k keyw st :
  ∃ con_bytes,
    encode (repeat 233%N 499) = Some con_bytes ∧
    length con_bytes = 998 ∧
    report_entry wd k (keyw, repeat 233%N 499) st
      = Ok (inline k keyw (repeat 233%N 499) con_bytes st) ∧
    artifacts (inline k keyw (repeat 233%N 499) con_bytes st) = artifacts st ∧
    carved_extracted_shas (inline k keyw (repeat 233%N 499) con_bytes st)
      = carved_extracted_shas st.
Proof.
  destruct (encode (repeat 233%N 499)) as [b|] eqn:Hb; vm_compute in Hb; [|done].
  exists b. split; [done |]. split; [by injection Hb as <- |].
  split; [| by destruct (inline_keeps k keyw (repeat 233%N 499) b st)].
  unfold report_entry.
  replace (encode (repeat 233%N 499)) with (Some b)
    by (symmetry; vm_compute; exact Hb).
  by rewrite repeat_length.
Qed.

(** In the ASCII range the two counts agree, and there the branch is
    the one the claim names. *)
Lemma report_entry_ascii wd k keyw con st :
  Forall (λ c, (c < 128)%N) con →
  ∃ b, encode con = Some b ∧ length b = length con ∧
    report_entry wd k (keyw, con) st =
    Ok (if decide (length b < 500) then inline k keyw con b st
        else persist wd k keyw b st).
Proof.
  intros (b & Hb & Hlen)%encode_ascii. exists b. split_and!; [done.. |].
  unfold report_entry. rewrite Hb, Hlen. simpl.
  destruct (Nat.ltb_spec (length con) 500); case_decide; (done || lia).
Qed.


End CarveProperties.

(** ** The triage loop *)

Section TriageProperties.
Context `{Externals}.
Import Triage.

Lemma extract_all_keeps_carved (l : list (list N)) st :
  carved_content
    (foldl (λ acc sr,
              match index (fields sr " " (Some 1)) 0 with
              | Some objnum => extract objnum acc
              | None => acc
              end) st l) = carved_content st.
Proof.
  revert st; induction l as [|sr l IH]; intros st; cbn [foldl]; [done |].
  rewrite IH. by destruct (index (fields sr " " (Some 1)) 0).
Qed.

(** A report of the referenced object changes the extraction set or
    the carved content, not both. *)
Lemma classify_sub_one_disposition keyword r sub_p st :
  carved_content (classify_sub keyword r sub_p st).1 = carved_content st ∨
  obj_extract_triage (classify_sub keyword r sub_p st).1 = obj_extract_triage st.
Proof.
  unfold classify_sub.
  repeat (match goal with
          | |- context [match ?x with _ => _ end] => destruct x eqn:?
          | |- context [if ?x then _ else _] => destruct x eqn:?
          end; simpl; auto using extract_all_keeps_carved).
Qed.

#[local] Instance grows_refl : Reflexive grows.
Proof. by intros st. Qed.

#[local] Instance grows_trans : Transitive grows.
Proof.
  intros s1 s2 s3 (? & ? & ?) (? & ? & ?). split_and!; by etrans.
Qed.

Lemma extract_grows objnum st : grows st (extract objnum st).
Proof. split_and!; simpl; [apply union_subseteq_r | done | done]. Qed.

Lemma carve_grows objnum keyword c st : grows st (carve objnum keyword c st).
Proof.
  split_and!; simpl; [done | done |].
  destruct (carved_content st !! objnum); rewrite dom_insert_L; apply union_subseteq_r.
Qed.

Lemma jbig_hit_grows deep objnum st : grows st (jbig_hit deep objnum st).
Proof.
  split_and!; destruct deep; simpl; (done || apply union_subseteq_r).
Qed.

Lemma extract_all_grows (l : list (list N)) st :
  grows st
    (foldl (λ acc sr,
              match index (fields sr " " (Some 1)) 0 with
              | Some objnum => extract objnum acc
              | None => acc
              end) st l).
Proof.
  revert st; induction l as [|sr l IH]; intros st; cbn [foldl]; [reflexivity |].
  etrans; [| apply IH].
  destruct (index (fields sr " " (Some 1)) 0); [apply extract_grows | reflexivity].
Qed.

Lemma classify_sub_grows keyword r sub_p st :
  grows st (classify_sub keyword r sub_p st).1.
Proof.
  unfold classify_sub.
  repeat (match goal with
          | |- context [match ?x with _ => _ end] => destruct x eqn:?
          | |- context [if ?x then _ else _] => destruct x eqn:?
          end; cbn [fst];
          auto using extract_grows, carve_grows, extract_all_grows; try reflexivity).
Qed.

Lemma classify_subs_grows keyword r l st :
  grows st (classify_subs keyword r l st).1.
Proof.
  revert st; induction l as [|sub_p l IH]; intros st; cbn [classify_subs fst];
    [reflexivity |].
  pose proof (classify_sub_grows keyword r sub_p st) as Hstep.
  destruct (classify_sub keyword r sub_p st) as [st1 []]; [done |].
  etrans; [exact Hstep | apply IH].
Qed.

Lemma resolve_grows path keyword p c st : grows st (resolve path keyword p c st).
Proof.
  unfold resolve.
  assert (grows st (resolve_try path keyword c st).1) as Htry.
  { unfold resolve_try.
    destruct (index (fields c " " (Some 1)) 0); [| reflexivity].
    destruct (get_pdf_parser _ _) as [r|]; [| reflexivity].
    destruct (truthy r); [| reflexivity].
    destruct (parts r); [apply classify_subs_grows | reflexivity]. }
  destruct (resolve_try path keyword c st) as [st1 []]; [| done].
  destruct (objnum_of p); [| done]. etrans; [exact Htry | apply extract_grows].
Qed.

Lemma process_token_grows path kws keyword p refs c st st' :
  process_token path kws keyword p refs c st = Ok st' → grows st st'.
Proof.
  unfold process_token, literal.
  destruct (javascript_dup _ _ _); [by intros [= <-] |].
  destruct (looks_like_reference _ _); [intros [= <-]; apply resolve_grows |].
  destruct (startswith _ _); [by intros [= <-] |].
  destruct (objnum_of p); cbn [of_option mbind res_bind]; [|done].
  destruct (line3_is_stream p) as [[]|]; cbn [of_option mbind res_bind]; [| |done];
    intros [= <-]; [apply extract_grows | apply carve_grows].
Qed.

Lemma process_part_grows deep path kws keyword p st st' :
  process_part deep path kws keyword p st = Ok st' → grows st st'.
Proof.
  unfold process_part.
  destruct (part_content keyword p) as [[content refs]|]; [| by intros [= <-]].
  destruct (jbig_stream keyword p).
  - destruct (objnum_of p); intros [= <-]; [apply jbig_hit_grows | done].
  - destruct (tokens content refs) as [cs|]; [| by intros [= <-]].
    apply (for_each_invariant _ (grows st)); [| done].
    intros c s s' _ Hs Hstep%process_token_grows. by etrans.
Qed.

(** Over the whole loop too. *)
Lemma triage_steps_grow deep path kws l st st' :
  for_each (process_keyword deep path kws) l st = Ok st' → grows st st'.
Proof.
  apply (for_each_invariant _ (grows st)); [| done].
  intros keyword s s' _ Hs. unfold process_keyword.
  destruct (eqb keyword _); [by intros [= <-] |].
  destruct (get_pdf_parser _ _) as [r|]; [| by intros [= <-]].
  destruct (truthy r); [| by intros [= <-]].
  destruct (parts r) as [ps|]; cbn [of_option mbind res_bind]; [|done].
  intros Hps. etrans; [exact Hs |]. revert Hps.
  apply (for_each_invariant _ (grows s)); [| done].
  intros p s1 s2 _ Hs1 Hstep%process_part_grows. by etrans.
Qed.

(** C3 (amended) — Extraction and carving exclude each other within
    one disposition, not beyond.  A literal token of an object report
    puts the object number in the extraction set when the fourth line of
    the report is [Contains stream] and carves the text otherwise; one
    report of a resolved reference changes one of the two accumulators at
    most; and whatever the loop does next, it removes nothing from
    either accumulator.  So an object carved by one disposition stays
    carved when another one queues it for extraction, be it another hit,
    another report of the same reference, or the fallback after an
    exception. *)
Theorem C3_one_hit_one_disposition keyword p c r sub_p st st1 :
  startswith p (py "trailer:") = false →
  literal keyword p c st = Ok st1 →
  (∃ objnum, objnum_of p = Some objnum ∧
     ((line3_is_stream p = Some true ∧ st1 = extract objnum st
       ∧ carved_content st1 = carved_content st) ∨
      (line3_is_stream p = Some false ∧ st1 = carve objnum keyword c st
       ∧ obj_extract_triage st1 = obj_extract_triage st))) ∧
  (carved_content (classify_sub keyword r sub_p st).1 = carved_content st ∨
   obj_extract_triage (classify_sub keyword r sub_p st).1 = obj_extract_triage st) ∧
  (∀ deep path kws l st2,
     for_each (process_keyword deep path kws) l st1 = Ok st2 →
     obj_extract_triage st1 ⊆ obj_extract_triage st2 ∧
     dom (carved_content st1) ⊆ dom (carved_content st2)).
Proof.
  intros Hp. unfold literal. rewrite Hp.
  destruct (objnum_of p) as [objnum|]; cbn [of_option mbind res_bind]; [|done].
  destruct (line3_is_stream p) as [[]|]; cbn [of_option mbind res_bind]; [| |done];
    intros [= <-].
  all: split_and!; [exists objnum; split; [done |]; auto
                   | apply classify_sub_one_disposition |].
  all: intros deep path kws l st2 (Hex & _ & Hcarved)%triage_steps_grow; done.
Qed.

(** C6 (amended) — A JBIG2Decode hit is kept out of the carved
    content when its report holds [/Filter] and [Contains stream]:
    then nothing is carved, the object number is queued for extraction
    in deep-scan mode only, and it is recorded in [jbig_objs] in both
    modes; whatever the loop does afterwards, the extraction of the
    queued objects leaves it out. *)
Theorem C6_jbig_stream_not_carved deep path kws keyword p st :
  jbig_stream keyword p = true →
  startswith p (py "trailer:") = false →
  ∃ st', process_part deep path kws keyword p st = Ok st' ∧
    carved_content st' = carved_content st ∧
    ∀ objnum, objnum_of p = Some objnum →
      obj_extract_triage st' =
        (if deep then {[objnum]} ∪ obj_extract_triage st else obj_extract_triage st) ∧
      objnum ∈ jbig_objs st' ∧
      ∀ st'' embed, grows st' st'' →
        (objnum ∉ obj_to_extract embed st'') ∧
        ∀ objs, QExtract objs ∈ Extraction.dump_queries deep embed st'' → objnum ∉ objs.
Proof.
  intros Hj Hp. unfold process_part, part_content. rewrite Hp.
  destruct (isin (py "Referencing:") p); rewrite Hj.
  all: destruct (objnum_of p) as [o|]; (eexists; split; [done |]).
  all: split; [by destruct deep | intros objnum [= <-] || by intros].
  all: split_and!; [by destruct deep | simpl; apply elem_of_union_l, elem_of_singleton_2; done |].
  all: intros st'' embed (_ & Hjb & _).
  all: assert (o ∉ obj_to_extract embed st'') as Hout
         by (unfold obj_to_extract; intros [_ Hno]%elem_of_difference; apply Hno, Hjb;
             simpl; apply elem_of_union_l, elem_of_singleton_2; done).
  all: split; [done |]; intros objs; unfold Extraction.dump_queries.
  all: rewrite elem_of_app; intros [Hq | Hq].
  all: try (case_decide; [by apply elem_of_nil in Hq |];
            apply list_elem_of_singleton in Hq; by injection Hq as ->).
  all: destruct (_ && _); [apply list_elem_of_singleton in Hq; discriminate
                          | by apply elem_of_nil in Hq].
Qed.

(** The objects recorded as JBIG2Decode streams are in no request for
    the extraction of the queued objects. *)
Lemma parser_pass_leaves_jbig_out deep embed_present get_malform path wd kws t c qs objs :
  Extraction.parser_pass deep embed_present get_malform path wd kws = Ok (t, c, qs) →
  QExtract objs ∈ qs → objs ## jbig_objs t.
Proof.
  unfold Extraction.parser_pass.
  destruct (triage deep path kws) as [t'|]; cbn [mbind res_bind]; [|done].
  destruct (Carve.content_of_interest wd t') as [c'|]; cbn [mbind res_bind]; [|done].
  destruct get_malform; cbn [mbind res_bind].
  - unfold Extraction.extraction_pass.
    destruct (match get_pdf_parser _ _ with Some _ => _ | None => _ end) as [embed|];
      cbn [mbind res_bind]; [|done].
    intros [= -> -> <-]. unfold Extraction.dump_queries. rewrite elem_of_app.
    intros [Hq | Hq].
    + case_decide; [by apply elem_of_nil in Hq |].
      apply list_elem_of_singleton in Hq. injection Hq as ->.
      unfold obj_to_extract. apply disjoint_difference_l1. done.
    + destruct (_ && _); [apply list_elem_of_singleton in Hq; discriminate
                         | by apply elem_of_nil in Hq].
  - intros [= -> -> <-]. by intros ?%elem_of_nil.
Qed.





Lemma javascript_dup_prefix kws c :
  inlist (py "JS") kws = true → startswith c (py "/JS") = true →
  javascript_dup kws (py "JavaScript") c = true.
Proof.
  intros Hkw Hc. unfold javascript_dup, slice0. rewrite Hkw, eqb_refl.
  cbn [andb]. apply startswith_isin, startswith_take; [simpl; lia | done].
Qed.

(** C8 — With [JS] among the triage keywords, a token met under the
    keyword [JavaScript] that begins with [/JS] is passed over; a report
    all of whose tokens begin so leaves the accumulators as they were,
    so that what is recorded for the object is what the keyword [JS]
    records. *)
Theorem C8_javascript_skipped_for_js deep path kws p content refs cs st :
  inlist (py "JS") kws = true →
  part_content (py "JavaScript") p = Some (content, refs) →
  tokens content refs = Some cs →
  Forall (λ c, startswith c (py "/JS") = true) cs →
  (∀ c, c ∈ cs → process_token path kws (py "JavaScript") p refs c st = Ok st) ∧
  process_part deep path kws (py "JavaScript") p st = Ok st.
Proof.
  intros Hkw Hpart Htok Hcs.
  assert (∀ c, c ∈ cs → process_token path kws (py "JavaScript") p refs c st = Ok st)
    as Hskip.
  { intros c Hc. unfold process_token. rewrite javascript_dup_prefix; [done.. |].
    rewrite Forall_forall in Hcs. by apply Hcs. }
  split; [done |].
  unfold process_part. rewrite Hpart.
  replace (jbig_stream (py "JavaScript") p) with false by reflexivity.
  rewrite Htok. clear Htok Hcs. induction cs as [|c cs IH]; simpl; [done |].
  rewrite Hskip by left. apply IH. intros c' Hc'. apply Hskip. by right.
Qed.

End TriageProperties.

(** ** Compressed-object containers *)

Section ObjStmProperties.
Context `{Externals}.
Variable rewrite_stream : list Init.Byte.byte → list Init.Byte.byte.
Import ObjStm.

Lemma listed_parts_returned path deep :
  listed_parts path deep ≡ₚ returned_parts path deep.
Proof.
  unfold listed_parts, returned_parts, max_obst.
  destruct (get_pdf_parser _ _) as [r|]; [|done].
  destruct (parts r); [apply merge_sort_Permutation | done].
Qed.

Lemma consistent_start fs : consistent (start fs).
Proof. unfold consistent; simpl. split_and!; [constructor | done | done | lia]. Qed.

Lemma step_cases path wd p st st' :
  step rewrite_stream path wd p st = Ok st' →
  st' = st ∨
  ∃ getobj fs' obj_file,
    is_container p ∧ objnum_of p = Some getobj ∧ (getobj ∉ objstm_extracted st) ∧
    write_objstm rewrite_stream path getobj
      (path_join wd (dump_name getobj (idx st))) (fs_now st) = Ok (fs', obj_file) ∧
    idx st' = S (idx st) ∧ fs_now st' = fs' ∧
    ((∃ c f, obj_file = Some (c :: f) ∧
             objstm_extracted st' = {[getobj]} ∪ objstm_extracted st ∧
             obj_files st' = {[c :: f]} ∪ obj_files st ∧
             reconstructed st' = reconstructed st ++ [(getobj, c :: f)]) ∨
     ((obj_file = None ∨ obj_file = Some []) ∧
      objstm_extracted st' = objstm_extracted st ∧
      obj_files st' = obj_files st ∧
      reconstructed st' = reconstructed st)).
Proof.
  unfold step. destruct (isin (py "Type: /ObjStm") p) eqn:Hp; [| intros [= <-]; by left].
  destruct (objnum_of p) as [getobj|]; simpl; [|done].
  case_decide as Hin; [intros [= <-]; by left |].
  destruct (write_objstm _ _ _ _ _) as [[fs' obj_file]|] eqn:Hw; simpl; [|done].
  intros Hst'. right. exists getobj, fs', obj_file.
  split_and!; [done.. | | |].
  all: destruct obj_file as [[|c f]|]; injection Hst' as <-; simpl; try done.
  - right. auto.
  - left. exists c, f. auto.
  - right. auto.
Qed.

Lemma step_consistent path wd p st st' :
  consistent st → step rewrite_stream path wd p st = Ok st' → consistent st'.
Proof.
  intros (Hnd & Hex & Hfiles & Hidx) [-> | Hstep]%step_cases; [done |].
  destruct Hstep as (getobj & fs' & obj_file & _ & _ & Hnew & _ & Hi & _ & Hcase).
  unfold consistent.
  destruct Hcase as [(c & f & _ & -> & -> & ->) | (_ & -> & -> & ->)].
  - rewrite !fmap_app, !list_to_set_app_L. simpl. rewrite Hi, length_app. simpl.
    rewrite !(right_id_L ∅ (∪)), Hex, Hfiles.
    split_and!; [| apply (comm_L (∪)) | apply (comm_L (∪)) | lia].
    apply NoDup_app. split_and!; [done | | apply NoDup_singleton].
    intros x Hx ->%list_elem_of_singleton. apply Hnew. rewrite Hex.
    by apply elem_of_list_to_set.
  - split_and!; [done.. | lia].
Qed.

Lemma analyze_objstm_consistent path wd deep fs st :
  analyze_objstm rewrite_stream path wd deep fs = Ok st → consistent st.
Proof.
  apply for_each_invariant; [| apply consistent_start].
  intros p s s' _. apply step_consistent.
Qed.

(** Each part of type /ObjStm leads to one call of [write_objstm] at
    most. *)
Lemma steps_bound path wd l st st' :
  for_each (step rewrite_stream path wd) l st = Ok st' →
  idx st' ≤ idx st + length (filter is_container l).
Proof.
  revert st; induction l as [|p l IH]; intros st; simpl; [intros [= <-]; lia |].
  destruct (step rewrite_stream path wd p st) as [s1|] eqn:Hs1; [|done].
  intros Hrest%IH. rewrite filter_cons.
  apply step_cases in Hs1 as [-> | (getobj & fs' & obj_file & Hp & _ & _ & _ & Hi & _)].
  - case_decide; simpl; lia.
  - rewrite decide_True by done. simpl. lia.
Qed.

(** C4 (amended) — [analyze_objstm] hands the cap to the parser (1
    without deep scan, 100 with it) and reconstructs one document at
    most for each part of type /ObjStm that the parser returns; it
    counts nothing itself. *)
Theorem C4_cap_is_left_to_the_parser path wd deep fs st :
  analyze_objstm rewrite_stream path wd deep fs = Ok st →
  length (reconstructed st) ≤ length (filter is_container (returned_parts path deep)).
Proof.
  intros Hrun. pose proof (analyze_objstm_consistent _ _ _ _ _ Hrun) as (_ & _ & _ & Hidx).
  apply steps_bound in Hrun. simpl in Hrun.
  rewrite <- (listed_parts_returned path deep). lia.
Qed.




End ObjStmProperties.

(** ** The entry point *)

Section ExecuteProperties.
Context `{Externals}.
Variable rewrite_stream : list Init.Byte.byte → list Init.Byte.byte.
Variable S : Type.
Variable analyze_pdf :
  list N → list N → list (list N) → bool → res (S * bool * list (list N)).
Import Execute.

Lemma nested_keeps_first r osf acc acc' :
  (∃ rest, acc.2 = Analysis r :: rest) →
  nested S analyze_pdf osf acc = Ok acc' →
  ∃ rest, acc'.2 = Analysis r :: rest.
Proof.
  destruct acc as [[obj_cnt heur] sections]. cbn [snd]. intros [rest ->].
  unfold nested.
  destruct (index (fields (basename osf) "_" None) 1); cbn [of_option mbind res_bind];
    [|done].
  destruct (analyze_pdf _ _ _ _) as [[[r' ?] ?]|]; cbn [mbind res_bind]; [|done].
  intros [= <-]. cbn [snd app]. eauto.
Qed.

(** When the size test passes, the result begins with the section of
    the main document. *)
Lemma execute_runs cfg size deep path wd heur fs out :
  (size <? default 3000000 cfg)%Z || deep = true →
  execute rewrite_stream S analyze_pdf cfg size deep path wd heur fs = Ok out →
  ∃ r b e rest,
    analyze_pdf (py "Main Document Results") path heur true = Ok (r, b, e) ∧
    out = Analysis r :: rest.
Proof.
  intros Hsize. unfold execute. rewrite Hsize.
  destruct (analyze_pdf _ _ _ _) as [[[r b] e]|]; simpl; [|done].
  destruct b.
  - destruct (ObjStm.analyze_objstm _ _ _ _ _) as [st|]; simpl; [|done].
    destruct (for_each _ _ _) as [[[n h] sections]|] eqn:Hloop; simpl; [|done].
    apply (for_each_invariant _ (λ acc, ∃ rest, acc.2 = Analysis r :: rest)) in Hloop
      as [rest Hrest]; simpl in *.
    + intros [= <-]. subst sections. exists r, true, e. eexists. split; [done |].
      by rewrite <- app_comm_cons.
    + intros osf s s' _. apply nested_keeps_first.
    + by exists [].
  - intros [= <-]. exists r, false, e. by eexists.
Qed.

(** C9 (amended) — [execute] has a size budget of its own: a file
    is analysed when it is smaller than MAX_PDF_SIZE (3000000 bytes
    unless configured) or when deep scan is asked for, and then the
    result begins with the section of the main document; otherwise the
    file is skipped, with heuristic 10, and nothing is analysed. *)
Theorem C9_size_budget cfg size deep path wd heur fs :
  (execute rewrite_stream S analyze_pdf cfg size deep path wd heur fs
     = Ok [SkippedTooBig skipped_text 10]
   ↔ (default 3000000 cfg ≤ size)%Z ∧ deep = false) ∧
  (∀ out,
     (size < default 3000000 cfg)%Z ∨ deep = true →
     execute rewrite_stream S analyze_pdf cfg size deep path wd heur fs = Ok out →
     ∃ r b e rest,
       analyze_pdf (py "Main Document Results") path heur true = Ok (r, b, e) ∧
       out = Analysis r :: rest).
Proof.
  split; [split |].
  - intros Hskip.
    destruct ((size <? default 3000000 cfg)%Z || deep) eqn:Hsize.
    + destruct (execute_runs _ _ _ _ _ _ _ _ Hsize Hskip) as (? & ? & ? & ? & _ & [=]).
    + apply orb_false_iff in Hsize as [Hlt%Z.ltb_ge ->]. done.
  - intros [Hge%Z.ltb_ge ->]. unfold execute. by rewrite Hge.
  - intros out Hsize. apply execute_runs.
    destruct Hsize as [Hlt%Z.ltb_lt | ->]; [by rewrite Hlt | apply orb_true_r].
Qed.

End ExecuteProperties.

(** ** The properties on the sample documents *)

Section Samples.
Import Sample.


(** Between the two thresholds (500 bytes or more, fewer than 500
    characters) the values are shown in the report as well: this is the
    case of C1. *)
Example two_byte_characters_not_written :
  ∃ b st, encode (repeat 233%N 250) = Some b ∧ length b = 500 ∧
    Carve.content_of_interest (py "/tmp") Cases.twice_accented = Ok st ∧
    Carve.artifacts st = [] ∧ Carve.carved_extracted_shas st = ∅.
Proof. eexists _, _. split_and!; vm_compute; reflexivity. Qed.


(** C3, as stated, fails: in [annotated.pdf] object 5 is carved under
    /OpenAction and queued for extraction under /Annot. *)
Lemma C3_extracted_and_carved :
  ¬ (∀ (E : Externals) deep path kws st objnum,
       Triage.triage deep path kws = Ok st →
       objnum ∈ Triage.obj_extract_triage st →
       Triage.carved_content st !! objnum = None).
Proof.
  intros Hclaim.
  assert (∃ st, Triage.triage false (py "annotated.pdf") [py "OpenAction"; py "Annot"] = Ok st
                ∧ py "5" ∈ Triage.obj_extract_triage st
                ∧ is_Some (Triage.carved_content st !! py "5"))
    as (st & Hrun & Hex & [l Hl]).
  { eexists. split; [vm_compute; reflexivity |].
    split; [vm_compute; reflexivity | eexists; vm_compute; reflexivity]. }
  specialize (Hclaim externals _ _ _ _ _ Hrun Hex). congruence.
Qed.

Lemma C3_one_hit_one_disposition_witness :
  startswith action5 (py "trailer:") = false ∧
  Triage.literal (py "OpenAction") action5 (py "(text)") Triage.init
    = Ok (Triage.carve (py "5") (py "OpenAction") (py "(text)") Triage.init) ∧
  ∃ objnum, objnum_of action5 = Some objnum.
Proof.
  split; [vm_compute; reflexivity |]. split; [vm_compute; reflexivity |].
  destruct (C3_one_hit_one_disposition (py "OpenAction") action5 (py "(text)")
              (answer [annot9] []) annot9 Triage.init
              (Triage.carve (py "5") (py "OpenAction") (py "(text)") Triage.init))
    as ((objnum & Hobj & _) & _ & _).
  - vm_compute. reflexivity.
  - vm_compute. reflexivity.
  - by exists objnum.
Defined.

(** One reference hit whose target has two reports: the first is
    carved, the second queues the same object for extraction. *)
Example reference_hit_changes_both :
  ∃ l, Triage.carved_content
         (@Triage.resolve Cases.externals (py "two_reports.pdf") (py "Annot") page8
            (py "9 0 R") Triage.init) !! py "9" = Some l ∧
       py "9" ∈ Triage.obj_extract_triage
                  (@Triage.resolve Cases.externals (py "two_reports.pdf") (py "Annot") page8
                     (py "9 0 R") Triage.init).
Proof. eexists. split; vm_compute; reflexivity. Qed.

(** C4, as stated, fails: without deep scan, when the parser returns
    two containers both are reconstructed. *)
Lemma C4_two_containers_without_deep_scan :
  ¬ (∀ (E : Externals) rewrite_stream path wd fs st,
       ObjStm.analyze_objstm rewrite_stream path wd false fs = Ok st →
       length (ObjStm.reconstructed st) ≤ 1).
Proof.
  intros Hclaim.
  assert (∃ st, ObjStm.analyze_objstm keep (py "containers.pdf") (py "/tmp") false dumps = Ok st
                ∧ length (ObjStm.reconstructed st) = 2) as (st & Hrun & Hlen).
  { eexists. split; vm_compute; reflexivity. }
  specialize (Hclaim externals _ _ _ _ _ Hrun). lia.
Qed.

Lemma C4_cap_is_left_to_the_parser_witness :
  ∃ st, ObjStm.analyze_objstm keep (py "containers.pdf") (py "/tmp") true dumps = Ok st ∧
    length (ObjStm.reconstructed st)
    ≤ length (filter is_container (returned_parts (py "containers.pdf") true)).
Proof.
  eexists. split; [vm_compute; reflexivity |].
  apply (C4_cap_is_left_to_the_parser keep (py "containers.pdf") (py "/tmp") true dumps).
  vm_compute. reflexivity.
Defined.



(** C6, as stated, fails: a filter array that names /JBIG2Decode is
    a hit for the keyword and is carved. *)
Lemma C6_filter_array_is_carved :
  ¬ (∀ (E : Externals) deep path kws p st st',
       Triage.process_part deep path kws (py "JBIG2Decode") p st = Ok st' →
       Triage.carved_content st' = Triage.carved_content st).
Proof.
  intros Hclaim.
  assert (∃ st', Triage.process_part false (py "filters.pdf") [py "JBIG2Decode"]
                   (py "JBIG2Decode") filters7 Triage.init = Ok st'
                 ∧ Triage.carved_content st' !! py "7"
                   = Some [(py "JBIG2Decode", py "[ /FlateDecode /JBIG2Decode ]")])
    as (st' & Hrun & Hcarved).
  { eexists. split; vm_compute; reflexivity. }
  specialize (Hclaim externals _ _ _ _ _ _ Hrun). rewrite Hclaim in Hcarved.
  vm_compute in Hcarved. discriminate.
Qed.

Lemma C6_jbig_stream_not_carved_witness :
  ∃ st', Triage.process_part true (py "filters.pdf") [py "JBIG2Decode"]
           (py "JBIG2Decode") image3 Triage.init = Ok st' ∧
    Triage.carved_content st' = ∅ ∧ py "3" ∈ Triage.jbig_objs st'.
Proof.
  destruct (C6_jbig_stream_not_carved true (py "filters.pdf") [py "JBIG2Decode"]
              (py "JBIG2Decode") image3 Triage.init)
    as (st' & Hrun & Hcarved & Hobj).
  - vm_compute. reflexivity.
  - vm_compute. reflexivity.
  - exists st'. split_and!; [exact Hrun | exact Hcarved |].
    apply (Hobj (py "3")). vm_compute. reflexivity.
Defined.



Lemma C8_javascript_skipped_for_js_witness :
  Triage.process_part false (py "script.pdf") [py "JS"; py "JavaScript"]
    (py "JavaScript") script5 Triage.init = Ok Triage.init.
Proof.
  apply (C8_javascript_skipped_for_js false (py "script.pdf") [py "JS"; py "JavaScript"]
           script5 (py "/JS (app.alert(1))") [[]] [py "/JS (app.alert(1))"] Triage.init).
  - vm_compute. reflexivity.
  - vm_compute. reflexivity.
  - vm_compute. reflexivity.
  - repeat constructor.
Defined.

(** With both keywords, in either order, [script.pdf] yields one carved
    value for object 5, under [JS]. *)
Example script_reported_once :
  ∃ st, Triage.triage false (py "script.pdf") [py "JS"; py "JavaScript"] = Ok st ∧
    Triage.triage false (py "script.pdf") [py "JavaScript"; py "JS"] = Ok st ∧
    Triage.carved_content st = {[ py "5" := [(py "JS", py "(app.alert(1))")] ]} ∧
    Triage.obj_extract_triage st = ∅.
Proof. eexists. split_and!; vm_compute; reflexivity. Qed.

(** C9, as stated, fails: a file of 3000000 bytes is not analysed
    without deep scan. *)
Lemma C9_large_file_is_skipped :
  ¬ (∀ (E : Externals) rewrite_stream (S : Type) analyze_pdf cfg size deep path wd heur fs
       (r : S) b e,
       analyze_pdf (py "Main Document Results") path heur true = Ok (r, b, e) →
       ∃ out, Execute.execute rewrite_stream S analyze_pdf cfg size deep path wd heur fs
              = Ok out ∧ Execute.Analysis r ∈ out).
Proof.
  intros Hclaim.
  destruct (Hclaim externals keep (list N) analysed None 3000000%Z false
              (py "big.pdf") (py "/tmp") [] ∅ (py "Main Document Results") false []
              eq_refl) as (out & Hout & Hin).
  vm_compute in Hout. injection Hout as <-.
  apply list_elem_of_singleton in Hin. discriminate.
Qed.

Lemma C9_size_budget_witness :
  Execute.execute keep (list N) analysed None 3000000%Z false (py "big.pdf") (py "/tmp") [] ∅
  = Ok [Execute.SkippedTooBig Execute.skipped_text 10].
Proof.
  apply (proj1 (C9_size_budget keep (list N) analysed None 3000000%Z false
                  (py "big.pdf") (py "/tmp") [] ∅)).
  split; [vm_compute; discriminate | reflexivity].
Defined.


End Samples.

Set Warnings "-clear-no-such-hyp".

Lemma b2z_range (b : bool) : (0 ≤ Z.b2z b ≤ 1)%Z.
Proof. destruct b; simpl; lia. Qed.

(** Replace every [Z.b2z b] by a number between 0 and 1. *)
Ltac b2z_ranges :=
  repeat match goal with
         | |- context [Z.b2z ?b] =>
             generalize (b2z_range b); generalize (Z.b2z b); intros ? ?
         end.

(** ** The Triage plugin *)

Section PluginTriageProperties.
Import PluginTriage.

Lemma counted_flagged keywords k b : counted keywords k = Ok b → b = flagged keywords k.
Proof.
  unfold counted, flagged. destruct (keywords !! py k); cbn; [by intros [= <-] | done].
Qed.

Lemma counted_raise keywords k e :
  counted keywords k = Raise e ↔ keywords !! py k = None ∧ e = KeyError.
Proof.
  unfold counted. destruct (keywords !! py k); cbn; [naive_solver |].
  split; [by intros [= <-] | by intros [_ ->]].
Qed.

Lemma or_else_ok a b x :
  or_else a b = Ok x → (a = Ok true ∧ x = true) ∨ (a = Ok false ∧ b = Ok x).
Proof.
  unfold or_else. destruct a as [[]|]; cbn; [intros [= <-]; by left | by right | done].
Qed.

Lemma or_else_raise a b e :
  or_else a b = Raise e ↔ a = Raise e ∨ (a = Ok false ∧ b = Raise e).
Proof. unfold or_else. destruct a as [[]|]; cbn; naive_solver. Qed.

Lemma note_hit_of keywords k hits : note keywords k hits = hit_of keywords k ∪ hits.
Proof.
  unfold note, hit_of. destruct (flagged keywords k); [done |].
  by rewrite (left_id_L ∅ (∪)).
Qed.

Lemma note_scored_hit_of keywords points acc k :
  note_scored keywords points acc k =
  ((acc.1 + points * Z.b2z (flagged keywords k))%Z, hit_of keywords k ∪ acc.2).
Proof.
  unfold note_scored, hit_of. destruct acc as [s h].
  destruct (flagged keywords k); cbn [fst snd Z.b2z].
  - f_equal. lia.
  - rewrite (left_id_L ∅ (∪)). f_equal. lia.
Qed.

Lemma elem_of_hit_of keywords k x :
  x ∈ hit_of keywords k ↔ x = py k ∧ flagged keywords k = true.
Proof. unfold hit_of. destruct (flagged keywords k); set_solver. Qed.

Lemma elem_of_flagged_set keywords x :
  x ∈ flagged_set keywords ↔
  ∃ k, k ∈ scored_keywords ∧ x = py k ∧ flagged keywords k = true.
Proof.
  unfold flagged_set. rewrite elem_of_union_list. split.
  - intros (X & (k & -> & Hk)%list_elem_of_fmap & Hx). apply elem_of_hit_of in Hx. eauto.
  - intros (k & Hk & Hx). exists (hit_of keywords k). split.
    + by apply list_elem_of_fmap_2.
    + by apply elem_of_hit_of.
Qed.

(** The closed form of the result of [Score]. *)
Lemma Score_ok keywords hits s h :
  Score keywords hits = Ok (s, h) →
  s = (100 * Z.b2z (flagged keywords "/JavaScript" || flagged keywords "/JS")
       + 50 * Z.b2z (flagged keywords "/JBIG2Decode")
       + 50 * Z.b2z (flagged keywords "/Colors > 2^24")
       + 50 * Z.b2z (flagged keywords "/AA" || flagged keywords "/OpenAction"
                     || flagged keywords "/Launch")
       + 25 * Z.b2z (flagged keywords "/AcroForm")
       + 25 * Z.b2z (flagged keywords "/RichMedia")
       + 25 * Z.b2z (flagged keywords "/XFA")
       + 25 * Z.b2z (flagged keywords "/Encrypt")
       + Z.b2z (flagged keywords "/Annot")
       + Z.b2z (flagged keywords "/ObjStm")
       + Z.b2z (flagged keywords "/URI"))%Z ∧
  h = hits ∪ flagged_set keywords.
Proof.
  unfold Score.
  destruct (or_else (counted keywords "/JavaScript") (counted keywords "/JS"))
    as [js|] eqn:Hjs; cbn [mbind res_bind]; [|done].
  cbn [foldl]. rewrite !note_scored_hit_of, !note_hit_of. cbn [fst snd].
  destruct (or_else (counted keywords "/AA") _) as [auto|] eqn:Hauto;
    cbn [mbind res_bind]; [|done].
  cbn [foldl]. rewrite !note_scored_hit_of. cbn [fst snd].
  intros [= <- <-].
  assert (js = flagged keywords "/JavaScript" || flagged keywords "/JS") as ->.
  { apply or_else_ok in Hjs as [[Ha ->] | [Ha Hb]].
    - apply counted_flagged in Ha. by rewrite <- Ha.
    - apply counted_flagged in Ha, Hb. by rewrite <- Ha, <- Hb. }
  assert (auto = flagged keywords "/AA" || flagged keywords "/OpenAction"
                 || flagged keywords "/Launch") as ->.
  { apply or_else_ok in Hauto as [[Ha ->] | [Ha Hb]].
    - apply counted_flagged in Ha. by rewrite <- Ha.
    - apply counted_flagged in Ha. rewrite <- Ha.
      apply or_else_ok in Hb as [[Hb ->] | [Hb Hc]].
      + apply counted_flagged in Hb. by rewrite <- Hb.
      + apply counted_flagged in Hb, Hc. by rewrite <- Hb, <- Hc. }
  split.
  - destruct (flagged keywords "/JavaScript" || flagged keywords "/JS");
      destruct (flagged keywords "/AA" || flagged keywords "/OpenAction"
                || flagged keywords "/Launch"); cbn [Z.b2z]; lia.
  - unfold flagged_set, scored_keywords. cbn [fmap list_fmap union_list foldr].
    generalize (hit_of keywords "/JS") (hit_of keywords "/JavaScript")
      (hit_of keywords "/JBIG2Decode") (hit_of keywords "/Colors > 2^24")
      (hit_of keywords "/AA") (hit_of keywords "/OpenAction") (hit_of keywords "/Launch")
      (hit_of keywords "/AcroForm") (hit_of keywords "/RichMedia") (hit_of keywords "/XFA")
      (hit_of keywords "/Encrypt") (hit_of keywords "/Annot") (hit_of keywords "/ObjStm")
      (hit_of keywords "/URI").
    intros. set_solver.
Qed.

(** X1 — [Score] raises [KeyError], and nothing else, exactly when a
    count it reads without a test for the key is missing: that of
    /JavaScript, that of /JS when /JavaScript is not counted, that of /AA,
    that of /OpenAction when /AA is not counted, that of /Launch when
    neither is. *)
Theorem X1_Score_raises keywords hits e :
  Score keywords hits = Raise e ↔
  e = KeyError ∧
  (keywords !! py "/JavaScript" = None ∨
   (flagged keywords "/JavaScript" = false ∧ keywords !! py "/JS" = None) ∨
   keywords !! py "/AA" = None ∨
   (flagged keywords "/AA" = false ∧ keywords !! py "/OpenAction" = None) ∨
   (flagged keywords "/AA" = false ∧ flagged keywords "/OpenAction" = false ∧
    keywords !! py "/Launch" = None)).
Proof.
  unfold Score.
  destruct (or_else (counted keywords "/JavaScript") (counted keywords "/JS"))
    as [js|e1] eqn:Hjs; cbn [mbind res_bind].
  - destruct (foldl _ _ _) as [s1 h1].
    destruct (or_else (counted keywords "/AA") _) as [auto|e2] eqn:Hauto;
      cbn [mbind res_bind].
    + split; [done |]. intros [_ Hmiss]. exfalso.
      unfold or_else, counted, flagged in *.
      destruct (keywords !! py "/JavaScript") as [c1|]; [|done].
      destruct (keywords !! py "/AA") as [c2|]; [|done].
      cbn in *. destruct (0 <? c1)%Z eqn:?, (0 <? c2)%Z eqn:?;
        destruct (keywords !! py "/JS"), (keywords !! py "/OpenAction") as [c3|];
        cbn in *; try destruct (0 <? c3)%Z eqn:?;
        destruct (keywords !! py "/Launch"); cbn in *; naive_solver.
    + apply or_else_raise in Hauto. split.
      * intros [= <-]. unfold flagged.
        destruct Hauto as [[Ha ->]%counted_raise | [Ha Hb]]; [naive_solver |].
        pose proof (counted_flagged _ _ _ Ha) as Hfa. unfold flagged in Hfa.
        apply or_else_raise in Hb as [[Hb ->]%counted_raise | [Hb [Hc ->]%counted_raise]].
        -- naive_solver.
        -- pose proof (counted_flagged _ _ _ Hb) as Hfb. unfold flagged in Hfb.
           naive_solver.
      * intros [-> _]. f_equal.
        destruct Hauto as [[_ ->]%counted_raise | [_ Hb]]; [done |].
        by apply or_else_raise in Hb as [[_ ->]%counted_raise | [_ [_ ->]%counted_raise]].
  - apply or_else_raise in Hjs. split.
    + intros [= <-].
      destruct Hjs as [[Ha ->]%counted_raise | [Ha [Hb ->]%counted_raise]]; [naive_solver |].
      pose proof (counted_flagged _ _ _ Ha). naive_solver.
    + intros [-> _]. f_equal.
      by destruct Hjs as [[_ ->]%counted_raise | [_ [_ ->]%counted_raise]].
Qed.

(** X2 — When [Score] returns, the hits are those it was entered with
    and the keywords of its list that have a positive count, all of them
    and no other. *)
Theorem X2_Score_hits keywords hits s h :
  Score keywords hits = Ok (s, h) →
  ∀ x, x ∈ h ↔
       x ∈ hits ∨ ∃ k, k ∈ scored_keywords ∧ x = py k ∧
                       ∃ c, keywords !! py k = Some c ∧ (0 < c)%Z.
Proof.
  intros [_ ->]%Score_ok x. rewrite elem_of_union, elem_of_flagged_set.
  apply or_iff_compat_l. apply exist_proper. intros k. unfold flagged.
  destruct (keywords !! py k) as [c|].
  - rewrite Z.ltb_lt. naive_solver.
  - naive_solver.
Qed.

Lemma Score_zero keywords s h :
  Score keywords ∅ = Ok (s, h) → (0 ≤ s ≤ 353)%Z ∧ (s = 0%Z ↔ h = ∅).
Proof.
  intros [Hs ->]%Score_ok. rewrite (left_id_L ∅ (∪)).
  assert (flagged_set keywords = ∅ ↔ ∀ k, k ∈ scored_keywords → flagged keywords k = false)
    as ->.
  { split.
    - intros Hempty k Hk. destruct (flagged keywords k) eqn:Hf; [|done].
      assert (py k ∈ flagged_set keywords) as Hin by (apply elem_of_flagged_set; eauto).
      rewrite Hempty in Hin. by apply not_elem_of_empty in Hin.
    - intros Hnone. apply set_eq. intros x. rewrite elem_of_flagged_set.
      split; [| by intros ?%not_elem_of_empty].
      intros (k & Hk & _ & Hf). rewrite (Hnone k Hk) in Hf. done. }
  unfold scored_keywords. rewrite Hs. clear Hs.
  split; [| split].
  - b2z_ranges. lia.
  - intros Hzero k Hk. repeat (apply elem_of_cons in Hk as [-> | Hk]);
      [.. | by apply elem_of_nil in Hk].
    all: match goal with |- flagged ?kw ?k = false =>
           destruct (flagged kw k) eqn:Hf; [exfalso | done] end.
    all: rewrite ?Hf, ?orb_true_r in Hzero; cbn [orb Z.b2z] in Hzero.
    all: revert Hzero; b2z_ranges; lia.
  - intros Hnone.
    rewrite !Hnone by (repeat first [apply list_elem_of_here | apply list_elem_of_further]).
    done.
Qed.

(** X3 — The two JavaScript keywords score 100 together, not each, and
    /AA, /OpenAction and /Launch score 50 together; the score is between 0
    and 353, and for a plugin that had no hit before it is 0 exactly when
    there is no hit. *)
Theorem X3_Score_no_double_count keywords s h :
  Score keywords ∅ = Ok (s, h) →
  (s = 100 * Z.b2z (flagged keywords "/JavaScript" || flagged keywords "/JS")
       + 50 * Z.b2z (flagged keywords "/JBIG2Decode")
       + 50 * Z.b2z (flagged keywords "/Colors > 2^24")
       + 50 * Z.b2z (flagged keywords "/AA" || flagged keywords "/OpenAction"
                     || flagged keywords "/Launch")
       + 25 * Z.b2z (flagged keywords "/AcroForm")
       + 25 * Z.b2z (flagged keywords "/RichMedia")
       + 25 * Z.b2z (flagged keywords "/XFA")
       + 25 * Z.b2z (flagged keywords "/Encrypt")
       + Z.b2z (flagged keywords "/Annot")
       + Z.b2z (flagged keywords "/ObjStm")
       + Z.b2z (flagged keywords "/URI"))%Z ∧
  (0 ≤ s ≤ 353)%Z ∧
  (s = 0%Z ↔ h = ∅).
Proof.
  intros Hscore. split.
  - by apply Score_ok in Hscore as [Hs _].
  - by apply (Score_zero keywords).
Qed.

End PluginTriageProperties.

Section InstructionsProperties.
Import PluginTriage.

(** Each keyword of [Score] has its line in [instruct]: the line ends
    with a line feed, has no other line end, and [analyze_pdf] reads in it
    the keyword without its slash. *)
Lemma scored_line k :
  k ∈ scored_keywords →
  ∃ line, instruct_get (py k) = Some (line ++ [10%N]) ∧
          forallb (λ c, negb (Text.is_linebreak c)) line = true ∧
          line_keyword line = Some (drop 1 (py k)).
Proof.
  intros Hk. repeat (apply elem_of_cons in Hk as [-> | Hk]);
    [.. | by apply elem_of_nil in Hk].
  all: match goal with |- context [instruct_get (py ?k)] =>
         exists (removelast (instruction (py k))) end.
  all: split_and!; vm_compute; reflexivity.
Qed.

(** X4 — For a plugin without earlier hits, [Instructions] applied to
    the result of [Score] returns no message exactly when there is no hit,
    and every hit has its entry in [instruct], so that the message never
    holds the text [None] in the place of an entry. *)
Theorem X4_Instructions_of_Score keywords s h :
  Score keywords ∅ = Ok (s, h) →
  (Instructions s h = None ↔ h = ∅) ∧
  (∀ x, x ∈ h → is_Some (instruct_get x)) ∧
  (∀ m, Instructions s h = Some m →
        m = foldl (λ m x, m ++ instruction x) message_head (elements h)).
Proof.
  intros Hscore. pose proof (Score_zero _ _ _ Hscore) as [Hrange Hzero].
  apply Score_ok in Hscore as [_ Hh]. rewrite (left_id_L ∅ (∪)) in Hh.
  split_and!.
  - unfold Instructions. destruct (0 <? s)%Z eqn:Hs.
    + apply Z.ltb_lt in Hs. split; [done |]. intros ?%Hzero. lia.
    + apply Z.ltb_ge in Hs. split; [| done]. intros _. apply Hzero. lia.
  - intros x Hx. rewrite Hh in Hx.
    apply elem_of_flagged_set in Hx as (k & Hk & -> & _).
    destruct (scored_line k Hk) as (line & -> & _). by eexists.
  - unfold Instructions, instruction. destruct (0 <? s)%Z; [| done]. by intros m [= <-].
Qed.

End InstructionsProperties.

(** ** The PDFiD part of [analyze_pdf] *)

Section PdfidProperties.
Import Pdfid.

Lemma splitlines_line cur line rest :
  forallb (λ c, negb (Text.is_linebreak c)) line = true →
  Text.splitlines_from cur (line ++ 10%N :: rest)
  = (rev cur ++ line) :: Text.splitlines_from [] rest.
Proof.
  revert cur; induction line as [|c line IH]; intros cur Hline.
  - cbn [app Text.splitlines_from]. rewrite app_nil_r.
    replace (Text.is_linebreak 10) with true by reflexivity.
    destruct rest as [|c2 rest]; [done |].
    by replace ((10 =? 13)%N && (c2 =? 10)%N) with false by reflexivity.
  - cbn [forallb] in Hline. apply andb_true_iff in Hline as [Hc Hline].
    apply negb_true_iff in Hc. cbn [app Text.splitlines_from]. rewrite Hc.
    rewrite IH by done. cbn [rev]. by rewrite <- app_assoc.
Qed.

Lemma line_step_keywords st line :
  l_keywords (line_step st line) =
  match line_keyword line with
  | Some k => {[k]} ∪ l_keywords st
  | None => l_keywords st
  end.
Proof.
  unfold line_step, line_keyword.
  destruct (find _ triage_rules) as [[trigger [keyword heur]]|]; cbn [fmap option_fmap option_map].
  - by destruct (is_javascript keyword).
  - by destruct (find _ suspicious_rules) as [[? ?]|].
Qed.

Lemma message_concat (m : list N) (hs : list (list N)) :
  foldl (λ m x, m ++ instruction x) m hs = m ++ concat (instruction <$> hs).
Proof.
  revert m; induction hs as [|x hs IH]; intros m; cbn [foldl fmap list_fmap concat].
  - by rewrite app_nil_r.
  - by rewrite IH, app_assoc.
Qed.

Lemma lines_of_instructions (hs : list (list N)) st :
  Forall (λ x, ∃ k, k ∈ scored_keywords ∧ x = py k) hs →
  l_keywords (foldl line_step st (Text.splitlines_from [] (concat (instruction <$> hs))))
  = l_keywords st ∪ list_to_set (drop 1 <$> hs).
Proof.
  intros Hhs. revert st. induction Hhs as [|x hs (k & Hk & ->) _ IH]; intros st.
  - cbn. by rewrite (right_id_L ∅ (∪)).
  - cbn [fmap list_fmap concat list_to_set].
    destruct (scored_line k Hk) as (line & Hget & Hline & Hkw).
    unfold instruction at 1. rewrite Hget. cbn [default from_option id].
    rewrite <- app_assoc. cbn [app]. rewrite splitlines_line by done.
    cbn [rev app foldl]. rewrite IH, line_step_keywords, Hkw.
    rewrite (assoc_L (∪)). f_equal. apply (comm_L (∪)).
Qed.

(** X5 — What the Triage plugin flags is what [analyze_pdf] searches
    for: when the text of the plugin "Triage", after its first 14
    characters, is the message [Instructions] makes from the result of
    [Score], the triage keywords gain the hits, each without its slash,
    and nothing else. *)
Theorem X5_hits_become_triage_keywords keywords s h m prefix heur st :
  PluginTriage.Score keywords ∅ = Ok (s, h) →
  PluginTriage.Instructions s h = Some m →
  length prefix = 14 →
  ∃ st', plugin_step {| pl_name := py "Triage"; pl_heur := Some heur;
                        pl_text := prefix ++ m |} st = Ok st' ∧
    p_keywords st' = p_keywords st ∪ set_map (drop 1) h ∧
    p_embed_present st' = p_embed_present st.
Proof.
  intros Hscore Hm Hprefix.
  assert (Forall (λ x, ∃ k, k ∈ scored_keywords ∧ x = py k) (elements h)) as Hhs.
  { apply Score_ok in Hscore as [_ ->]. rewrite (left_id_L ∅ (∪)).
    apply Forall_forall. intros x Hx%elem_of_elements.
    apply elem_of_flagged_set in Hx as (k & Hk & -> & _). eauto. }
  assert (m = PluginTriage.message_head ++ concat (instruction <$> elements h)) as ->.
  { unfold PluginTriage.Instructions in Hm. destruct (0 <? s)%Z; [| done].
    injection Hm as <-. apply message_concat. }
  unfold plugin_step. cbn [pl_heur pl_text pl_name of_option mbind res_bind].
  rewrite drop_app_length' by done.
  assert (∃ head, PluginTriage.message_head = 84%N :: head ++ [10%N]
                  ∧ forallb (λ c, negb (Text.is_linebreak c)) (84%N :: head) = true
                  ∧ line_keyword (84%N :: head) = None
                  ∧ find (λ rule, isin (py rule.1) (84%N :: head)) suspicious_rules = None)
    as (head & Hhead & Hnobreak & Hnokw & Hnosus).
  { exists (removelast (tail PluginTriage.message_head)).
    split_and!; vm_compute; reflexivity. }
  rewrite Hhead.
  replace (eqb ((84%N :: head ++ [10%N]) ++ concat (instruction <$> elements h)) [])
    with false by reflexivity.
  replace (eqb ((84%N :: head ++ [10%N]) ++ concat (instruction <$> elements h)) (py "None"))
    with false by reflexivity.
  replace (inlist (py "Triage") [py "EmbeddedFile"; py "Name Obfuscation"])
    with false by reflexivity.
  replace (inlist (py "Triage") [py "Triage"; py "Suspicious Properties"])
    with true by reflexivity.
  cbn [orb]. eexists. split; [reflexivity |]. cbn [p_keywords p_embed_present].
  split; [| done]. unfold Text.splitlines.
  replace ((84%N :: head ++ [10%N]) ++ concat (instruction <$> elements h))
    with ((84%N :: head) ++ 10%N :: concat (instruction <$> elements h))
    by (cbn [app]; by rewrite <- app_assoc).
  rewrite splitlines_line by done. cbn [rev app foldl].
  rewrite lines_of_instructions by done.
  rewrite line_step_keywords, Hnokw. done.
Qed.

End PdfidProperties.

Section PdfidScanProperties.
Import Pdfid.

Lemma rule_heuristic line trigger keyword heur :
  find (λ rule, isin (py rule.1) line) triage_rules = Some (trigger, (keyword, heur)) →
  is_javascript keyword = false → heur ≠ 19%Z.
Proof.
  intros [Hin _]%find_some Hjs. unfold triage_rules in Hin. cbn [In] in Hin.
  repeat destruct Hin as [[= <- <- <-] | Hin]; try done; by vm_compute in Hjs.
Qed.

Lemma suspicious_heuristic line trigger heur :
  find (λ rule, isin (py rule.1) line) suspicious_rules = Some (trigger, heur) →
  heur ≠ 19%Z.
Proof.
  intros [Hin _]%find_some. unfold suspicious_rules in Hin. cbn [In] in Hin.
  repeat destruct Hin as [[= <- <-] | Hin]; done.
Qed.

Lemma with_heuristic_snoc h l s :
  with_heuristic h (l ++ [s]) =
  with_heuristic h l + (if decide (heuristic_of s = Some h) then 1 else 0).
Proof.
  unfold with_heuristic. rewrite filter_app, length_app. f_equal.
  rewrite filter_cons, filter_nil. by case_decide.
Qed.

(** In the lines of one plugin text, the sections with heuristic 19
    number one at most, whatever the number of JavaScript lines. *)
Lemma lines_one_javascript lines st :
  with_heuristic 19 (l_subsections (foldl line_step st lines))
  ≤ with_heuristic 19 (l_subsections st)
    + (if l_javascript_found st then 0 else 1).
Proof.
  revert st; induction lines as [|line lines IH]; intros st; cbn [foldl]; [lia |].
  etrans; [apply IH |]. unfold line_step.
  destruct (find _ triage_rules) as [[trigger [keyword heur]]|] eqn:Hrule.
  - destruct (is_javascript keyword) eqn:Hjs; cbn [l_subsections l_javascript_found].
    + destruct (l_javascript_found st); [lia |].
      rewrite with_heuristic_snoc. case_decide; lia.
    + rewrite with_heuristic_snoc. cbn [heuristic_of].
      rewrite decide_False; [lia |].
      intros [= ?]. by eapply rule_heuristic.
  - destruct (find _ suspicious_rules) as [[trigger heur]|] eqn:Hrule2;
      cbn [l_subsections l_javascript_found]; [| lia].
    rewrite with_heuristic_snoc. cbn [heuristic_of].
    rewrite decide_False; [lia |].
    intros [= ?]. by eapply suspicious_heuristic.
Qed.

Lemma lines_keywords_mono k lines st :
  k ∈ l_keywords st → k ∈ l_keywords (foldl line_step st lines).
Proof.
  revert st; induction lines as [|l lines IH]; intros st; cbn [foldl]; [done |].
  intros Hin. apply IH. rewrite line_step_keywords.
  destruct (line_keyword l); [by apply elem_of_union_r | done].
Qed.

(** X6 — A plugin text read line by line adds one section with
    heuristic 19 at most, even when it has a line for /JavaScript and a
    line for /JS, and both keywords become triage keywords. *)
Theorem X6_javascript_reported_once entry st st' :
  read_by_line entry = true →
  plugin_step entry st = Ok st' →
  with_heuristic 19 (p_subsections st') ≤ S (with_heuristic 19 (p_subsections st)) ∧
  (∀ line k, line ∈ Text.splitlines (drop 14 (pl_text entry)) →
             line_keyword line = Some k →
             drop 14 (pl_text entry) ≠ py "None" → k ∈ p_keywords st').
Proof.
  unfold read_by_line, plugin_step. intros Hname.
  destruct (pl_heur entry) as [heur|]; cbn [of_option mbind res_bind]; [|done].
  destruct (eqb (drop 14 (pl_text entry)) [] || eqb (drop 14 (pl_text entry)) (py "None"))
    eqn:Hskip.
  - intros [= <-]. split; [lia |]. intros line k Hline _ Hnone.
    apply orb_true_iff in Hskip as [Hempty%eqb_eq | Heq%eqb_eq]; [| done].
    rewrite Hempty in Hline. by apply elem_of_nil in Hline.
  - destruct (inlist (pl_name entry) [py "EmbeddedFile"; py "Name Obfuscation"]) eqn:Hembed.
    { exfalso. unfold inlist in *. cbn [existsb] in *.
      rewrite !orb_false_r in *.
      apply orb_true_iff in Hembed as [H1%eqb_eq | H1%eqb_eq];
        rewrite H1 in Hname; by vm_compute in Hname. }
    rewrite Hname. intros [= <-]. cbn [p_subsections p_keywords]. split.
    + etrans; [apply lines_one_javascript |].
      cbn [l_subsections l_javascript_found]. lia.
    + intros line k Hline Hk _. revert Hline.
      generalize (Text.splitlines (drop 14 (pl_text entry))).
      generalize {| l_keywords := p_keywords st; l_javascript_found := false;
                    l_subsections := p_subsections st |}.
      intros s0 lines. revert s0. induction lines as [|l lines IH]; intros s0.
      * by intros ?%elem_of_nil.
      * cbn [foldl]. intros [<- | Hin]%elem_of_cons; [| by apply IH].
        apply lines_keywords_mono. rewrite line_step_keywords, Hk.
        by apply elem_of_union_l, elem_of_singleton_2.
Qed.

Lemma lines_keywords (Q : list N → Prop) lines st :
  (∀ k, k ∈ l_keywords st → Q k) →
  (∀ line k, line ∈ lines → line_keyword line = Some k → Q k) →
  ∀ k, k ∈ l_keywords (foldl line_step st lines) → Q k.
Proof.
  revert st; induction lines as [|line lines IH]; intros st Hst Hlines; cbn [foldl]; [done |].
  apply IH.
  - intros k. rewrite line_step_keywords.
    destruct (line_keyword line) as [k'|] eqn:Hk; [| by apply Hst].
    intros [->%elem_of_singleton | ?]%elem_of_union; [| by apply Hst].
    eapply Hlines; [left | done].
  - intros l k Hl. apply Hlines. by right.
Qed.

(** X7 — Every triage keyword comes from the report of PDFiD: it is
    the name, less its first slash, of a flag that is one of the additional
    keywords of the configuration, or it is read in a line of the text of
    the plugin "Triage" or "Suspicious Properties". *)
Theorem X7_triage_keywords_provenance deep get_malform additional_keywords r f k :
  scan deep get_malform additional_keywords r = Ok f →
  k ∈ triage_keywords f →
  (∃ flist name, flist ∈ default [] (r_flags r) ∧ index flist 0 = Some name ∧
                 inlist name additional_keywords = true ∧
                 k = Text.replace_count name (py "/") [] 1) ∨
  (∃ entry line, entry ∈ default [] (r_plugin r) ∧ read_by_line entry = true ∧
                 line ∈ Text.splitlines (drop 14 (pl_text entry)) ∧
                 line_keyword line = Some k).
Proof.
  set (P1 := λ k, ∃ flist name, flist ∈ default [] (r_flags r) ∧ index flist 0 = Some name ∧
                    inlist name additional_keywords = true ∧
                    k = Text.replace_count name (py "/") [] 1).
  set (P2 := λ k, ∃ entry line, entry ∈ default [] (r_plugin r) ∧ read_by_line entry = true ∧
                    line ∈ Text.splitlines (drop 14 (pl_text entry)) ∧
                    line_keyword line = Some k).
  unfold scan. destruct (is_empty r); [intros [= <-]; by intros ?%not_elem_of_empty |].
  destruct (if get_malform then _ else _) as [[version_lines doc_sections]|];
    cbn [mbind res_bind]; [|done].
  destruct (match r_flags r with Some (f0 :: fs) => _ | _ => _ end) as [[fl fsec]|] eqn:Hfl;
    cbn [mbind res_bind]; [|done].
  assert (∀ k, k ∈ f_keywords fl → P1 k) as Hflags.
  { destruct (r_flags r) as [[|f0 fs]|] eqn:Hr;
      try (injection Hfl as <- _; by intros ? ?%not_elem_of_empty).
    destruct (for_each _ _ _) as [st|] eqn:Hloop; cbn [mbind res_bind] in Hfl; [|done].
    injection Hfl as <- _. revert Hloop.
    apply (for_each_invariant _ (λ st, ∀ k, k ∈ f_keywords st → P1 k)).
    - intros flist s s' Hin Hs. unfold flag_step.
      destruct (index flist 0) as [name|] eqn:Hname; cbn [of_option mbind res_bind]; [|done].
      destruct (index flist 1); cbn [of_option mbind res_bind]; [|done].
      intros [= <-] k'. cbn [f_keywords].
      destruct (inlist name additional_keywords) eqn:Hak; [| by apply Hs].
      intros [->%elem_of_singleton | ?]%elem_of_union; [| by apply Hs].
      by exists flist, name.
    - by intros ? ?%not_elem_of_empty. }
  destruct (for_each plugin_step _ _) as [pl|] eqn:Hloop; cbn [mbind res_bind]; [|done].
  intros [= <-]. cbn [triage_keywords]. revert k.
  revert Hloop.
  apply (for_each_invariant _ (λ st, ∀ k, k ∈ p_keywords st → P1 k ∨ P2 k)).
  - intros entry s s' Hin Hs. unfold plugin_step.
    destruct (pl_heur entry); cbn [of_option mbind res_bind]; [|done].
    destruct (_ || _); [by intros [= <-] |].
    destruct (inlist (pl_name entry) [py "EmbeddedFile"; _]); [by intros [= <-] |].
    destruct (inlist (pl_name entry) [py "Triage"; _]) eqn:Hname; [| by intros [= <-]].
    intros [= <-]. cbn [p_keywords]. apply lines_keywords; [done |].
    intros line k Hline Hk. right. by exists entry, line.
  - cbn [p_keywords]. intros k Hk. left. by apply Hflags.
Qed.

Lemma flags_objstms additional_keywords l st st' :
  for_each (flag_step additional_keywords) l st = Ok st' →
  f_objstms st' = f_objstms st || existsb names_objstm l.
Proof.
  revert st; induction l as [|flist l IH]; intros st; cbn [for_each existsb].
  - intros [= <-]. by rewrite orb_false_r.
  - destruct (flag_step additional_keywords flist st) as [s1|] eqn:Hstep; [|done].
    intros ->%IH. unfold flag_step, names_objstm in *.
    destruct (index flist 0) as [name|]; cbn [of_option mbind res_bind] in Hstep; [|done].
    destruct (index flist 1); cbn [of_option mbind res_bind] in Hstep; [|done].
    injection Hstep as <-. cbn [f_objstms].
    rewrite orb_assoc. f_equal. apply orb_comm.
Qed.

(** X8 — The flag that sends [execute] to the object streams is set
    exactly when a flag of the report is named /ObjStm, whether or not it
    is a triage keyword. *)
Theorem X8_objstms_flag deep get_malform additional_keywords r f :
  scan deep get_malform additional_keywords r = Ok f →
  objstms f = true ↔
  ∃ flist, flist ∈ default [] (r_flags r) ∧ index flist 0 = Some (py "/ObjStm").
Proof.
  unfold scan. destruct (is_empty r) eqn:Hempty.
  - intros [= <-]. cbn [objstms]. split; [done |].
    unfold is_empty in Hempty. destruct (r_flags r) as [fl|]; [| by intros (? & ?%elem_of_nil & _)].
    exfalso. cbn in Hempty.
    by rewrite !orb_true_r in Hempty.
  - destruct (if get_malform then _ else _) as [[version_lines doc_sections]|];
      cbn [mbind res_bind]; [|done].
    destruct (match r_flags r with Some (f0 :: fs) => _ | _ => _ end) as [[fl fsec]|] eqn:Hfl;
      cbn [mbind res_bind]; [|done].
    destruct (for_each plugin_step _ _) as [pl|]; cbn [mbind res_bind]; [|done].
    intros [= <-]. cbn [objstms].
    assert (f_objstms fl = existsb names_objstm (default [] (r_flags r))) as ->.
    { destruct (r_flags r) as [[|f0 fs]|]; try (by injection Hfl as <- _).
      destruct (for_each _ _ _) as [st|] eqn:Hloop; cbn [mbind res_bind] in Hfl; [|done].
      injection Hfl as <- _. by apply flags_objstms in Hloop. }
    rewrite existsb_exists. unfold names_objstm. split.
    + intros (flist & Hin%list_elem_of_In & Hname). exists flist. split; [done |].
      destruct (index flist 0) as [name|]; [| done]. by apply eqb_eq in Hname as ->.
    + intros (flist & Hin%list_elem_of_In & Hname). exists flist. split; [done |].
      rewrite Hname. apply eqb_refl.
Qed.

(** X9 — For a nested document, the PDFiD part runs to its end when
    every flag has a name and a count and the heuristic of every plugin
    is a number: a flag with fewer than two fields or a heuristic that is
    not a number is what makes it raise. *)
Theorem X9_scan_total deep additional_keywords r :
  Forall (λ flist, 2 ≤ length flist) (default [] (r_flags r)) →
  Forall (λ entry, is_Some (pl_heur entry)) (default [] (r_plugin r)) →
  ∃ f, scan deep false additional_keywords r = Ok f.
Proof.
  intros Hflags Hplugins. unfold scan. destruct (is_empty r); [by eexists |].
  cbn [mbind res_bind].
  assert (∃ fl, (match r_flags r with
                 | Some (f0 :: fs) =>
                     st ← for_each (flag_step additional_keywords) (f0 :: fs)
                            {| f_objstms := false; f_keywords := ∅; f_lines := [];
                               f_tags := [] |};
                     Ok (st, [RSection (py "PDF Keyword Flags") None (f_lines st) (f_tags st)])
                 | _ => Ok ({| f_objstms := false; f_keywords := ∅; f_lines := [];
                               f_tags := [] |}, [])
                 end) = Ok fl) as [fl ->].
  { destruct (r_flags r) as [[|f0 fs]|]; try by eexists.
    cbn [default from_option id] in Hflags.
    destruct (for_each_total (flag_step additional_keywords) (f0 :: fs)
                {| f_objstms := false; f_keywords := ∅; f_lines := []; f_tags := [] |})
      as [st ->]; [| by eexists].
    intros flist s Hin. rewrite Forall_forall in Hflags. specialize (Hflags _ Hin).
    unfold flag_step. destruct flist as [|a [|b flist]]; cbn in Hflags; try lia.
    cbn [index nth_error of_option mbind res_bind]. by eexists. }
  cbn [mbind res_bind].
  destruct (for_each_total plugin_step (default [] (r_plugin r))
              {| p_keywords := f_keywords fl.1; p_embed_present := false;
                 p_subsections := [] ++ fl.2 |}) as [pl ->]; [| by eexists].
  intros entry s Hin. rewrite Forall_forall in Hplugins.
  destruct (Hplugins _ Hin) as [heur Hheur]. unfold plugin_step. rewrite Hheur.
  cbn [of_option mbind res_bind].
  repeat match goal with |- context [if ?b then _ else _] => destruct b end; by eexists.
Qed.

End PdfidScanProperties.

Section FrontEndSamples.
Import Cases.

Lemma X2_Score_hits_witness :
  ∃ s h, PluginTriage.Score counts ∅ = Ok (s, h) ∧
    ∀ x, x ∈ h ↔
         x ∈ (∅ : gset (list N)) ∨
         ∃ k, k ∈ scored_keywords ∧ x = py k ∧
              ∃ c, counts !! py k = Some c ∧ (0 < c)%Z.
Proof.
  destruct (PluginTriage.Score counts ∅) as [[s h]|] eqn:Hrun.
  - exists s, h. split; [reflexivity |]. exact (X2_Score_hits counts ∅ s h Hrun).
  - vm_compute in Hrun. discriminate.
Defined.

Lemma X3_Score_no_double_count_witness :
  ∃ s h, PluginTriage.Score counts ∅ = Ok (s, h) ∧ (0 ≤ s ≤ 353)%Z ∧ (s = 0%Z ↔ h = ∅).
Proof.
  destruct (PluginTriage.Score counts ∅) as [[s h]|] eqn:Hrun.
  - exists s, h. split; [reflexivity |].
    exact (proj2 (X3_Score_no_double_count counts s h Hrun)).
  - vm_compute in Hrun. discriminate.
Defined.

Lemma X4_Instructions_of_Score_witness :
  ∃ s h, PluginTriage.Score counts ∅ = Ok (s, h) ∧
    (PluginTriage.Instructions s h = None ↔ h = ∅) ∧
    (∀ x, x ∈ h → is_Some (PluginTriage.instruct_get x)) ∧
    (∀ m, PluginTriage.Instructions s h = Some m →
          m = foldl (λ m x, m ++ instruction x) PluginTriage.message_head (elements h)).
Proof.
  destruct (PluginTriage.Score counts ∅) as [[s h]|] eqn:Hrun.
  - exists s, h. split; [reflexivity |].
    exact (X4_Instructions_of_Score counts s h Hrun).
  - vm_compute in Hrun. discriminate.
Defined.

Lemma X5_hits_become_triage_keywords_witness :
  ∃ s h m st',
    PluginTriage.Score counts ∅ = Ok (s, h) ∧
    PluginTriage.Instructions s h = Some m ∧
    Pdfid.plugin_step {| Pdfid.pl_name := py "Triage"; Pdfid.pl_heur := Some 150%Z;
                         Pdfid.pl_text := py "Instructions: " ++ m |}
      {| Pdfid.p_keywords := ∅; Pdfid.p_embed_present := false;
         Pdfid.p_subsections := [] |} = Ok st' ∧
    Pdfid.p_keywords st' = ∅ ∪ set_map (drop 1) h.
Proof.
  destruct (PluginTriage.Score counts ∅) as [[s h]|] eqn:Hrun;
    [| vm_compute in Hrun; discriminate].
  destruct (PluginTriage.Instructions s h) as [m|] eqn:Hm.
  - destruct (X5_hits_become_triage_keywords counts s h m (py "Instructions: ") 150%Z
                {| Pdfid.p_keywords := ∅; Pdfid.p_embed_present := false;
                   Pdfid.p_subsections := [] |} Hrun Hm eq_refl)
      as (st' & Hstep & Hkeys & _).
    exists s, h, m, st'. split; [reflexivity |]. split; [exact Hm |].
    split; [exact Hstep | exact Hkeys].
  - exfalso.
    assert (match PluginTriage.Score counts ∅ with
            | Ok (s, h) => bool_decide (is_Some (PluginTriage.Instructions s h))
            | Raise _ => false
            end = true) as Hsome by (vm_compute; reflexivity).
    rewrite Hrun, Hm in Hsome. vm_compute in Hsome. discriminate.
Defined.

Lemma X6_javascript_reported_once_witness :
  ∃ st',
    Pdfid.plugin_step triage_entry
      {| Pdfid.p_keywords := ∅; Pdfid.p_embed_present := false;
         Pdfid.p_subsections := [] |} = Ok st' ∧
    with_heuristic 19 (Pdfid.p_subsections st') ≤ 1.
Proof.
  destruct (Pdfid.plugin_step triage_entry
              {| Pdfid.p_keywords := ∅; Pdfid.p_embed_present := false;
                 Pdfid.p_subsections := [] |}) as [st'|] eqn:Hrun.
  - exists st'. split; [reflexivity |].
    assert (read_by_line triage_entry = true) as Hname by (vm_compute; reflexivity).
    exact (proj1 (X6_javascript_reported_once triage_entry _ st' Hname Hrun)).
  - vm_compute in Hrun. discriminate.
Defined.

Lemma X7_triage_keywords_provenance_witness :
  ∃ f, Pdfid.scan false false [py "/Page"] report = Ok f ∧
    py "OpenAction" ∈ Pdfid.triage_keywords f ∧
    ((∃ flist name, flist ∈ default [] (Pdfid.r_flags report) ∧ index flist 0 = Some name ∧
                    inlist name [py "/Page"] = true ∧
                    py "OpenAction" = Text.replace_count name (py "/") [] 1) ∨
     (∃ entry line, entry ∈ default [] (Pdfid.r_plugin report) ∧ read_by_line entry = true ∧
                    line ∈ Text.splitlines (drop 14 (Pdfid.pl_text entry)) ∧
                    line_keyword line = Some (py "OpenAction"))).
Proof.
  destruct (Pdfid.scan false false [py "/Page"] report) as [f|] eqn:Hrun;
    [| vm_compute in Hrun; discriminate].
  assert (py "OpenAction" ∈ Pdfid.triage_keywords f) as Hin.
  { assert (match Pdfid.scan false false [py "/Page"] report with
            | Ok f => bool_decide (py "OpenAction" ∈ Pdfid.triage_keywords f)
            | Raise _ => false
            end = true) as Hk by (vm_compute; reflexivity).
    rewrite Hrun in Hk. exact (bool_decide_eq_true_1 _ Hk). }
  exists f. split; [reflexivity |]. split; [exact Hin |].
  exact (X7_triage_keywords_provenance false false [py "/Page"] report f (py "OpenAction")
           Hrun Hin).
Defined.

Lemma X8_objstms_flag_witness :
  ∃ f, Pdfid.scan false false [py "/Page"] report = Ok f ∧
    (Pdfid.objstms f = true ↔
     ∃ flist, flist ∈ default [] (Pdfid.r_flags report) ∧
              index flist 0 = Some (py "/ObjStm")).
Proof.
  destruct (Pdfid.scan false false [py "/Page"] report) as [f|] eqn:Hrun.
  - exists f. split; [reflexivity |].
    exact (X8_objstms_flag false false [py "/Page"] report f Hrun).
  - vm_compute in Hrun. discriminate.
Defined.

Lemma X9_scan_total_witness :
  ∃ f, Pdfid.scan true false [py "/Page"] report = Ok f.
Proof.
  apply (X9_scan_total true [py "/Page"] report).
  - repeat constructor.
  - repeat constructor. vm_compute. eexists. reflexivity.
Defined.

End FrontEndSamples.

(** ** More on loops *)

(** A loop that raises does so in its body, on one of its items. *)
Lemma for_each_raise {A S} (f : A → S → res S) l st e :
  for_each f l st = Raise e → ∃ x s, x ∈ l ∧ f x s = Raise e.
Proof.
  revert st; induction l as [|x l IH]; intros st; cbn [for_each]; [done |].
  destruct (f x st) as [s1|e1] eqn:Hf.
  - intros (y & s & Hy & Hs)%IH. exists y, s. split; [by right | done].
  - intros [= <-]. exists x, st. split; [left | done].
Qed.

(** A loop with an item on which the body always raises [e], and whose
    body raises nothing else, raises [e]. *)
Lemma for_each_raises {A S} (f : A → S → res S) l st x e :
  x ∈ l → (∀ s, f x s = Raise e) →
  (∀ y s e', y ∈ l → f y s = Raise e' → e' = e) →
  for_each f l st = Raise e.
Proof.
  revert st; induction l as [|y l IH]; intros st Hx Hf Hothers; [by apply elem_of_nil in Hx |].
  cbn [for_each]. destruct (f y st) as [s1|e1] eqn:Hy.
  - apply elem_of_cons in Hx as [-> | Hx]; [by rewrite Hf in Hy |].
    apply IH; [done.. |]. intros z s e' Hz. apply Hothers. by right.
  - f_equal. eapply Hothers; [left | done].
Qed.

Lemma for_each_ext {A S} (f g : A → S → res S) l st :
  (∀ x s, x ∈ l → f x s = g x s) → for_each f l st = for_each g l st.
Proof.
  revert st; induction l as [|x l IH]; intros st Hfg; cbn [for_each]; [done |].
  rewrite <- Hfg by left. destruct (f x st); [| done].
  apply IH. intros y s Hy. apply Hfg. by right.
Qed.

Section CarveReportProperties.
Context `{Externals}.
Import Carve.

Lemma report_entry_raise wd k keyw con st e :
  report_entry wd k (keyw, con) st = Raise e ↔ e = UnicodeEncodeError ∧ encode con = None.
Proof.
  unfold report_entry. destruct (encode con) as [b|]; cbn [of_option mbind res_bind].
  - destruct (_ <? _)%nat; split; (done || by intros [_ ?]).
  - split; [by intros [= <-] | by intros [-> _]].
Qed.

(** X10 — The report of the carved content raises exactly when one
    of the carved values cannot be encoded (it holds a surrogate), and
    then the exception is [UnicodeEncodeError]: one such value aborts the
    analysis of the document. *)
Theorem X10_unencodable_content_aborts wd (t : Triage.state) e :
  content_of_interest wd t = Raise e ↔
  e = UnicodeEncodeError ∧
  ∃ k l d, Triage.carved_content t !! k = Some l ∧ d ∈ l ∧ encode d.2 = None.
Proof.
  unfold content_of_interest, report_entries. split.
  - intros ([k [keyw con]] & s & Hin & Hraise)%for_each_raise.
    apply report_entry_raise in Hraise as [-> Hnone]. split; [done |].
    apply elem_of_entries in Hin as (l & Hl & Hd). by exists k, l, (keyw, con).
  - intros [-> (k & l & [keyw con] & Hl & Hd & Hnone)].
    apply (for_each_raises _ _ _ (k, (keyw, con))).
    + apply elem_of_entries. eauto.
    + intros s. by apply report_entry_raise.
    + intros [k' [keyw' con']] s e' _ Hraise. by apply report_entry_raise in Hraise as [-> _].
Qed.

(** X11 — Every file the report of the carved content writes holds
    the encoding of a carved value of 500 characters or more; its name is
    made of the object number of that value and the first seven
    characters of the digest of its bytes, and it is in the working
    directory. *)
Theorem X11_files_written wd (t : Triage.state) st a :
  content_of_interest wd t = Ok st →
  a ∈ artifacts st →
  ∃ k l keyw con,
    Triage.carved_content t !! k = Some l ∧ (keyw, con) ∈ l ∧
    500 ≤ length con ∧ encode con = Some (a_data a) ∧
    a_name a = carved_name k (sha256_hexdigest (a_data a)) ∧
    a_path a = path_join wd (a_name a) ∧
    a_description a = py "Extracted content from object " ++ k.
Proof.
  unfold content_of_interest, report_entries. intros Hrun. revert a. revert Hrun.
  set (P := λ a : artifact, ∃ k l keyw con,
    Triage.carved_content t !! k = Some l ∧ (keyw, con) ∈ l ∧
    500 ≤ length con ∧ encode con = Some (a_data a) ∧
    a_name a = carved_name k (sha256_hexdigest (a_data a)) ∧
    a_path a = path_join wd (a_name a) ∧
    a_description a = py "Extracted content from object " ++ k).
  apply (for_each_invariant _ (λ s, ∀ a, a ∈ artifacts s → P a)).
  - intros [k [keyw con]] s s' (l & Hl & Hd)%elem_of_entries Hs
      (b & Hb & [[_ ->] | [Hlen ->]])%report_entry_cases a.
    + destruct (inline_keeps k keyw con b s) as [_ ->]. apply Hs.
    + unfold persist. case_decide; [apply Hs |]. cbn [artifacts].
      intros [Ha | ->%list_elem_of_singleton]%elem_of_app; [by apply Hs |].
      exists k, l, keyw, con. cbn [a_data a_name a_path a_description].
      split_and!; try done.
  - destruct (jbig_section _); cbn [artifacts init]; by intros a ?%elem_of_nil.
Qed.

(** X12 — The section of the carved content is shown exactly when
    it has a subsection; every file written has a subsection of its own;
    and with nothing carved and no JBIG2Decode object nothing is shown
    and nothing is written. *)
Theorem X12_section_shown wd (t : Triage.state) st :
  content_of_interest wd t = Ok st →
  (show_content_of_interest st = true ↔ subsections st ≠ []) ∧
  length (artifacts st) ≤ length (subsections st) ∧
  (Triage.carved_content t = ∅ → Triage.jbig_objs t = ∅ → st = init).
Proof.
  intros Hrun. split; [| split].
  - revert Hrun. unfold content_of_interest, report_entries.
    apply (for_each_invariant _ (λ s, show_content_of_interest s = true ↔ subsections s ≠ [])).
    + intros [k [keyw con]] s s' _ Hs (b & _ & [[_ ->] | [_ ->]])%report_entry_cases.
      * unfold inline. destruct (ioc_match b); [done |].
        cbn [show_content_of_interest subsections]. split; [| done].
        intros _ Hnil. by apply app_eq_nil in Hnil as [_ ?].
      * unfold persist. case_decide; [done |].
        cbn [show_content_of_interest subsections]. split; [| done].
        intros _ Hnil. by apply app_eq_nil in Hnil as [_ ?].
    + destruct (jbig_section _); cbn [show_content_of_interest subsections init]; [done |].
      split; done.
  - revert Hrun. unfold content_of_interest, report_entries.
    apply (for_each_invariant _ (λ s, length (artifacts s) ≤ length (subsections s))).
    + intros [k [keyw con]] s s' _ Hs (b & _ & [[_ ->] | [_ ->]])%report_entry_cases.
      * unfold inline. destruct (ioc_match b); [done |].
        cbn [artifacts subsections]. rewrite length_app. lia.
      * unfold persist. case_decide; [done |].
        cbn [artifacts subsections]. rewrite !length_app. cbn [length]. lia.
    + destruct (jbig_section _); cbn [artifacts subsections init length]; lia.
  - intros Hcarved Hjbig. revert Hrun. unfold content_of_interest, jbig_section, sorted_items.
    rewrite Hcarved, Hjbig, elements_empty, map_to_list_empty.
    unfold merge_sort. cbn. by intros [= <-].
Qed.

End CarveReportProperties.

Section TriageLoopProperties.
Context `{Externals}.
Import Triage.

Section Closed.
Variable Q : state → Prop.
Variable deep : bool.
Variable keyword : list N.
Hypothesis Qextract : ∀ o s, Q s → Q (extract o s).
Hypothesis Qcarve : ∀ o c s, Q s → Q (carve o keyword c s).
Hypothesis Qjbig : ∀ o s, keyword = py "JBIG2Decode" → Q s → Q (jbig_hit deep o s).

Lemma extract_all_closed (l : list (list N)) st :
  Q st →
  Q (foldl (λ acc sr,
              match index (fields sr " " (Some 1)) 0 with
              | Some objnum => extract objnum acc
              | None => acc
              end) st l).
Proof.
  revert st; induction l as [|sr l IH]; intros st Hst; cbn [foldl]; [done |].
  apply IH. destruct (index (fields sr " " (Some 1)) 0); auto.
Qed.

Lemma classify_sub_closed r sub_p st : Q st → Q (classify_sub keyword r sub_p st).1.
Proof.
  intros Hst. unfold classify_sub.
  repeat (match goal with
          | |- context [match ?x with _ => _ end] => destruct x eqn:?
          | |- context [if ?x then _ else _] => destruct x eqn:?
          end; cbn [fst]; auto using extract_all_closed).
Qed.

Lemma classify_subs_closed r l st : Q st → Q (classify_subs keyword r l st).1.
Proof.
  revert st; induction l as [|sub_p l IH]; intros st Hst; cbn [classify_subs fst]; [done |].
  pose proof (classify_sub_closed r sub_p st Hst) as Hstep.
  destruct (classify_sub keyword r sub_p st) as [st1 []]; [done |]. by apply IH.
Qed.

Lemma resolve_closed path p c st : Q st → Q (resolve path keyword p c st).
Proof.
  intros Hst. unfold resolve.
  assert (Q (resolve_try path keyword c st).1) as Htry.
  { unfold resolve_try.
    destruct (index (fields c " " (Some 1)) 0); [| done].
    destruct (get_pdf_parser _ _) as [r|]; [| done].
    destruct (truthy r); [| done].
    destruct (parts r); [by apply classify_subs_closed | done]. }
  destruct (resolve_try path keyword c st) as [st1 []]; [| done].
  destruct (objnum_of p); auto.
Qed.

Lemma process_token_closed path kws p refs c st st' :
  Q st → process_token path kws keyword p refs c st = Ok st' → Q st'.
Proof.
  intros Hst. unfold process_token, literal.
  destruct (javascript_dup _ _ _); [by intros [= <-] |].
  destruct (looks_like_reference _ _); [intros [= <-]; by apply resolve_closed |].
  destruct (startswith _ _); [by intros [= <-] |].
  destruct (objnum_of p); cbn [of_option mbind res_bind]; [|done].
  destruct (line3_is_stream p) as [[]|]; cbn [of_option mbind res_bind]; [| |done];
    intros [= <-]; auto.
Qed.

Lemma jbig_stream_keyword p : jbig_stream keyword p = true → keyword = py "JBIG2Decode".
Proof.
  unfold jbig_stream. intros [[Hk%eqb_eq _]%andb_true_iff _]%andb_true_iff. done.
Qed.

Lemma process_part_closed path kws p st st' :
  Q st → process_part deep path kws keyword p st = Ok st' → Q st'.
Proof.
  intros Hst. unfold process_part.
  destruct (part_content keyword p) as [[content refs]|]; [| by intros [= <-]].
  destruct (jbig_stream keyword p) eqn:Hjbig.
  - apply jbig_stream_keyword in Hjbig. destruct (objnum_of p); intros [= <-]; auto.
  - destruct (tokens content refs) as [cs|]; [| by intros [= <-]].
    apply (for_each_invariant _ Q); [| done].
    intros c s s' _. apply process_token_closed.
Qed.

End Closed.

Lemma carve_carved_under kws o keyword c st :
  keyword ∈ kws → keyword ≠ py "ObjStm" →
  carved_under kws st → carved_under kws (carve o keyword c st).
Proof.
  intros Hin Hne Hst k l kw c'. unfold carve. cbn [carved_content].
  destruct (carved_content st !! o) as [l0|] eqn:Ho.
  - destruct (decide (k = o)) as [-> | Hk].
    + rewrite lookup_insert_eq. intros [= <-].
      intros [Hold | [= -> ->]%list_elem_of_singleton]%elem_of_app; [by eapply Hst | done].
    + rewrite lookup_insert_ne by done. apply Hst.
  - destruct (decide (k = o)) as [-> | Hk].
    + rewrite lookup_insert_eq. intros [= <-].
      by intros [= -> ->]%list_elem_of_singleton.
    + rewrite lookup_insert_ne by done. apply Hst.
Qed.

(** X13 — Every value the triage loop carves is filed under the
    keyword whose search found it, which is one of the triage keywords
    and is not ObjStm; and JBIG2Decode objects are recorded only when
    JBIG2Decode is one of the triage keywords. *)
Theorem X13_carved_keywords deep path kws st :
  triage deep path kws = Ok st →
  (∀ k l kw c, carved_content st !! k = Some l → (kw, c) ∈ l →
               kw ∈ kws ∧ kw ≠ py "ObjStm") ∧
  (jbig_objs st ≠ ∅ → py "JBIG2Decode" ∈ kws).
Proof.
  unfold triage.
  apply (for_each_invariant _
           (λ s, carved_under kws s ∧ (jbig_objs s ≠ ∅ → py "JBIG2Decode" ∈ kws))).
  - intros keyword s s' Hin Hs. unfold process_keyword.
    destruct (eqb keyword (py "ObjStm")) eqn:Hobj; [by intros [= <-] |].
    assert (keyword ≠ py "ObjStm") as Hne by (intros ->; by rewrite eqb_refl in Hobj).
    destruct (get_pdf_parser _ _) as [r|]; [| by intros [= <-]].
    destruct (truthy r); [| by intros [= <-]].
    destruct (parts r) as [ps|]; cbn [of_option mbind res_bind]; [|done].
    intros Hrun.
    eapply (for_each_invariant _
              (λ s, carved_under kws s ∧ (jbig_objs s ≠ ∅ → py "JBIG2Decode" ∈ kws)));
      [| exact Hs | exact Hrun].
    intros p s1 s2 _.
    apply (process_part_closed
             (λ s, carved_under kws s ∧ (jbig_objs s ≠ ∅ → py "JBIG2Decode" ∈ kws))).
    + by intros o s0 [? ?].
    + intros o c s0 [? ?]. split; [by apply carve_carved_under | done].
    + intros o s0 -> [? ?]. split; [by destruct deep | done].
  - split; [| done]. intros k l kw c. unfold init. cbn [carved_content].
    by rewrite lookup_empty.
Qed.

Lemma process_token_raise path kws keyword p refs c st e :
  process_token path kws keyword p refs c st = Raise e →
  e = IndexError ∧ startswith p (py "trailer:") = false ∧
  (objnum_of p = None ∨ line3_is_stream p = None).
Proof.
  unfold process_token, literal.
  destruct (javascript_dup _ _ _); [done |].
  destruct (looks_like_reference _ _); [done |].
  destruct (startswith _ _); [done |].
  destruct (objnum_of p); cbn [of_option mbind res_bind]; [| intros [= <-]; auto].
  destruct (line3_is_stream p) as [[]|]; cbn [of_option mbind res_bind];
    [done | done | intros [= <-]; auto].
Qed.

Lemma process_part_raise deep path kws keyword p st e :
  process_part deep path kws keyword p st = Raise e →
  e = IndexError ∧ startswith p (py "trailer:") = false ∧
  (objnum_of p = None ∨ line3_is_stream p = None).
Proof.
  unfold process_part.
  destruct (part_content keyword p) as [[content refs]|]; [| done].
  destruct (jbig_stream keyword p); [by destruct (objnum_of p) |].
  destruct (tokens content refs) as [cs|]; [| done].
  intros (c & s & _ & Hraise)%for_each_raise. by eapply process_token_raise.
Qed.

(** X14 — The triage loop raises only in two ways: [KeyError],
    when the answer to a search is not empty and has no parts, and
    [IndexError], on the report of an object (not the trailer) whose
    first line has no second word or that has fewer than four lines. *)
Theorem X14_triage_raises deep path kws e :
  triage deep path kws = Raise e →
  ∃ keyword r,
    keyword ∈ kws ∧ keyword ≠ py "ObjStm" ∧
    get_pdf_parser path (QSearch keyword) = Some r ∧ truthy r = true ∧
    ((e = KeyError ∧ parts r = None) ∨
     (e = IndexError ∧
      ∃ ps p, parts r = Some ps ∧ p ∈ ps ∧ startswith p (py "trailer:") = false ∧
              (objnum_of p = None ∨ line3_is_stream p = None))).
Proof.
  unfold triage. intros (keyword & s & Hin & Hraise)%for_each_raise.
  revert Hraise. unfold process_keyword.
  destruct (eqb keyword (py "ObjStm")) eqn:Hobj; [done |].
  assert (keyword ≠ py "ObjStm") as Hne by (intros ->; by rewrite eqb_refl in Hobj).
  destruct (get_pdf_parser _ _) as [r|] eqn:Hr; [| done].
  destruct (truthy r) eqn:Htruthy; [| done].
  exists keyword, r. split_and!; [done.. |].
  destruct (parts r) as [ps|]; cbn [of_option mbind res_bind] in *.
  - right. apply for_each_raise in Hraise as (p & s0 & Hp & Hraise).
    apply process_part_raise in Hraise as (-> & Htrailer & Hshort).
    split; [done |]. by exists ps, p.
  - left. by injection Hraise as <-.
Qed.

End TriageLoopProperties.

Section TriageQueries.
Variables E1 E2 : Externals.
Variable path : list N.
Import Triage.

Hypothesis same_details :
  ∀ o, @get_pdf_parser E1 path (QObjectDetail o) = @get_pdf_parser E2 path (QObjectDetail o).
Hypothesis same_special :
  ∀ k c, @sub_keyword_special E1 k c = @sub_keyword_special E2 k c.

Lemma part_content_agree keyword p :
  @part_content E1 keyword p = @part_content E2 keyword p.
Proof.
  unfold part_content, object_content, strip_keyword.
  destruct (startswith p _); [done |]. destruct (isin _ p); [| done].
  by rewrite same_special.
Qed.

Lemma process_token_agree kws keyword p refs c st :
  @process_token E1 path kws keyword p refs c st
  = @process_token E2 path kws keyword p refs c st.
Proof.
  unfold process_token, resolve, resolve_try.
  destruct (javascript_dup _ _ _); [done |].
  destruct (looks_like_reference _ _); [| done].
  destruct (index (fields c " " (Some 1)) 0); [| done].
  by rewrite same_details.
Qed.

Lemma process_part_agree deep kws keyword p st :
  @process_part E1 deep path kws keyword p st = @process_part E2 deep path kws keyword p st.
Proof.
  unfold process_part. rewrite part_content_agree.
  destruct (@part_content E2 keyword p) as [[content refs]|]; [| done].
  destruct (jbig_stream keyword p); [done |].
  destruct (tokens content refs); [| done].
  apply for_each_ext. intros c s _. apply process_token_agree.
Qed.

(** X15 — The result of the triage loop depends on the collaborators
    only through the searches for the triage keywords other than ObjStm,
    the object-detail queries, and the removal of a keyword with special
    characters: ObjStm is never searched for, no other query is issued,
    and neither the digest nor the indicator matcher is used. *)
Theorem X15_triage_queries deep kws :
  (∀ k, k ∈ kws → k ≠ py "ObjStm" →
        @get_pdf_parser E1 path (QSearch k) = @get_pdf_parser E2 path (QSearch k)) →
  @triage E1 deep path kws = @triage E2 deep path kws.
Proof.
  intros Hsearch. unfold triage. apply for_each_ext.
  intros keyword s Hin. unfold process_keyword.
  destruct (eqb keyword (py "ObjStm")) eqn:Hobj; [done |].
  rewrite Hsearch; [| done | intros ->; by rewrite eqb_refl in Hobj].
  destruct (@get_pdf_parser E2 path (QSearch keyword)) as [r|]; [| done].
  destruct (truthy r); [| done].
  destruct (parts r) as [ps|]; cbn [of_option mbind res_bind]; [| done].
  apply for_each_ext. intros p s0 _. apply process_part_agree.
Qed.

End TriageQueries.

(** A loop that raises does so on one of its items, in a state that
    satisfies every invariant of the body. *)
Lemma for_each_raise_at {A S} (f : A → S → res S) (I : S → Prop) l st e :
  (∀ x s s', x ∈ l → I s → f x s = Ok s' → I s') →
  I st → for_each f l st = Raise e → ∃ x s, x ∈ l ∧ I s ∧ f x s = Raise e.
Proof.
  revert st; induction l as [|x l IH]; intros st Hstep Hst; cbn [for_each]; [done |].
  destruct (f x st) as [s1|e1] eqn:Hf.
  - intros (y & s & Hy & Hs & Hraise)%IH.
    + exists y, s. split; [by right | done].
    + intros z s s' Hz. apply Hstep. by right.
    + eapply Hstep; [left | done | done].
  - intros [= <-]. exists x, st. split; [left | done].
Qed.

Section ExtractionProperties.
Context `{Externals}.
Import Extraction.

Lemma embedded_steps l acc acc' :
  for_each embedded_step l acc = Ok acc' →
  ∀ o, o ∈ acc' ↔
       o ∈ acc ∨ ∃ p, p ∈ l ∧ isin (py "Type: /EmbeddedFile") p = true ∧
                      objnum_of p = Some o.
Proof.
  revert acc; induction l as [|p l IH]; intros acc; cbn [for_each].
  - intros [= <-] o. split; [by left |]. intros [? | (p & ?%elem_of_nil & _)]; done.
  - unfold embedded_step at 1. destruct (isin _ p) eqn:Hp.
    + destruct (objnum_of p) as [getobj|] eqn:Hobj; cbn [of_option mbind res_bind]; [| done].
      intros Hrest o. rewrite (IH _ Hrest o), elem_of_union, elem_of_singleton. split.
      * intros [[-> | ?] | (q & Hq & ?)]; [right; exists p | by left | right; exists q].
        -- split; [left | done].
        -- split; [by right | done].
      * intros [? | (q & [-> | Hq]%elem_of_cons & Hq1 & Hq2)]; [by left; right | |].
        -- left; left. congruence.
        -- right. by exists q.
    + intros Hrest o. rewrite (IH _ Hrest o). split.
      * intros [? | (q & Hq & ?)]; [by left | right; exists q]. split; [by right | done].
      * intros [? | (q & [-> | Hq]%elem_of_cons & Hq1 & Hq2)]; [by left | congruence |].
        right. by exists q.
Qed.

(** X16 — The objects [analyze_pdf] asks the parser to dump are
    exactly the objects the triage loop marked for extraction, less
    those of type /EmbeddedFile in the answer to the ELEMENTS query and
    less the JBIG2Decode objects; the query is never made for an empty set;
    and the JBIG2Decode objects are dumped, by a query of their own, exactly
    under deep scan and when there is one. *)
Theorem X16_objects_dumped deep embed_present path (t : Triage.state) qs :
  extraction_pass deep embed_present path t = Ok qs →
  (∀ o, (∃ objs, QExtract objs ∈ qs ∧ o ∈ objs) ↔
        o ∈ Triage.obj_extract_triage t ∧ ¬ embedded_object path deep embed_present o ∧
        o ∉ Triage.jbig_objs t) ∧
  (∀ objs, QExtract objs ∈ qs → objs ≠ ∅) ∧
  (∀ objs, QExtractJbig objs ∈ qs ↔
           deep = true ∧ objs = Triage.jbig_objs t ∧ objs ≠ ∅).
Proof.
  unfold extraction_pass.
  destruct (match get_pdf_parser _ _ with Some _ => _ | None => _ end) as [embed|] eqn:Hembed;
    cbn [mbind res_bind]; [| done].
  assert (∀ o, o ∈ embed ↔ embedded_object path deep embed_present o) as Hin.
  { intros o. unfold embedded_object.
    destruct (get_pdf_parser _ _) as [r|];
      [| injection Hembed as <-; split; [by intros ?%not_elem_of_empty | by intros (? & ? & ? & ? & _)]].
    destruct (truthy r) eqn:Htruthy;
      [| injection Hembed as <-; split;
         [by intros ?%not_elem_of_empty
         | intros (r' & ? & ? & [= <-] & ? & _); congruence]].
    unfold embed_extracted in Hembed. destruct (parts r) as [ps|] eqn:Hparts.
    - rewrite (embedded_steps _ _ _ Hembed o). split.
      + intros [?%not_elem_of_empty | (p & Hp & Hp1 & Hp2)]; [done |].
        rewrite merge_sort_Permutation in Hp. by exists r, ps, p.
      + intros (r' & ps' & p & [= <-] & _ & Hps & Hp & Hp1 & Hp2).
        rewrite Hparts in Hps. injection Hps as <-. right. exists p.
        by rewrite merge_sort_Permutation.
    - injection Hembed as <-. split; [by intros ?%not_elem_of_empty |].
      intros (r' & ? & ? & [= <-] & _ & ? & _). congruence. }
  intros [= <-]. unfold dump_queries. split_and!.
  - intros o. split.
    + intros (objs & [Hq | Hq]%elem_of_app & Ho).
      * case_decide; [by apply elem_of_nil in Hq |].
        apply list_elem_of_singleton in Hq. injection Hq as ->.
        unfold Triage.obj_to_extract in Ho. rewrite <- Hin. set_solver.
      * destruct (_ && _); [apply list_elem_of_singleton in Hq; discriminate
                           | by apply elem_of_nil in Hq].
    + intros (Ho & Hne & Hj). rewrite <- Hin in Hne.
      exists (Triage.obj_to_extract embed t).
      assert (o ∈ Triage.obj_to_extract embed t) as Hobj
        by (unfold Triage.obj_to_extract; set_solver).
      split; [| done]. apply elem_of_app. left.
      rewrite decide_False; [by apply list_elem_of_singleton |].
      intros Hempty. rewrite Hempty in Hobj. by apply not_elem_of_empty in Hobj.
  - intros objs [Hq | Hq]%elem_of_app.
    + case_decide; [by apply elem_of_nil in Hq |].
      apply list_elem_of_singleton in Hq. by injection Hq as ->.
    + destruct (_ && _); [apply list_elem_of_singleton in Hq; discriminate
                         | by apply elem_of_nil in Hq].
  - intros objs. rewrite elem_of_app. split.
    + intros [Hq | Hq].
      * case_decide; [by apply elem_of_nil in Hq |].
        apply list_elem_of_singleton in Hq. discriminate.
      * destruct deep; cbn [andb] in Hq; [| by apply elem_of_nil in Hq].
        destruct (bool_decide _) eqn:Hj; cbn [negb] in Hq; [by apply elem_of_nil in Hq |].
        apply list_elem_of_singleton in Hq. injection Hq as ->.
        apply bool_decide_eq_false in Hj. done.
    + intros (-> & -> & Hne). right. cbn [andb].
      rewrite bool_decide_eq_false_2 by done. cbn [negb]. by apply list_elem_of_singleton.
Qed.

End ExtractionProperties.

Section ObjStmFileProperties.
Context `{Externals}.
Variable rewrite_stream : list Init.Byte.byte → list Init.Byte.byte.
Import ObjStm.

Lemma rewritten_refl fs : rewritten fs fs.
Proof. split; [done |]. intros k old Hk. exists old. auto. Qed.

Lemma rewritten_trans fs1 fs2 fs3 : rewritten fs1 fs2 → rewritten fs2 fs3 → rewritten fs1 fs3.
Proof.
  intros [Hd1 H1] [Hd2 H2]. split; [congruence |].
  intros k old Hk. destruct (H1 k old Hk) as (mid & Hmid & Hlen1 & Hc1).
  destruct (H2 k mid Hmid) as (new & Hnew & Hlen2 & Hc2).
  exists new. split_and!; [done | lia |].
  destruct Hc2 as [-> | ?]; [done | by right].
Qed.

Lemma overwrite_header body old :
  header `prefix_of` overwrite (header ++ body) old ∧
  length old ≤ length (overwrite (header ++ body) old).
Proof.
  unfold overwrite. split.
  - exists (body ++ drop (length (header ++ body)) old). by rewrite <- app_assoc.
  - rewrite length_app, length_drop. lia.
Qed.

Lemma rewritten_insert fs f stream body :
  fs !! f = Some stream →
  rewritten fs (<[f := overwrite (header ++ body) stream]> fs).
Proof.
  intros Hf. destruct (overwrite_header body stream) as [Hpre Hlen]. split.
  - rewrite dom_insert_L. apply (elem_of_dom_2 (D := gset (list N))) in Hf. set_solver.
  - intros k old Hk. destruct (decide (k = f)) as [-> | Hne].
    + rewrite lookup_insert_eq. rewrite Hf in Hk. injection Hk as <-. eauto.
    + rewrite lookup_insert_ne by done. exists old. auto.
Qed.

Lemma take_embedded_cases item fs1 f1 fs2 f2 :
  take_embedded rewrite_stream item (fs1, f1) = Ok (fs2, f2) →
  (fs2 = fs1 ∧ f2 = f1) ∨
  ∃ f l stream, item = (py "embedded", f :: l) ∧ fs1 !! f = Some stream ∧ f2 = Some f ∧
    fs2 = <[f := overwrite (header ++ rewrite_stream stream ++ trailer) stream]> fs1.
Proof.
  destruct item as [fi l]. unfold take_embedded.
  destruct (eqb fi (py "embedded")) eqn:Hfi; [| intros [= <- <-]; by left].
  apply eqb_eq in Hfi as ->. destruct l as [|f l]; [intros [= <- <-]; by left |].
  destruct (fs1 !! f) as [stream|] eqn:Hf; cbn [of_option mbind res_bind]; [| done].
  intros [= <- <-]. right. by exists f, l, stream.
Qed.

Lemma take_embedded_written fs item acc acc' :
  embedded_written fs acc → take_embedded rewrite_stream item acc = Ok acc' →
  embedded_written fs acc'.
Proof.
  destruct acc as [fs1 f1], acc' as [fs2 f2]. intros [Hrw Hret].
  intros [[-> ->] | (f & l & stream & -> & Hf & -> & ->)]%take_embedded_cases; [done |].
  split; cbn [fst snd].
  - eapply rewritten_trans; [exact Hrw | by apply rewritten_insert].
  - eexists. rewrite lookup_insert_eq. split; [done |].
    rewrite (app_assoc header). rewrite <- app_assoc. apply overwrite_header.
Qed.

Lemma write_objstm_written path objstm dump fs fs' f :
  write_objstm rewrite_stream path objstm dump fs = Ok (fs', f) →
  embedded_written (PDFParserWrites path (QObjStmDump objstm dump) fs) (fs', f).
Proof.
  unfold write_objstm.
  generalize (PDFParserWrites path (QObjStmDump objstm dump) fs). intros fs0.
  assert (embedded_written fs0 (fs0, None)) as Hstart
    by (split; [apply rewritten_refl | done]).
  destruct (get_pdf_parser _ _) as [r|]; [| by intros [= <- <-]].
  destruct (truthy r); [| by intros [= <- <-]].
  destruct (parts r) as [ps|]; cbn [of_option mbind res_bind]; [| done].
  destruct (stream_present ps) as [[]|]; cbn [mbind res_bind]; [| by intros [= <- <-] | done].
  destruct (files r) as [[|item items]|]; try by intros [= <- <-].
  apply for_each_invariant; [| done].
  intros x s s' _. apply take_embedded_written.
Qed.

(** X17 — Once the parser has written its dump, [write_objstm]
    itself creates and deletes no file of the working directory and makes
    none shorter; a file it changes begins with the header of the mock
    document; when it returns no path the directory is as the parser
    left it, and when it returns a path the file of that path exists and
    begins with the header. *)
Theorem X17_write_objstm_files path objstm dump fs fs' f :
  write_objstm rewrite_stream path objstm dump fs = Ok (fs', f) →
  dom fs' = dom (PDFParserWrites path (QObjStmDump objstm dump) fs) ∧
  (∀ k old, PDFParserWrites path (QObjStmDump objstm dump) fs !! k = Some old →
            ∃ new, fs' !! k = Some new ∧ length old ≤ length new ∧
                   (new = old ∨ header `prefix_of` new)) ∧
  match f with
  | None => fs' = PDFParserWrites path (QObjStmDump objstm dump) fs
  | Some name => ∃ data, fs' !! name = Some data ∧ header `prefix_of` data
  end.
Proof.
  intros [[Hdom Hfiles] Hret]%write_objstm_written. done.
Qed.

(** X18 — [write_objstm] raises only in three ways: [KeyError] when
    the answer of the parser is not empty and has no parts, [IndexError]
    when one of the parts has fewer than four lines, and
    [FileNotFoundError] when a file the parser lists as embedded is not in
    the working directory after the call of the parser. *)
Theorem X18_write_objstm_raises path objstm dump fs e :
  write_objstm rewrite_stream path objstm dump fs = Raise e →
  ∃ r, get_pdf_parser path (QObjStmDump objstm dump) = Some r ∧ truthy r = true ∧
    ((e = KeyError ∧ parts r = None) ∨
     (e = IndexError ∧ ∃ ps p, parts r = Some ps ∧ p ∈ ps ∧ line3_is_stream p = None) ∨
     (e = FileNotFoundError ∧
      ∃ items f l, files r = Some items ∧ (py "embedded", f :: l) ∈ items ∧
                   PDFParserWrites path (QObjStmDump objstm dump) fs !! f = None)).
Proof.
  unfold write_objstm.
  generalize (PDFParserWrites path (QObjStmDump objstm dump) fs). intros fs0.
  destruct (get_pdf_parser _ _) as [r|] eqn:Hr; [| done].
  destruct (truthy r) eqn:Htruthy; [| done]. intros Hraise.
  exists r. split_and!; [done.. |]. revert Hraise.
  destruct (parts r) as [ps|]; cbn [of_option mbind res_bind]; [| intros [= <-]; by left].
  destruct (stream_present ps) as [[]|e'] eqn:Hpresent;
    cbn [mbind res_bind]; [| done |]; intros Hraise; right.
  - revert Hraise. destruct (files r) as [[|item items]|]; [done | | done].
    intros (x & [fs1 f1] & Hx & Hinv & Hraise)%(for_each_raise_at _ (embedded_written fs0));
      [| intros ? ? ? _; apply take_embedded_written
       | split; [apply rewritten_refl | done]].
    right. destruct x as [fi l]. unfold take_embedded in Hraise.
    destruct (eqb fi (py "embedded")) eqn:Hfi; [| done]. apply eqb_eq in Hfi as ->.
    destruct l as [|f l]; [done |].
    destruct (fs1 !! f) eqn:Hf; cbn [of_option mbind res_bind] in Hraise; [done |].
    injection Hraise as <-. split; [done |]. exists (item :: items), f, l.
    split_and!; [done.. |].
    destruct Hinv as [[Hdom _] _]. cbn [fst] in Hdom.
    apply (not_elem_of_dom (D := gset (list N))). rewrite <- Hdom.
    by apply not_elem_of_dom.
  - injection Hraise as <-. left. unfold stream_present in Hpresent.
    apply for_each_raise in Hpresent as (p & acc & Hp & Hraise).
    destruct (line3_is_stream p) eqn:Hline; cbn [of_option mbind res_bind] in Hraise; [done |].
    injection Hraise as <-. split; [done |]. by exists ps, p.
Qed.

(** X19 — A path that a step of [analyze_objstm] adds to the result
    names, when the step ends, a file of the working directory that
    begins with the header of the mock document; and a step that adds
    none leaves the result as it was. *)
Theorem X19_documents_are_files path wd p st st' :
  step rewrite_stream path wd p st = Ok st' →
  (∀ f, f ∈ obj_files st' →
        f ∈ obj_files st ∨
        ∃ data, fs_now st' !! f = Some data ∧ header `prefix_of` data) ∧
  obj_files st ⊆ obj_files st'.
Proof.
  intros [-> | Hstep]%step_cases; [split; [by left | done] |].
  destruct Hstep as (getobj & fs' & obj_file & _ & _ & _ & Hw & _ & -> & Hcase).
  apply write_objstm_written in Hw as [_ Hret]. cbn [fst snd] in *.
  destruct Hcase as [(c & f0 & -> & _ & -> & _) | (_ & _ & -> & _)]; [| split; [by left | done]].
  split; [| apply union_subseteq_r].
  intros f [->%elem_of_singleton | Hf]%elem_of_union; [by right | by left].
Qed.

End ObjStmFileProperties.

Section ExecuteNestedProperties.
Context `{Externals}.
Variable rewrite_stream : list Init.Byte.byte → list Init.Byte.byte.
Variable S : Type.
Variable analyze_pdf :
  list N → list N → list (list N) → bool → res (S * bool * list (list N)).
Import Execute.

Lemma nested_heur_idemp heur : nested_heur (nested_heur heur) = nested_heur heur.
Proof.
  unfold nested_heur. induction heur as [|x heur IH]; [done |].
  rewrite filter_cons. case_decide as Hx; [| done].
  rewrite filter_cons, decide_True by done. by rewrite IH.
Qed.

Lemma nested_loop l n h sections acc' :
  for_each (nested S analyze_pdf) l (n, h, sections) = Ok acc' →
  ∃ rs, acc'.2 = sections ++ (Analysis <$> rs) ∧ length rs = length l ∧
    ∀ i osf r', l !! i = Some osf → rs !! i = Some r' →
      ∃ parent b e,
        index (fields (basename osf) "_" None) 1 = Some parent ∧
        analyze_pdf (nested_title (n + i) parent) osf (nested_heur h) false = Ok (r', b, e).
Proof.
  revert n h sections; induction l as [|osf l IH]; intros n h sections; cbn [for_each].
  - intros [= <-]. exists []. cbn [snd fmap list_fmap length]. rewrite app_nil_r.
    split_and!; [done.. |]. by intros i ? ? ?.
  - unfold nested at 1.
    destruct (index (fields (basename osf) "_" None) 1) as [parent|] eqn:Hparent;
      cbn [of_option mbind res_bind]; [| done].
    destruct (analyze_pdf _ _ _ _) as [[[r b] e]|] eqn:Hr; cbn [mbind res_bind]; [| done].
    intros (rs & -> & Hlen & Hrs)%IH. exists (r :: rs). split_and!.
    + by rewrite <- app_assoc.
    + cbn [length]. by rewrite Hlen.
    + intros [|i] osf' r'; cbn [lookup list_lookup].
      * intros [= <-] [= <-]. exists parent, b, e. rewrite Nat.add_0_r. done.
      * intros Hosf Hr'. destruct (Hrs i osf' r' Hosf Hr') as (parent' & b' & e' & ? & Hrun).
        exists parent', b', e'. rewrite nested_heur_idemp in Hrun.
        by rewrite Nat.add_succ_r.
Qed.

(** X20 — When the main document counts /ObjStm and [execute]
    returns, the result is the section of the main document, then one
    section for each reconstructed document, in the order of the set of
    files, then the errors of the main document only.  The document at
    position [i] is analysed under the title of number [1 + i] and of
    the parent object read in its file name, without the three plugins
    that [execute] drops, without extraction, and its own flag and errors
    are not used. *)
Theorem X20_nested_documents cfg file_size deep path wd heur fs out r errors :
  (file_size <? default 3000000 cfg)%Z || deep = true →
  analyze_pdf (py "Main Document Results") path heur true = Ok (r, true, errors) →
  execute rewrite_stream S analyze_pdf cfg file_size deep path wd heur fs = Ok out →
  ∃ st rs,
    ObjStm.analyze_objstm rewrite_stream path wd deep fs = Ok st ∧
    out = Analysis r :: (Analysis <$> rs)
          ++ match remove_dups errors with
             | [] => []
             | es => [ErrorLines es]
             end ∧
    length rs = length (elements (ObjStm.obj_files st)) ∧
    ∀ i osf r', elements (ObjStm.obj_files st) !! i = Some osf → rs !! i = Some r' →
      ∃ parent b e,
        index (fields (basename osf) "_" None) 1 = Some parent ∧
        analyze_pdf (nested_title (1 + i) parent) osf (nested_heur heur) false
        = Ok (r', b, e).
Proof.
  intros Hsize Hmain. unfold execute. rewrite Hsize, Hmain. cbn [mbind res_bind].
  destruct (ObjStm.analyze_objstm _ _ _ _ _) as [st|]; cbn [mbind res_bind]; [| done].
  destruct (for_each _ _ _) as [[[n h] sections]|] eqn:Hloop; cbn [mbind res_bind]; [| done].
  apply nested_loop in Hloop as (rs & Hsections & Hlen & Hrs). cbn [snd] in Hsections.
  intros [= <-]. exists st, rs. subst sections. split_and!; done.
Qed.

End ExecuteNestedProperties.

Section MoreSamples.
Import Sample.

Lemma X11_files_written_witness :
  ∃ st a, Carve.content_of_interest (py "/tmp") twice_carved = Ok st ∧
    a ∈ Carve.artifacts st ∧
    ∃ k con, 500 ≤ length con ∧ encode con = Some (Carve.a_data a) ∧
             Carve.a_name a = Carve.carved_name k (sha256_hexdigest (Carve.a_data a)).
Proof.
  destruct (Carve.content_of_interest (py "/tmp") twice_carved) as [st|] eqn:Hrun;
    [| vm_compute in Hrun; discriminate].
  destruct (Carve.artifacts st) as [|a rest] eqn:Ha.
  - exfalso.
    assert (match Carve.content_of_interest (py "/tmp") twice_carved with
            | Ok st => match Carve.artifacts st with [] => false | _ => true end
            | Raise _ => false
            end = true) as Hsome by (vm_compute; reflexivity).
    rewrite Hrun, Ha in Hsome. discriminate.
  - assert (a ∈ Carve.artifacts st) as Hin by (rewrite Ha; left).
    destruct (X11_files_written (py "/tmp") twice_carved st a Hrun Hin)
      as (k & l & keyw & con & _ & _ & Hlen & Henc & Hname & _).
    exists st, a. split; [reflexivity |]. split; [exact Hin |].
    exists k, con. split; [exact Hlen |]. split; [exact Henc | exact Hname].
Defined.

Lemma X12_section_shown_witness :
  ∃ st, Carve.content_of_interest (py "/tmp") twice_carved = Ok st ∧
    (Carve.show_content_of_interest st = true ↔ Carve.subsections st ≠ []) ∧
    length (Carve.artifacts st) ≤ length (Carve.subsections st).
Proof.
  destruct (Carve.content_of_interest (py "/tmp") twice_carved) as [st|] eqn:Hrun.
  - exists st. split; [reflexivity |].
    destruct (X12_section_shown (py "/tmp") twice_carved st Hrun)
      as (Hshown & Hlen & _).
    split; [exact Hshown | exact Hlen].
  - vm_compute in Hrun. discriminate.
Defined.

Lemma X13_carved_keywords_witness :
  ∃ st, Triage.triage false (py "annotated.pdf") [py "OpenAction"; py "Annot"] = Ok st ∧
    (∀ k l kw c, Triage.carved_content st !! k = Some l → (kw, c) ∈ l →
                 kw ∈ [py "OpenAction"; py "Annot"] ∧ kw ≠ py "ObjStm") ∧
    (Triage.jbig_objs st ≠ ∅ → py "JBIG2Decode" ∈ [py "OpenAction"; py "Annot"]).
Proof.
  destruct (Triage.triage false (py "annotated.pdf") [py "OpenAction"; py "Annot"])
    as [st|] eqn:Hrun.
  - exists st. split; [reflexivity |].
    exact (X13_carved_keywords false (py "annotated.pdf")
             [py "OpenAction"; py "Annot"] st Hrun).
  - vm_compute in Hrun. discriminate.
Defined.

Lemma X14_triage_raises_witness :
  ∃ keyword r,
    keyword ∈ [py "OpenAction"] ∧ keyword ≠ py "ObjStm" ∧
    @get_pdf_parser Cases.externals (py "truncated.pdf") (QSearch keyword) = Some r ∧
    truthy r = true ∧
    ((IndexError = KeyError ∧ parts r = None) ∨
     (IndexError = IndexError ∧
      ∃ ps p, parts r = Some ps ∧ p ∈ ps ∧ startswith p (py "trailer:") = false ∧
              (objnum_of p = None ∨ line3_is_stream p = None))).
Proof.
  apply (@X14_triage_raises Cases.externals false (py "truncated.pdf") [py "OpenAction"]
           IndexError).
  vm_compute. reflexivity.
Defined.

Lemma X15_triage_queries_witness :
  @Triage.triage externals false (py "annotated.pdf")
    [py "OpenAction"; py "ObjStm"; py "Annot"]
  = @Triage.triage Cases.externals false (py "annotated.pdf")
      [py "OpenAction"; py "ObjStm"; py "Annot"].
Proof.
  apply (X15_triage_queries externals Cases.externals (py "annotated.pdf")).
  - intros o. vm_compute. reflexivity.
  - intros k c. reflexivity.
  - intros k _ _. vm_compute. reflexivity.
Defined.

Lemma X16_objects_dumped_witness :
  ∃ qs, @Extraction.extraction_pass Cases.externals false true (py "attachment.pdf")
          Cases.marked = Ok qs ∧
    (∀ objs, QExtract objs ∈ qs → objs ≠ ∅) ∧
    (∀ o, (∃ objs, QExtract objs ∈ qs ∧ o ∈ objs) ↔
          o ∈ Triage.obj_extract_triage Cases.marked ∧
          ¬ @embedded_object Cases.externals (py "attachment.pdf") false true o ∧
          o ∉ Triage.jbig_objs Cases.marked).
Proof.
  destruct (@Extraction.extraction_pass Cases.externals false true (py "attachment.pdf")
              Cases.marked) as [qs|] eqn:Hrun.
  - exists qs. split; [reflexivity |].
    destruct (@X16_objects_dumped Cases.externals false true (py "attachment.pdf")
                Cases.marked qs Hrun) as (Hobjs & Hne & _).
    split; [exact Hne | exact Hobjs].
  - vm_compute in Hrun. discriminate.
Defined.

Lemma X17_write_objstm_files_witness :
  ∃ fs' f, ObjStm.write_objstm keep (py "containers.pdf") (py "5")
             (py "/tmp/objstm_5_0") ∅ = Ok (fs', f) ∧
    dom fs' = dom (PDFParserWrites (py "containers.pdf")
                     (QObjStmDump (py "5") (py "/tmp/objstm_5_0")) ∅) ∧
    match f with
    | None => fs' = PDFParserWrites (py "containers.pdf")
                      (QObjStmDump (py "5") (py "/tmp/objstm_5_0")) ∅
    | Some name => ∃ data, fs' !! name = Some data ∧ ObjStm.header `prefix_of` data
    end.
Proof.
  destruct (ObjStm.write_objstm keep (py "containers.pdf") (py "5")
              (py "/tmp/objstm_5_0") ∅) as [[fs' f]|] eqn:Hrun.
  - exists fs', f. split; [reflexivity |].
    destruct (X17_write_objstm_files keep (py "containers.pdf") (py "5")
                (py "/tmp/objstm_5_0") ∅ fs' f Hrun) as (Hdom & _ & Hret).
    split; [exact Hdom | exact Hret].
  - vm_compute in Hrun. discriminate.
Defined.

Lemma X18_write_objstm_raises_witness :
  ∃ r, @get_pdf_parser Cases.externals (py "truncated.pdf")
         (QObjStmDump (py "5") (py "/tmp/objstm_5_0")) = Some r ∧ truthy r = true ∧
    ((IndexError = KeyError ∧ parts r = None) ∨
     (IndexError = IndexError ∧
      ∃ ps p, parts r = Some ps ∧ p ∈ ps ∧ line3_is_stream p = None) ∨
     (IndexError = FileNotFoundError ∧
      ∃ items f l, files r = Some items ∧ (py "embedded", f :: l) ∈ items ∧
                   @PDFParserWrites Cases.externals (py "truncated.pdf")
                     (QObjStmDump (py "5") (py "/tmp/objstm_5_0")) ∅ !! f = None)).
Proof.
  apply (@X18_write_objstm_raises Cases.externals keep (py "truncated.pdf") (py "5")
           (py "/tmp/objstm_5_0") ∅ IndexError).
  vm_compute. reflexivity.
Defined.

Lemma X19_documents_are_files_witness :
  ∃ st', ObjStm.step keep (py "containers.pdf") (py "/tmp") (objstm "5") (ObjStm.start ∅)
         = Ok st' ∧
    (∀ f, f ∈ ObjStm.obj_files st' →
          f ∈ ObjStm.obj_files (ObjStm.start ∅) ∨
          ∃ data, ObjStm.fs_now st' !! f = Some data ∧ ObjStm.header `prefix_of` data) ∧
    ObjStm.obj_files (ObjStm.start ∅) ⊆ ObjStm.obj_files st'.
Proof.
  destruct (ObjStm.step keep (py "containers.pdf") (py "/tmp") (objstm "5") (ObjStm.start ∅))
    as [st'|] eqn:Hrun.
  - exists st'. split; [reflexivity |].
    exact (X19_documents_are_files keep (py "containers.pdf") (py "/tmp") (objstm "5")
             (ObjStm.start ∅) st' Hrun).
  - vm_compute in Hrun. discriminate.
Defined.

Lemma X20_nested_documents_witness :
  ∃ out st rs,
    Execute.execute keep (list N) Cases.analysed None 10%Z true (py "containers.pdf")
      (py "/tmp") [] dumps = Ok out ∧
    ObjStm.analyze_objstm keep (py "containers.pdf") (py "/tmp") true dumps = Ok st ∧
    out = Execute.Analysis (py "Main Document Results") :: (Execute.Analysis <$> rs) ++ [] ∧
    length rs = length (elements (ObjStm.obj_files st)).
Proof.
  destruct (Execute.execute keep (list N) Cases.analysed None 10%Z true
              (py "containers.pdf") (py "/tmp") [] dumps) as [out|] eqn:Hrun.
  - destruct (X20_nested_documents keep (list N) Cases.analysed None 10%Z true
                (py "containers.pdf") (py "/tmp") [] dumps out
                (py "Main Document Results") [] eq_refl eq_refl Hrun)
      as (st & rs & Hst & Hout & Hlen & _).
    exists out, st, rs. split; [reflexivity |]. split; [exact Hst |].
    split; [exact Hout | exact Hlen].
  - vm_compute in Hrun. discriminate.
Defined.

End MoreSamples.

Section PdfidFlagsProperties.
Import Pdfid.

Lemma plugins_embed_present l st st' :
  for_each plugin_step l st = Ok st' →
  p_embed_present st' = p_embed_present st || existsb announces_attachment l.
Proof.
  revert st; induction l as [|entry l IH]; intros st; cbn [for_each existsb].
  - intros [= <-]. by rewrite orb_false_r.
  - destruct (plugin_step entry st) as [s1|] eqn:Hstep; [| done].
    intros ->%IH. rewrite orb_assoc. f_equal.
    revert Hstep. unfold plugin_step, announces_attachment.
    destruct (pl_heur entry); cbn [of_option mbind res_bind]; [| done].
    destruct (_ || _); cbn [negb].
    { intros [= <-]. by rewrite andb_false_r, orb_false_r. }
    rewrite andb_true_r. unfold inlist. cbn [existsb].
    destruct (eqb (pl_name entry) (py "EmbeddedFile")) eqn:Hname; cbn [orb].
    + intros [= <-]. cbn [p_embed_present orb]. by rewrite orb_true_r.
    + rewrite orb_false_r.
      repeat match goal with |- context [if ?b then _ else _] => destruct b end;
        intros [= <-]; cbn [p_embed_present]; by rewrite orb_false_r.
Qed.

(** X21 — The PDFiD part reports an embedded file exactly when the
    report has a plugin entry named EmbeddedFile whose text, after its
    first 14 characters, is neither empty nor "None". *)
Theorem X21_embed_present deep get_malform additional_keywords r f :
  scan deep get_malform additional_keywords r = Ok f →
  embed_present f = true ↔
  ∃ entry, entry ∈ default [] (r_plugin r) ∧
           pl_name entry = py "EmbeddedFile" ∧
           drop 14 (pl_text entry) ≠ [] ∧ drop 14 (pl_text entry) ≠ py "None".
Proof.
  intros Hscan.
  assert (embed_present f = existsb announces_attachment (default [] (r_plugin r))) as ->.
  { revert Hscan. unfold scan. destruct (is_empty r) eqn:Hempty.
    - intros [= <-]. cbn [embed_present]. unfold is_empty in Hempty.
      destruct (r_plugin r); [| done]. exfalso. cbn in Hempty.
      by rewrite !orb_true_r in Hempty.
    - destruct (if get_malform then _ else _) as [[version_lines doc_sections]|];
        cbn [mbind res_bind]; [|done].
      destruct (match r_flags r with Some (f0 :: fs) => _ | _ => _ end) as [[fl fsec]|];
        cbn [mbind res_bind]; [|done].
      destruct (for_each plugin_step _ _) as [pl|] eqn:Hloop; cbn [mbind res_bind]; [|done].
      intros [= <-]. cbn [embed_present].
      by apply plugins_embed_present in Hloop. }
  rewrite existsb_exists. unfold announces_attachment. split.
  - intros (entry & Hin%list_elem_of_In & [Hname%eqb_eq Htext%negb_true_iff]%andb_true_iff).
    apply orb_false_iff in Htext as [Hnil Hnone]. exists entry. split_and!; [done.. | |].
    + intros Heq. by rewrite Heq in Hnil.
    + intros Heq. by rewrite Heq, eqb_refl in Hnone.
  - intros (entry & Hin%list_elem_of_In & Hname & Hnil & Hnone). exists entry.
    split; [done |]. rewrite Hname, eqb_refl. cbn [andb]. apply negb_true_iff, orb_false_iff.
    split; apply not_true_is_false; by intros ?%eqb_eq.
Qed.

(** X22 — The structural parser is run whenever the PDFiD part
    leaves a triage keyword or reports an embedded file. *)
Theorem X22_keywords_are_triaged deep get_malform additional_keywords r f :
  scan deep get_malform additional_keywords r = Ok f →
  triage_keywords f ≠ ∅ ∨ embed_present f = true →
  run_pdfparse f = true.
Proof.
  unfold scan. destruct (is_empty r).
  { intros [= <-]. cbn [triage_keywords embed_present]. by intros [? | ?]. }
  destruct (if get_malform then _ else _) as [[version_lines doc_sections]|];
    cbn [mbind res_bind]; [|done].
  destruct (match r_flags r with Some (f0 :: fs) => _ | _ => _ end) as [[fl fsec]|];
    cbn [mbind res_bind]; [|done].
  destruct (default [] (r_plugin r)) as [|entry plugin].
  - cbn [for_each mbind res_bind]. intros [= <-].
    cbn [triage_keywords embed_present run_pdfparse fst].
    intros [Hne | ?]; [| done].
    rewrite (bool_decide_eq_false_2 (f_keywords fl = ∅)) by done. apply orb_true_r.
  - destruct (for_each plugin_step _ _) as [pl|]; cbn [mbind res_bind]; [|done].
    intros [= <-] _. cbn [run_pdfparse]. by rewrite orb_true_r.
Qed.

End PdfidFlagsProperties.

Section PdfidFlagsSamples.
Import Cases.

Lemma X21_embed_present_witness :
  ∃ f, Pdfid.scan false false [py "/Page"] report = Ok f ∧
    (Pdfid.embed_present f = true ↔
     ∃ entry, entry ∈ default [] (Pdfid.r_plugin report) ∧
              Pdfid.pl_name entry = py "EmbeddedFile" ∧
              drop 14 (Pdfid.pl_text entry) ≠ [] ∧
              drop 14 (Pdfid.pl_text entry) ≠ py "None").
Proof.
  destruct (Pdfid.scan false false [py "/Page"] report) as [f|] eqn:Hrun.
  - exists f. split; [reflexivity |].
    exact (X21_embed_present false false [py "/Page"] report f Hrun).
  - vm_compute in Hrun. discriminate.
Defined.

Lemma X22_keywords_are_triaged_witness :
  ∃ f, Pdfid.scan false false [py "/Page"] report = Ok f ∧ Pdfid.run_pdfparse f = true.
Proof.
  destruct (Pdfid.scan false false [py "/Page"] report) as [f|] eqn:Hrun;
    [| vm_compute in Hrun; discriminate].
  exists f. split; [reflexivity |].
  apply (X22_keywords_are_triaged false false [py "/Page"] report f Hrun).
  left.
  assert (match Pdfid.scan false false [py "/Page"] report with
          | Ok f => bool_decide (Pdfid.triage_keywords f ≠ ∅)
          | Raise _ => false
          end = true) as Hk by (vm_compute; reflexivity).
  rewrite Hrun in Hk. exact (bool_decide_eq_true_1 _ Hk).
Defined.

End PdfidFlagsSamples.
